(** * LPdispurse: trade execution, replication and submission core

    A shallow embedding of the computational core of the repository
    ([core/stellar.py], [services/trade_services.py],
    [services/copy_trading.py], [rewards_disbursement_bot/payouts.py], and
    of the reward bot the calculator, the labels of [discovery.py] and the
    memo of [cli.py]), the properties the specification states about it and
    further properties of the code.

    Conventions of the embedding.
    - Python [float] amounts are modelled by exact rationals ([Q]); binary64
      rounding error is outside the model.  [round(x, 7)] is rounding to the
      nearest multiple of 10^-7, ties to even.
    - Python [int] values are [Z].
    - [async] functions run sequentially between awaits; they are written in
      a state-and-exception monad over the state of the outside world.  The
      world (Horizon, the signing enclave, the databases, the chat bot) is the
      [app_context] argument of the source: a record of operations on an
      abstract world state.  Every interaction is also appended to a log, so
      that what a function did can be stated.
    - Exceptions carry the text [str(e)] returns, because the source
      classifies failures by searching that text.  Where a message of the
      source prints an amount, the number is left out of the text.
    - The stellar_sdk is not part of the repository: its builders are taken
      as constructors of the values they build, and its own validations
      (asset codes, memo length, the format of a signed envelope) are not
      modelled.  [services/referrals.py] is not under the sources either; its
      two functions are operations of the context.
    - Logging has no effect on any result and is left out.

    The file has three parts: the model of the source, module by module;
    the vocabulary the properties use, with a scripted world to run the model
    on concrete inputs; the properties. *)

From Stdlib Require Import ZArith QArith Qround Qminmax Lqa Lia Bool List String Ascii.
From Stdlib Require Import DecimalString.
From Stdlib Require Import Sorting.Sorted Sorting.Permutation.
Import ListNotations.

Local Open Scope Z_scope.

(** ** Python values, exceptions and the effect monad *)

Module Py.

(** The exception classes the core raises or meets. *)
Inductive exn_class : Type :=
| ValueError
| TimeoutError
| KeyError
| IndexError
| ZeroDivisionError
| RuntimeError
| HorizonError      (* stellar_sdk / aiohttp errors coming from a query *)
| Exception.        (* a bare [Exception(...)] *)

Record exn : Type := mk_exn { exn_cls : exn_class; exn_msg : string }.

(** [str(e)] *)
Definition str (e : exn) : string := exn_msg e.

Inductive result (A : Type) : Type :=
| Ok (a : A)
| Raise (e : exn).
Arguments Ok {A} a.
Arguments Raise {A} e.

(** [needle in hay] on strings. *)
Fixpoint contains (needle hay : string) : bool :=
  if String.prefix needle hay then true
  else match hay with
       | EmptyString => false
       | String _ rest => contains needle rest
       end.

(** [c.lower()] on an ASCII character, and [s.lower()]. *)
Definition lower_ascii (c : ascii) : ascii :=
  let n := nat_of_ascii c in
  if (andb (65 <=? n) (n <=? 90))%nat then ascii_of_nat (n + 32) else c.

Fixpoint lower (s : string) : string :=
  match s with
  | EmptyString => EmptyString
  | String c rest => String (lower_ascii c) (lower rest)
  end.

(** [l[i]] for a Python list: negative indices count from the end, an index
    out of range raises [IndexError]. *)
Definition getitem {A : Type} (l : list A) (i : Z) : result A :=
  let n := Z.of_nat (List.length l) in
  let j := if i <? 0 then i + n else i in
  if (j <? 0) || (n <=? j) then Raise (mk_exn IndexError "list index out of range")
  else match nth_error l (Z.to_nat j) with
       | Some a => Ok a
       | None => Raise (mk_exn IndexError "list index out of range")
       end.

(** [list.sort(key=...)]: a stable ascending sort; [leb x y] is
    [key(x) <= key(y)].  Elements with equal keys keep their order. *)
Section Sort.
Context {A : Type} (leb : A -> A -> bool).

Fixpoint insert (x : A) (l : list A) : list A :=
  match l with
  | [] => [x]
  | y :: l' => if leb x y then x :: y :: l' else y :: insert x l'
  end.

Fixpoint sort (l : list A) : list A :=
  match l with
  | [] => []
  | x :: l' => insert x (sort l')
  end.
End Sort.

(** *** Amounts *)

(** Round half to even of a rational to an integer. *)
Definition round_half_even (x : Q) : Z :=
  let f := Qfloor x in
  match Qcompare (x - inject_Z f) (1 # 2) with
  | Lt => f
  | Gt => f + 1
  | Eq => if Z.even f then f else f + 1
  end.

(** [round(x, 7)] *)
Definition round7 (x : Q) : Q :=
  (inject_Z (round_half_even (x * inject_Z 10000000)) / inject_Z 10000000)%Q.

(** [max(a, b)] on numbers: the first argument unless the second is
    strictly larger. *)
Definition pymax (a b : Q) : Q := if Qle_bool b a then a else b.

(** [min(a, b)]: the first argument unless the second is strictly smaller. *)
Definition pymin (a b : Q) : Q := if Qle_bool a b then a else b.

(** One stroop, [0.0000001]. *)
Definition stroop : Q := 1 # 10000000.

Definition Qltb (a b : Q) : bool := negb (Qle_bool b a).

End Py.

Export Py.

(** ** The ledger's data, as the Horizon JSON the source reads *)

Inductive Asset : Type :=
| Native
| Credit (code issuer : string).

Definition is_native (a : Asset) : bool :=
  match a with Native => true | Credit _ _ => false end.

Definition Asset_eqb (a b : Asset) : bool :=
  match a, b with
  | Native, Native => true
  | Credit c i, Credit c' i' => String.eqb c c' && String.eqb i i'
  | _, _ => false
  end.

(** One entry of [account["balances"]]. *)
Record Balance : Type := {
  asset_type : string;
  asset_code : option string;
  asset_issuer : option string;
  balance : Q;
  selling_liabilities : Q }.

(** An account as [load_account_async] returns it. *)
Record Account : Type := {
  balances : list Balance;
  subentry_count : Z;
  num_sponsoring : option Z;
  num_sponsored : option Z;
  sequence : Z }.

(** A record of a strict-send or strict-receive path query; [path] holds
    the intermediate assets. *)
Record PathRecord : Type := {
  source_amount : Q;
  destination_amount : Q;
  path : list Asset }.

Record Offer : Type := { price : Q; amount : Q }.
Record OrderBook : Type := { asks : list Offer; bids : list Offer }.

Inductive Operation : Type :=
| ChangeTrust (asset : Asset) (limit : Q)
| PathPaymentStrictReceive (destination : string) (send_asset : Asset) (send_max : Q)
    (dest_asset : Asset) (dest_amount : Q) (path : list Asset)
| PathPaymentStrictSend (destination : string) (send_asset : Asset) (send_amount : Q)
    (dest_asset : Asset) (dest_min : Q) (path : list Asset)
| Payment (destination : string) (asset : Asset) (amount : Q).

(** What [TransactionBuilder(...).build()] is given: the unsigned envelope. *)
Record Transaction : Type := {
  tx_source : string;
  tx_sequence : Z;
  tx_base_fee : Z;
  tx_min_time : Z;
  tx_max_time : Z;
  tx_operations : list Operation;
  tx_memo : option string }.

(** The JSON answer of the submission endpoint. *)
Record Response : Type := {
  tx_status : option string;
  hash : option string;
  title : option string;
  detail : option string;
  fee_charged : option Z;
  effect_amount : option Q }.

(** The JSON of a transaction looked up by hash; the key ["successful"] may
    be missing. *)
Record TxRecord : Type := { successful : option bool }.

(** The JSON of an observed transaction, as the copy-trade feed hands it
    over. *)
Record ObservedTx : Type := {
  otx_successful : option bool;
  otx_hash : string;
  otx_source_account : string }.

(** The JSON of one operation of an observed transaction.  A strict-send
    payment has [source_amount], [destination_min] and [amount] (what was
    received); a strict-receive payment has [source_max] and [amount]. *)
Record OpRecord : Type := {
  op_type : string;
  op_source_account : option string;
  op_source_asset : Asset;
  op_asset : Asset;
  op_source_amount : Q;
  op_destination_min : Q;
  op_source_max : Q;
  op_amount : Q;
  op_path : list Asset }.

(** One effect of a transaction. *)
Record Effect : Type := {
  eff_type : string;
  eff_asset : option Asset;
  eff_amount : Q }.

(** A row of the [copy_trading] table. *)
Record CopyConfig : Type := {
  multiplier : Q;
  fixed_amount : option Q;
  cfg_slippage : Q }.

(** A Telegram user id, or Python's [None]. *)
Definition user_id : Type := option Z.

(** [if telegram_id]: [None] and [0] are false. *)
Definition truthy_id (t : user_id) : bool :=
  match t with
  | Some n => negb (n =? 0)
  | None => false
  end.

(** ** The world and the effect monad *)

(** Every interaction with the outside is recorded. *)
Inductive Event : Type :=
| EvLoadPublicKey (t : user_id)
| EvLoadAccount (public_key : string)
| EvQuery (what : string)
| EvSign (t : user_id) (tx : Transaction)
| EvPost (signed_xdr : string)
| EvPoll (tx_hash : string)
| EvSleep (seconds : Q)
| EvSendMessage (chat_id : Z) (text : string).

Record State (W : Type) : Type := mk_state { world : W; log : list Event }.
Arguments mk_state {W} world log.
Arguments world {W} s.
Arguments log {W} s.

Definition M (W A : Type) : Type := State W -> result A * State W.

Definition ret {W A : Type} (a : A) : M W A := fun s => (Ok a, s).

Definition raise {W A : Type} (e : exn) : M W A := fun s => (Raise e, s).

Definition bind {W A B : Type} (m : M W A) (k : A -> M W B) : M W B :=
  fun s => match m s with
           | (Ok a, s') => k a s'
           | (Raise e, s') => (Raise e, s')
           end.

(** [try: m except Exception as e: h e] *)
Definition try_except {W A : Type} (m : M W A) (h : exn -> M W A) : M W A :=
  fun s => match m s with
           | (Ok a, s') => (Ok a, s')
           | (Raise e, s') => h e s'
           end.

(** Lift a result computed without effects. *)
Definition lift {W A : Type} (r : result A) : M W A := fun s => (r, s).

(** One call to the outside: log it, then let the world answer. *)
Definition call {W A : Type} (ev : Event) (f : W -> result A * W) : M W A :=
  fun s => let (r, w') := f (world s) in (r, mk_state w' (log s ++ [ev])%list).

Declare Scope py_scope.
Delimit Scope py_scope with py.
Notation "x <- m ;; k" := (bind m (fun x => k))
  (at level 100, m at next level, right associativity) : py_scope.
Notation "m ;;; k" := (bind m (fun _ => k))
  (at level 100, right associativity) : py_scope.
Local Open Scope string_scope.
Local Open Scope Z_scope.
Local Open Scope py_scope.

(** The [app_context] object: configuration and the clients it holds.  Each
    operation may change the world and may raise. *)
Record AppContext (W : Type) : Type := {
  fee_wallet : string;
  slippage : option Q;             (* [getattr(app_context, 'slippage', 0.05)] *)
  load_public_key : user_id -> W -> result string * W;
  sign_transaction : user_id -> Transaction -> W -> result string * W;
  accounts_call : string -> W -> result Account * W;
  ledgers_call : W -> result (list Z) * W;             (* sequences, newest first *)
  transactions_for_ledger : Z -> W -> result (list Z) * W;   (* [max_fee] of each *)
  transaction_call : string -> W -> result TxRecord * W;
  (* paths between the native asset and [asset] for [amount], at most [limit] *)
  strict_receive_paths : Asset -> Q -> Z -> W -> result (list PathRecord) * W;
  strict_send_paths : Asset -> Q -> Z -> W -> result (list PathRecord) * W;
  orderbook_call : Asset -> Asset -> W -> result OrderBook * W;
  post : string -> W -> result Response * W;
  time_time : W -> Z;              (* [int(time.time())] *)
  sleep : Q -> W -> W;
  bot_send_message : Z -> string -> W -> result unit * W;
  (* the copy-trading database and services/referrals.py *)
  operations_for_transaction : string -> W -> result (list OpRecord) * W;
  effects_for_transaction : string -> W -> result (list Effect) * W;
  copy_trading_row : user_id -> string -> W -> result (option CopyConfig) * W;
  referrer_of : user_id -> W -> result (option Z) * W;
  log_xlm_volume : user_id -> Q -> string -> W -> result unit * W;
  calculate_referral_shares : user_id -> Q -> W -> result unit * W }.
Arguments fee_wallet {W} a.
Arguments slippage {W} a.
Arguments load_public_key {W} a.
Arguments sign_transaction {W} a.
Arguments accounts_call {W} a.
Arguments ledgers_call {W} a.
Arguments transactions_for_ledger {W} a.
Arguments transaction_call {W} a.
Arguments strict_receive_paths {W} a.
Arguments strict_send_paths {W} a.
Arguments orderbook_call {W} a.
Arguments post {W} a.
Arguments time_time {W} a.
Arguments sleep {W} a.
Arguments bot_send_message {W} a.
Arguments operations_for_transaction {W} a.
Arguments effects_for_transaction {W} a.
Arguments copy_trading_row {W} a.
Arguments referrer_of {W} a.
Arguments log_xlm_volume {W} a.
Arguments calculate_referral_shares {W} a.

(** ** core/stellar.py *)

Module Stellar.
Section WithContext.
Context {W : Type} (app_context : AppContext W).

(** [load_account_async] *)
Definition load_account_async (public_key : string) : M W Account :=
  call (EvLoadAccount public_key) (accounts_call app_context public_key).

(** [has_trustline] *)
Definition balance_matches (asset : Asset) (b : Balance) : bool :=
  match asset with
  | Native => String.eqb (asset_type b) "native"
  | Credit code issuer =>
      negb (String.eqb (asset_type b) "native")
      && match asset_code b, asset_issuer b with
         | Some c, Some i => String.eqb c code && String.eqb i issuer
         | _, _ => false
         end
  end.

Definition has_trustline (account : Account) (asset : Asset) : bool :=
  existsb (balance_matches asset) (balances account).

(** [has_trustline] with the indexing of its loop written out, for the
    callers whose accounts may hold entries without a code (the shares of a
    liquidity pool): [balance["asset_code"]] and [balance["asset_issuer"]]
    raise [KeyError] on an entry that is not native and lacks the key, when
    the search reaches it; the issuer is looked up only when the code
    matches.  The code of the native asset is ["XLM"] and it has no issuer,
    so no entry with an issuer matches it. *)
Fixpoint has_trustline_indexed (asset : Asset) (balances : list Balance) : result bool :=
  match balances with
  | [] => Ok false
  | b :: rest =>
      let native_entry := String.eqb (asset_type b) "native" in
      if is_native asset && native_entry then Ok true
      else if native_entry then has_trustline_indexed asset rest
      else
        match asset_code b with
        | None => Raise (mk_exn KeyError "'asset_code'")
        | Some c =>
            if String.eqb c (match asset with Native => "XLM" | Credit code _ => code end)
            then
              match asset_issuer b with
              | None => Raise (mk_exn KeyError "'asset_issuer'")
              | Some i =>
                  if match asset with Native => false | Credit _ issuer => String.eqb i issuer end
                  then Ok true
                  else has_trustline_indexed asset rest
              end
            else has_trustline_indexed asset rest
        end
  end.

(** The statements of [get_recommended_fee] after the two queries: the
    median of the sorted fees. *)
Definition median_fee (fees : list Z) : result Z :=
  let fees := sort Z.leb fees in
  let len := Z.of_nat (List.length fees) in
  let mid := len / 2 in
  if len mod 2 =? 0 then
    match getitem fees mid, getitem fees (mid - 1) with
    | Ok a, Ok b => Ok ((a + b) / 2)
    | Raise e, _ => Raise e
    | _, Raise e => Raise e
    end
  else getitem fees mid.

(** The two queries of [get_recommended_fee]: the newest ledger, then the
    transactions of that ledger. *)
Definition query_fees : M W (list Z) :=
  ledgers <- call (EvQuery "ledgers") (ledgers_call app_context) ;;
  latest_ledger <- lift (getitem ledgers 0) ;;
  call (EvQuery "transactions") (transactions_for_ledger app_context latest_ledger).

(** [get_recommended_fee] *)
Definition get_recommended_fee : M W Z :=
  try_except
    (fees <- query_fees ;;
     match fees with
     | [] => ret 10000
     | _ => lift (median_fee fees)
     end)
    (fun _ => ret 10000).

(** The memo of the envelope: [if memo: tx_builder.add_text_memo(memo)]; the
    empty string is false. *)
Definition memo_of (memo : option string) : option string :=
  match memo with
  | Some EmptyString => None
  | Some m => Some m
  | None => None
  end.

(** [build_and_submit_transaction]; returns the response and the signed
    blob.  [tx_sequence] is the sequence number given to the SDK's builder,
    the one just loaded (the builder itself counts one up from it). *)
Definition build_and_submit_transaction (telegram_id : user_id)
    (operations : list Operation) (memo : option string) (base_fee : option Z)
  : M W (Response * string) :=
  public_key <- call (EvLoadPublicKey telegram_id) (load_public_key app_context telegram_id) ;;
  account_data <- load_account_async public_key ;;
  let sequence := sequence account_data in
  base_fee <- match base_fee with
              | None =>
                  recommended_fee <- get_recommended_fee ;;
                  ret (Z.max recommended_fee (200 * Z.of_nat (List.length operations)))
              | Some f => ret f
              end ;;
  now <- (fun s => (Ok (time_time app_context (world s)), s)) ;;
  let tx := {| tx_source := public_key;
               tx_sequence := sequence;
               tx_base_fee := base_fee;
               tx_min_time := 0;
               tx_max_time := now + 900;
               tx_operations := operations;
               tx_memo := memo_of memo |} in
  signed_xdr <- call (EvSign telegram_id tx) (sign_transaction app_context telegram_id tx) ;;
  response_dict <- call (EvPost signed_xdr) (post app_context signed_xdr) ;;
  let failed :=
    mk_exn Exception
      ("Transaction failed: "
         ++ match title response_dict with Some t => t | None => "Unknown error" end
         ++ ", details: "
         ++ match detail response_dict with Some d => d | None => "No details" end) in
  match tx_status response_dict with
  | Some status =>
      if String.eqb status "ERROR" then raise failed
      else ret (response_dict, signed_xdr)
  | None => raise failed
  end.

(** [asyncio.sleep(interval)] *)
Definition asyncio_sleep (seconds : Q) : M W unit :=
  fun s => (Ok tt, mk_state (sleep app_context seconds (world s)) (log s ++ [EvSleep seconds])%list).

(** One pass through the body of the polling loop: [Some tx] is [return tx],
    [None] is the end of an iteration that went through
    [attempts += 1].  The [ValueError] for an unsuccessful transaction is
    raised inside the [try], so it meets the same handler as the errors of
    the query.  [marker] is the text the handler looks for, [normalise] what it
    applies to [str(e)] first. *)
Definition poll_once (marker : string) (normalise : string -> string)
    (tx_hash : string) (interval : Q) : M W (option TxRecord) :=
  try_except
    (tx <- call (EvPoll tx_hash) (transaction_call app_context tx_hash) ;;
     match successful tx with
     | None => raise (mk_exn KeyError "'successful'")
     | Some true => ret (Some tx)
     | Some false => raise (mk_exn ValueError ("Transaction " ++ tx_hash ++ " failed"))
     end)
    (fun e =>
       if contains marker (normalise (str e)) then
         asyncio_sleep interval ;;; ret None
       else raise e).

(** [while attempts < max_attempts]: every iteration that does not leave the
    function adds one to [attempts], so the loop runs at most [max_attempts]
    times; [remaining] is [max_attempts - attempts]. *)
Fixpoint poll_loop (marker : string) (normalise : string -> string) (timeout : exn)
    (tx_hash : string) (interval : Q) (remaining : nat) : M W TxRecord :=
  match remaining with
  | O => raise timeout
  | S remaining' =>
      r <- poll_once marker normalise tx_hash interval ;;
      match r with
      | Some tx => ret tx
      | None => poll_loop marker normalise timeout tx_hash interval remaining'
      end
  end.

(** [str(n)] for an integer. *)
Definition str_of_Z (n : Z) : string :=
  DecimalString.NilZero.string_of_int (Z.to_int n).

(** [wait_for_transaction_confirmation] of core/stellar.py (defaults
    [max_attempts=30], [interval=2]). *)
Definition wait_for_transaction_confirmation (tx_hash : string)
    (max_attempts : Z) (interval : Z) : M W TxRecord :=
  poll_loop "not_found" lower
    (mk_exn TimeoutError
       ("Transaction " ++ tx_hash ++ " not confirmed after "
          ++ str_of_Z (max_attempts * interval) ++ " seconds"))
    tx_hash (inject_Z interval) (Z.to_nat max_attempts).

End WithContext.
End Stellar.

(** ** services/trade_services.py *)

Module TradeServices.
Section WithContext.
Context {W : Type} (app_context : AppContext W).

(** [next((b[field] for b in account["balances"] if b["asset_type"] ==
    "native"), "0")], read as a number. *)
Definition native_field (field : Balance -> Q) (account : Account) : Q :=
  match find (fun b => String.eqb (asset_type b) "native") (balances account) with
  | Some b => field b
  | None => 0%Q
  end.

(** [account.get(key, 0)] *)
Definition get_or_0 (v : option Z) : Z :=
  match v with Some n => n | None => 0 end.

Definition minimum_reserve (account : Account) : Q :=
  (2 + inject_Z (subentry_count account + get_or_0 (num_sponsoring account)
                 - get_or_0 (num_sponsored account)) * (1 # 2))%Q.

(** [calculate_available_xlm] *)
Definition calculate_available_xlm (account : Account) : Q :=
  let xlm_balance := native_field balance account in
  let selling_liabilities := native_field selling_liabilities account in
  let available_xlm := (xlm_balance - selling_liabilities - minimum_reserve account)%Q in
  pymax available_xlm 0%Q.

(** [wait_for_transaction_confirmation] of this module (defaults
    [max_attempts=60], [interval=1]): it looks for ["404"] in the text as it
    is, returns [True] and reports exhaustion as a [ValueError]. *)
Definition wait_for_transaction_confirmation (tx_hash : string)
    (max_attempts : Z) (interval : Z) : M W bool :=
  _ <- Stellar.poll_loop app_context "404" (fun s => s)
         (mk_exn ValueError
            ("Transaction " ++ tx_hash ++ " not confirmed after "
               ++ Stellar.str_of_Z max_attempts ++ " attempts"))
         tx_hash (inject_Z interval) (Z.to_nat max_attempts) ;;
  ret true.

(** [get_estimated_xlm_value] *)
Definition get_estimated_xlm_value (asset : Asset) (amount : Q) : M W Q :=
  if is_native asset then ret amount
  else
    try_except
      (paths <- call (EvQuery "strict_send_paths")
                  (strict_send_paths app_context asset (round7 amount) 1) ;;
       match paths with
       | best_path :: _ => ret (destination_amount best_path)
       | [] => ret 0%Q
       end)
      (fun _ => ret 0%Q).

(** [calculate_fee_and_check_balance] *)
Definition calculate_fee_and_check_balance (telegram_id : user_id)
    (send_asset : Asset) (send_amount : Q) (is_send_max : bool) : M W Q :=
  public_key <- (if truthy_id telegram_id
                 then call (EvLoadPublicKey telegram_id)
                        (load_public_key app_context telegram_id)
                 else ret (fee_wallet app_context)) ;;
  account <- Stellar.load_account_async app_context public_key ;;
  fee <- (if is_native send_asset then ret (round7 ((1 # 100) * send_amount))
          else
            estimated_xlm <- get_estimated_xlm_value send_asset send_amount ;;
            ret (round7 ((1 # 100) * estimated_xlm))) ;;
  let available_xlm := calculate_available_xlm account in
  let total_required :=
    if is_native send_asset && is_send_max then (send_amount + fee)%Q else fee in
  if Qltb available_xlm total_required then
    raise (mk_exn ValueError "Insufficient XLM: required, available")
  else ret fee.

(** *** Route selection *)

(** The depth test of one hop when buying: some asks, and their amounts add
    up to the amount wanted. *)
Definition ask_depth_ok (dest_amount : Q) (order_book : OrderBook) : bool :=
  match asks order_book with
  | [] => false
  | asks =>
      let total_dest_amount :=
        fold_left (fun total ask => (total + amount ask)%Q) asks 0%Q in
      negb (Qltb total_dest_amount dest_amount)
  end.

(** The depth test of one hop when selling: some bids, and their amounts
    divided by their prices add up to the amount sent; bids priced zero are
    skipped. *)
Definition bid_depth_ok (send_amount : Q) (order_book : OrderBook) : bool :=
  match bids order_book with
  | [] => false
  | bids =>
      let total_source_amount :=
        fold_left (fun total bid =>
                     if Qeq_bool (price bid) 0 then total
                     else (total + amount bid / price bid)%Q) bids 0%Q in
      negb (Qltb total_source_amount send_amount)
  end.

(** [for i in range(len(path_assets) - 1)]: query the book of each pair of
    neighbours, stop at the first that fails. *)
Fixpoint hops_ok (depth_ok : OrderBook -> bool) (path_assets : list Asset) : M W bool :=
  match path_assets with
  | selling_asset :: (buying_asset :: _) as rest =>
      order_book <- call (EvQuery "order_book")
                      (orderbook_call app_context selling_asset buying_asset) ;;
      if depth_ok order_book then hops_ok depth_ok rest else ret false
  | _ => ret true
  end.

(** [liquidity_ok] for one candidate; a candidate without intermediate
    assets is not checked. *)
Definition liquidity_ok (depth_ok : OrderBook -> bool) (first last : Asset)
    (p : PathRecord) : M W bool :=
  match path p with
  | [] => ret true
  | _ => hops_ok depth_ok ([first] ++ path p ++ [last])%list
  end.

(** [for path in paths: ... if liquidity_ok: selected_path = path; break] *)
Fixpoint select_path (check : PathRecord -> M W bool) (paths : list PathRecord)
  : M W (option PathRecord) :=
  match paths with
  | [] => ret None
  | p :: rest =>
      ok <- check p ;;
      if ok then ret (Some p) else select_path check rest
  end.

(** [len(p["path"])] *)
Definition hops (p : PathRecord) : Z := Z.of_nat (List.length (path p)).

(** [key(p) <= key(q)] for [key = (float(source_amount), len(path))]. *)
Definition buy_key_leb (p q : PathRecord) : bool :=
  Qltb (source_amount p) (source_amount q)
  || (Qeq_bool (source_amount p) (source_amount q) && (hops p <=? hops q)).

(** [key(p) <= key(q)] for [key = (-float(destination_amount), len(path))]. *)
Definition sell_key_leb (p q : PathRecord) : bool :=
  Qltb (- destination_amount p) (- destination_amount q)
  || (Qeq_bool (- destination_amount p) (- destination_amount q) && (hops p <=? hops q)).

(** Lines 94-138 of [perform_buy]: from the records of the path query to the
    selected path. *)
Definition select_buy_path (asset : Asset) (dest_amount : Q)
    (paths : list PathRecord) : M W PathRecord :=
  match paths with
  | [] => raise (mk_exn ValueError "No paths found to buy with XLM - insufficient liquidity")
  | _ =>
      let paths := sort buy_key_leb paths in
      selected_path <- select_path (liquidity_ok (ask_depth_ok dest_amount) Native asset) paths ;;
      match selected_path with
      | None => raise (mk_exn ValueError
                         "No viable path found to buy with XLM - insufficient liquidity in all paths")
      | Some p => ret p
      end
  end.

(** Lines 247-295 of [perform_sell]. *)
Definition select_sell_path (asset : Asset) (send_amount : Q)
    (paths : list PathRecord) : M W PathRecord :=
  match paths with
  | [] => raise (mk_exn ValueError "No paths found to sell for XLM - insufficient liquidity")
  | _ =>
      let paths := sort sell_key_leb paths in
      selected_path <- select_path (liquidity_ok (bid_depth_ok send_amount) asset Native) paths ;;
      match selected_path with
      | None => raise (mk_exn ValueError
                         "No viable path found to sell for XLM - insufficient liquidity in all paths")
      | Some p => ret p
      end
  end.

(** *** Bounds *)

(** [slippage = getattr(app_context, 'slippage', 0.05)], doubled when the
    selected path has intermediate assets. *)
Definition effective_slippage (slippage : Q) (p : PathRecord) : Q :=
  match path p with
  | [] => slippage
  | _ => (slippage * 2)%Q
  end.

Definition context_slippage : Q :=
  match slippage app_context with Some s => s | None => (5 # 100)%Q end.

(** [send_max] of [perform_buy] *)
Definition buy_send_max (slippage : Q) (selected_path : PathRecord) : Q :=
  let min_source_amount := source_amount selected_path in
  let slippage := effective_slippage slippage selected_path in
  pymax (round7 (min_source_amount * (1 + slippage))) stroop.

(** [dest_min] of [perform_sell] *)
Definition sell_dest_min (slippage : Q) (selected_path : PathRecord) : Q :=
  let max_dest_amount := destination_amount selected_path in
  let slippage := effective_slippage slippage selected_path in
  pymax (round7 (max_dest_amount * (1 - slippage))) stroop.

(** *** Buying *)

(** [x / y] on floats: a zero divisor raises. *)
Definition truediv (x y : Q) : result Q :=
  if Qeq_bool y 0 then Raise (mk_exn ZeroDivisionError "float division by zero")
  else Ok (x / y)%Q.

(** [response["hash"]] *)
Definition response_hash (response : Response) : result string :=
  match hash response with
  | Some h => Ok h
  | None => Raise (mk_exn KeyError "'hash'")
  end.

(** [not asset_issuer.startswith('G') or len(asset_issuer) != 56] *)
Definition invalid_issuer (asset_issuer : string) : bool :=
  negb (String.prefix "G" asset_issuer) || negb (Nat.eqb (String.length asset_issuer) 56).

(** The failures after which [perform_buy] tries the other payment kind. *)
Definition fallback_failure (e : exn) : bool :=
  contains "op_too_few_offers" (str e) || contains "over_sendmax" (str e).

Definition buy_operations (public_key : string) (asset : Asset) (send_max dest_amount fee : Q)
    (selected_path : PathRecord) : list Operation :=
  [ PathPaymentStrictReceive public_key Native send_max asset (round7 dest_amount)
      (path selected_path);
    Payment (fee_wallet app_context) Native fee ].

Definition buy_fallback_operations (public_key : string) (asset : Asset)
    (send_amount dest_min fee : Q) (selected_path : PathRecord) : list Operation :=
  [ PathPaymentStrictSend public_key Native send_amount asset dest_min (path selected_path);
    Payment (fee_wallet app_context) Native fee ].

(** The body of the first [try] of [perform_buy] after [base_fee] is known
    (lines 171-175). *)
Definition buy_strict_receive (telegram_id : user_id) (asset_code : string)
    (operations : list Operation) (base_fee : Z) (min_source_amount dest_amount : Q)
  : M W (Response * Q * Q) :=
  r <- Stellar.build_and_submit_transaction app_context telegram_id operations
         (Some ("Buy " ++ asset_code)) (Some base_fee) ;;
  let response := fst r in
  tx_hash <- lift (response_hash response) ;;
  wait_for_transaction_confirmation tx_hash 60 1 ;;;
  let actual_xlm_spent :=
    match effect_amount response with Some a => a | None => min_source_amount end in
  ret (response, actual_xlm_spent, dest_amount).

(** [dest_min] of the fallback (lines 179-181). *)
Definition fallback_dest_min (send_amount min_source_amount dest_amount slippage : Q)
  : result Q :=
  match truediv min_source_amount dest_amount with
  | Raise e => Raise e
  | Ok ratio =>
      match truediv send_amount ratio with
      | Raise e => Raise e
      | Ok expected_asset => Ok (pymax (round7 (expected_asset * (1 - slippage))) stroop)
      end
  end.

(** The body of the inner [try] (lines 200-205). *)
Definition buy_strict_send (telegram_id : user_id) (asset_code : string)
    (operations : list Operation) (base_fee : Z) (send_amount dest_amount : Q)
  : M W (Response * Q * Q) :=
  r <- Stellar.build_and_submit_transaction app_context telegram_id operations
         (Some ("Buy " ++ asset_code ++ " (PPSS)")) (Some base_fee) ;;
  let response := fst r in
  tx_hash <- lift (response_hash response) ;;
  wait_for_transaction_confirmation tx_hash 60 1 ;;;
  let actual_asset_received :=
    match effect_amount response with Some a => a | None => dest_amount end in
  ret (response, send_amount, actual_asset_received).

(** The handler of the first [try] (lines 176-209). *)
Definition buy_fallback (telegram_id : user_id) (public_key : string) (asset : Asset)
    (asset_code : string) (selected_path : PathRecord) (base_fee : Z)
    (send_max min_source_amount dest_amount slippage : Q) (e : exn)
  : M W (Response * Q * Q) :=
  if fallback_failure e then
    let send_amount := send_max in
    dest_min <- lift (fallback_dest_min send_amount min_source_amount dest_amount slippage) ;;
    fee <- calculate_fee_and_check_balance telegram_id Native send_amount false ;;
    let operations :=
      buy_fallback_operations public_key asset send_amount dest_min fee selected_path in
    try_except
      (buy_strict_send telegram_id asset_code operations base_fee send_amount dest_amount)
      (fun _ => raise (mk_exn ValueError "Buy failed (PPSR & PPSS)"))
  else raise e.

(** Lines 152-209 of [perform_buy].  [get_recommended_fee] is the first
    statement of the [try] in the source; it never raises, and [base_fee] is
    read by the handler, so it is bound before the [try] here. *)
Definition buy_submit (telegram_id : user_id) (public_key : string) (asset : Asset)
    (asset_code : string) (selected_path : PathRecord)
    (send_max fee min_source_amount dest_amount slippage : Q)
  : M W (Response * Q * Q) :=
  let operations := buy_operations public_key asset send_max dest_amount fee selected_path in
  base_fee <- Stellar.get_recommended_fee app_context ;;
  try_except
    (buy_strict_receive telegram_id asset_code operations base_fee min_source_amount dest_amount)
    (buy_fallback telegram_id public_key asset asset_code selected_path base_fee
       send_max min_source_amount dest_amount slippage).

(** Lines 140-209 of [perform_buy]: the bounds, the affordability checks,
    then the submission. *)
Definition buy_selected (telegram_id : user_id) (public_key : string) (asset : Asset)
    (asset_code : string) (available_xlm dest_amount : Q) (selected_path : PathRecord)
  : M W (Response * Q * Q) :=
  let min_source_amount := source_amount selected_path in
  let slippage := effective_slippage context_slippage selected_path in
  let send_max := buy_send_max context_slippage selected_path in
  fee <- calculate_fee_and_check_balance telegram_id Native send_max true ;;
  if Qltb available_xlm (send_max + fee) then
    raise (mk_exn ValueError "Insufficient XLM: required, available")
  else
    buy_submit telegram_id public_key asset asset_code selected_path
      send_max fee min_source_amount dest_amount slippage.

(** Lines 63-74 of [perform_buy]: create the trust line when it is missing
    and load the account again. *)
Definition ensure_trustline (telegram_id : user_id) (public_key : string) (asset : Asset)
    (account : Account) : M W Account :=
  if negb (Stellar.has_trustline account asset) then
    try_except
      (r <- Stellar.build_and_submit_transaction app_context telegram_id
              [ChangeTrust asset (inject_Z 1000000000)] (Some "Add Trustline") None ;;
       tx_hash <- lift (response_hash (fst r)) ;;
       wait_for_transaction_confirmation tx_hash 60 1 ;;;
       Stellar.load_account_async app_context public_key)
      (fun e => raise e)
  else ret account.

(** [perform_buy] *)
Definition perform_buy (telegram_id : user_id) (asset_code asset_issuer : string)
    (amount : Q) : M W (Response * Q * Q) :=
  if invalid_issuer asset_issuer then
    raise (mk_exn ValueError ("Invalid issuer: " ++ asset_issuer))
  else
    let asset := Credit asset_code asset_issuer in
    public_key <- call (EvLoadPublicKey telegram_id) (load_public_key app_context telegram_id) ;;
    account <- Stellar.load_account_async app_context public_key ;;
    account <- ensure_trustline telegram_id public_key asset account ;;
    let available_xlm := calculate_available_xlm account in
    let dest_amount := amount in
    paths <- call (EvQuery "strict_receive_paths")
               (strict_receive_paths app_context asset dest_amount 10) ;;
    selected_path <- select_buy_path asset dest_amount paths ;;
    buy_selected telegram_id public_key asset asset_code available_xlm dest_amount selected_path.

(** *** Selling *)

(** [next((b["balance"] for b in account["balances"] if b.get("asset_code")
    == asset_code and b.get("asset_issuer") == asset_issuer), "0")] *)
Definition asset_balance (account : Account) (code issuer : string) : Q :=
  match find (fun b => match asset_code b, asset_issuer b with
                       | Some c, Some i => String.eqb c code && String.eqb i issuer
                       | _, _ => false
                       end) (balances account) with
  | Some b => balance b
  | None => 0%Q
  end.

(** The body of the [try] of [perform_sell] after [base_fee] (lines 325-329). *)
Definition sell_strict_send (telegram_id : user_id) (asset_code : string)
    (operations : list Operation) (base_fee : Z) (max_dest_amount send_amount : Q)
  : M W (Response * Q * Q) :=
  r <- Stellar.build_and_submit_transaction app_context telegram_id operations
         (Some ("Sell " ++ asset_code)) (Some base_fee) ;;
  let response := fst r in
  tx_hash <- lift (response_hash response) ;;
  wait_for_transaction_confirmation tx_hash 60 1 ;;;
  let actual_xlm_received :=
    match effect_amount response with Some a => a | None => max_dest_amount end in
  ret (response, actual_xlm_received, send_amount).

(** Lines 297-332 of [perform_sell]. *)
Definition sell_selected (telegram_id : user_id) (public_key : string) (asset : Asset)
    (asset_code : string) (send_amount fee : Q) (selected_path : PathRecord)
  : M W (Response * Q * Q) :=
  let max_dest_amount := destination_amount selected_path in
  let dest_min := sell_dest_min context_slippage selected_path in
  let operations :=
    [ PathPaymentStrictSend public_key asset (round7 send_amount) Native dest_min
        (path selected_path);
      Payment (fee_wallet app_context) Native fee ] in
  base_fee <- Stellar.get_recommended_fee app_context ;;
  try_except
    (sell_strict_send telegram_id asset_code operations base_fee max_dest_amount send_amount)
    (fun _ => raise (mk_exn ValueError "Sell failed (PPSS)")).

(** [perform_sell] *)
Definition perform_sell (telegram_id : user_id) (asset_code asset_issuer : string)
    (amount : Q) : M W (Response * Q * Q) :=
  if invalid_issuer asset_issuer then
    raise (mk_exn ValueError ("Invalid issuer: " ++ asset_issuer))
  else
    let asset := Credit asset_code asset_issuer in
    public_key <- call (EvLoadPublicKey telegram_id) (load_public_key app_context telegram_id) ;;
    account <- Stellar.load_account_async app_context public_key ;;
    let balance := asset_balance account asset_code asset_issuer in
    let send_amount := if Qltb 0 balance then pymin amount balance else 0%Q in
    if Qle_bool send_amount 0 then
      raise (mk_exn ValueError ("No " ++ asset_code ++ " available to sell"))
    else
      fee <- calculate_fee_and_check_balance telegram_id asset send_amount false ;;
      paths <- call (EvQuery "strict_send_paths")
                 (strict_send_paths app_context asset (round7 send_amount) 10) ;;
      selected_path <- select_sell_path asset send_amount paths ;;
      sell_selected telegram_id public_key asset asset_code send_amount fee selected_path.

(** *** Withdrawing *)

(** [next((b["balance"] for b in account["balances"] if b["asset_code"] ==
    asset.code and b["asset_issuer"] == asset.issuer), "0")] of
    [perform_withdraw]: the keys are indexed, not read with [get], so an
    entry without them raises [KeyError] when the search reaches it;
    [asset_issuer] is looked up only when the code matches. *)
Fixpoint indexed_asset_balance (code issuer : string) (balances : list Balance) : result Q :=
  match balances with
  | [] => Ok 0%Q
  | b :: rest =>
      match asset_code b with
      | None => Raise (mk_exn KeyError "'asset_code'")
      | Some c =>
          if String.eqb c code then
            match asset_issuer b with
            | None => Raise (mk_exn KeyError "'asset_issuer'")
            | Some i =>
                if String.eqb i issuer then Ok (balance b)
                else indexed_asset_balance code issuer rest
            end
          else indexed_asset_balance code issuer rest
      end
  end.

(** [await get_recommended_fee(app_context) / 10000000]: the recommended fee
    in lumens. *)
Definition fee_in_lumens (recommended_fee : Z) : Q :=
  (inject_Z recommended_fee / inject_Z 10000000)%Q.

(** The checks of [perform_withdraw] (lines 344-356). *)
Definition withdraw_checks (asset : Asset) (amount fee : Q) (account : Account) : M W unit :=
  match asset with
  | Native =>
      let current_xlm := native_field balance account in
      let base_reserve := minimum_reserve account in
      let max_withdrawable := (current_xlm - base_reserve - fee)%Q in
      if Qltb max_withdrawable amount then
        raise (mk_exn ValueError "Insufficient XLM: maximum withdrawable is XLM")
      else ret tt
  | Credit code issuer =>
      asset_balance <- lift (indexed_asset_balance code issuer (balances account)) ;;
      if Qltb asset_balance amount then
        raise (mk_exn ValueError ("Insufficient " ++ code ++ " balance: "))
      else
        let available_xlm := calculate_available_xlm account in
        if Qltb available_xlm fee then
          raise (mk_exn ValueError "Insufficient XLM for transaction fee")
        else ret tt
  end.

Section Withdraw.

(** [Keypair.from_public_key(destination)] of the SDK returns, rather than
    raises: the address is well formed. *)
Variable valid_public_key : string -> bool.

(** [perform_withdraw] *)
Definition perform_withdraw (telegram_id : user_id) (asset : Asset) (amount : Q)
    (destination : string) : M W Response :=
  public_key <- call (EvLoadPublicKey telegram_id) (load_public_key app_context telegram_id) ;;
  account <- Stellar.load_account_async app_context public_key ;;
  if negb (valid_public_key destination) then
    raise (mk_exn ValueError "Invalid destination address")
  else
    recommended_fee <- Stellar.get_recommended_fee app_context ;;
    let fee := fee_in_lumens recommended_fee in
    withdraw_checks asset amount fee account ;;;
    let operations := [Payment destination asset (round7 amount)] in
    r <- Stellar.build_and_submit_transaction app_context telegram_id operations
           (Some "Withdrawal") None ;;
    let response := fst r in
    tx_hash <- lift (response_hash response) ;;
    wait_for_transaction_confirmation tx_hash 60 1 ;;;
    ret response.

End Withdraw.

(** *** Trust lines *)

(** [perform_add_trustline] *)
Definition perform_add_trustline (telegram_id : user_id) (asset_code asset_issuer : string)
  : M W Response :=
  let asset := Credit asset_code asset_issuer in
  public_key <- call (EvLoadPublicKey telegram_id) (load_public_key app_context telegram_id) ;;
  account <- Stellar.load_account_async app_context public_key ;;
  line <- lift (Stellar.has_trustline_indexed asset (balances account)) ;;
  if line then
    raise (mk_exn ValueError
             ("Trustline already exists for " ++ asset_code ++ ":" ++ asset_issuer))
  else
    let available_xlm := calculate_available_xlm account in
    recommended_fee <- Stellar.get_recommended_fee app_context ;;
    let fee := fee_in_lumens recommended_fee in
    if Qltb available_xlm (fee + (1 # 2)) then
      raise (mk_exn ValueError "Insufficient XLM for trustline: need, available")
    else
      let operations := [ChangeTrust asset (inject_Z 1000000000)] in
      r <- Stellar.build_and_submit_transaction app_context telegram_id operations
             (Some ("Add Trust " ++ asset_code)) None ;;
      let response := fst r in
      tx_hash <- lift (response_hash response) ;;
      wait_for_transaction_confirmation tx_hash 60 1 ;;;
      ret response.

(** [perform_remove_trustline] *)
Definition perform_remove_trustline (telegram_id : user_id) (asset_code asset_issuer : string)
  : M W Response :=
  let asset := Credit asset_code asset_issuer in
  public_key <- call (EvLoadPublicKey telegram_id) (load_public_key app_context telegram_id) ;;
  account <- Stellar.load_account_async app_context public_key ;;
  line <- lift (Stellar.has_trustline_indexed asset (balances account)) ;;
  if negb line then
    raise (mk_exn ValueError
             ("No trustline exists for " ++ asset_code ++ ":" ++ asset_issuer))
  else
    let asset_balance := asset_balance account asset_code asset_issuer in
    if Qltb 0 asset_balance then
      raise (mk_exn ValueError ("Cannot remove trustline: " ++ asset_code ++ " remaining"))
    else
      let available_xlm := calculate_available_xlm account in
      recommended_fee <- Stellar.get_recommended_fee app_context ;;
      let fee := fee_in_lumens recommended_fee in
      if Qltb available_xlm fee then
        raise (mk_exn ValueError "Insufficient XLM for transaction fee: need, available")
      else
        let operations := [ChangeTrust asset 0] in
        r <- Stellar.build_and_submit_transaction app_context telegram_id operations
               (Some ("Remove Trust " ++ asset_code)) None ;;
        let response := fst r in
        tx_hash <- lift (response_hash response) ;;
        wait_for_transaction_confirmation tx_hash 60 1 ;;;
        ret response.

End WithContext.
End TradeServices.

(** ** services/copy_trading.py *)

Module CopyTrading.
Section WithContext.
Context {W : Type} (app_context : AppContext W).

(** [get_xlm_equivalent] *)
Definition get_xlm_equivalent (asset : Asset) (amount : Q) : M W Q :=
  if is_native asset then ret amount
  else
    try_except
      (paths <- call (EvQuery "strict_send_paths")
                  (strict_send_paths app_context asset (round7 amount) 1) ;;
       match paths with
       | first_path :: _ => ret (destination_amount first_path)
       | [] => ret 0%Q
       end)
      (fun _ => ret 0%Q).

(** The follower's balance of the asset to spend (lines 99 and 152): the
    first entry of type ["native"], or of type ["credit_alphanum4"] with the
    code and issuer of the asset; 0 when there is none. *)
Definition spend_balance (account_dict : Account) (send_asset : Asset) : Q :=
  match find (fun b =>
                match send_asset with
                | Native => String.eqb (asset_type b) "native"
                | Credit code issuer =>
                    String.eqb (asset_type b) "credit_alphanum4"
                    && match asset_code b, asset_issuer b with
                       | Some c, Some i => String.eqb c code && String.eqb i issuer
                       | _, _ => false
                       end
                end) (balances account_dict) with
  | Some b => balance b
  | None => 0%Q
  end.

(** ["XLM" if asset.is_native() else asset.code] *)
Definition code_of (asset : Asset) : string :=
  match asset with Native => "XLM" | Credit code _ => code end.

Definition no_funds (send_asset : Asset) : exn :=
  mk_exn ValueError ("No " ++ code_of send_asset ++ " available to trade").

(** The bound of a replicated strict-send payment (lines 106-108 and
    110-112, the same statements in both branches). *)
Definition strict_send_dest_min (scaled_dest_min send_amount_final original_send_amount
                                   slippage : Q) : result Q :=
  match TradeServices.truediv send_amount_final original_send_amount with
  | Raise e => Raise e
  | Ok ratio =>
      let dest_min_final := round7 (scaled_dest_min * ratio * (1 - slippage)) in
      let min_acceptable := (scaled_dest_min * ratio * (75 # 100))%Q in
      Ok (pymax dest_min_final (round7 min_acceptable))
  end.

(** Lines 94-112: the amount to send and the minimum to receive of a
    replicated strict-send payment, [(send_amount_final, dest_min_final)]. *)
Definition strict_send_amounts (cfg : CopyConfig) (op : OpRecord) (balance : Q)
  : result (Q * Q) :=
  let original_send_amount := op_source_amount op in
  let original_dest_min := op_destination_min op in
  let send_amount :=
    match fixed_amount cfg with
    | Some fixed => fixed
    | None => (original_send_amount * multiplier cfg)%Q
    end in
  let send_amount_final := round7 send_amount in
  let scaled_dest_min := (original_dest_min * multiplier cfg)%Q in
  let scaled_dest_min := pymax scaled_dest_min stroop in
  if Qltb balance send_amount_final then
    let send_amount_final := round7 balance in
    if Qle_bool send_amount_final 0 then Raise (no_funds (op_source_asset op))
    else
      match strict_send_dest_min scaled_dest_min send_amount_final original_send_amount
              (cfg_slippage cfg) with
      | Raise e => Raise e
      | Ok dest_min_final => Ok (send_amount_final, dest_min_final)
      end
  else
    match strict_send_dest_min scaled_dest_min send_amount_final original_send_amount
            (cfg_slippage cfg) with
    | Raise e => Raise e
    | Ok dest_min_final => Ok (send_amount_final, dest_min_final)
    end.

(** Lines 149-159: the maximum to send and the amount to receive of a
    replicated strict-receive payment, [(send_max_final, dest_amount_final)]. *)
Definition strict_receive_amounts (cfg : CopyConfig) (op : OpRecord) (balance : Q)
  : result (Q * Q) :=
  let original_send_max := op_source_max op in
  let original_dest_amount := op_amount op in
  let dest_amount :=
    match fixed_amount cfg with
    | Some fixed => fixed
    | None => (original_dest_amount * multiplier cfg)%Q
    end in
  let dest_amount_final := round7 dest_amount in
  match TradeServices.truediv dest_amount_final original_dest_amount with
  | Raise e => Raise e
  | Ok ratio =>
      let send_max_final := round7 (original_send_max * ratio * (1 + cfg_slippage cfg)) in
      if Qltb balance send_max_final then
        let send_max_final := round7 balance in
        if Qle_bool send_max_final 0 then Raise (no_funds (op_source_asset op))
        else
          match TradeServices.truediv send_max_final original_send_max with
          | Raise e => Raise e
          | Ok capped_ratio => Ok (send_max_final, round7 (dest_amount * capped_ratio))
          end
      else Ok (send_max_final, dest_amount_final)
  end.

(** [for asset in [send_asset, dest_asset]: if not await
    has_trustline(account_dict, asset): ...] *)
Fixpoint add_trustlines (telegram_id : user_id) (assets : list Asset)
    (account_dict : Account) (operations_to_submit : list Operation)
  : M W (list Operation) :=
  match assets with
  | [] => ret operations_to_submit
  | asset :: rest =>
      if negb (Stellar.has_trustline account_dict asset) then
        let operations_to_submit :=
          (operations_to_submit ++ [ChangeTrust asset (inject_Z 1000000000)])%list in
        public_key <- call (EvLoadPublicKey telegram_id)
                        (load_public_key app_context telegram_id) ;;
        account_dict <- Stellar.load_account_async app_context public_key ;;
        add_trustlines telegram_id rest account_dict operations_to_submit
      else add_trustlines telegram_id rest account_dict operations_to_submit
  end.

(** [wallet[-5:]] *)
Definition last5 (wallet : string) : string :=
  let n := String.length wallet in
  String.substring (n - 5) 5 wallet.

(** The amount of the first effect that credits the destination asset
    (lines 216-223). *)
Definition received_amount (dest_asset : Asset) (effects : list Effect) : Q :=
  match find (fun effect =>
                String.eqb (eff_type effect) "account_credited"
                && match eff_asset effect with
                   | Some a => Asset_eqb a dest_asset
                   | None => false
                   end) effects with
  | Some effect => eff_amount effect
  | None => 0%Q
  end.

(** The report sent after a copy; the amounts it prints are left out. *)
Definition copied_message (wallet tx_hash : string) : string :=
  "Copied trade from " ++ last5 wallet ++ " Tx: " ++ tx_hash.

(** The report sent after a failure (lines 242-245). *)
Definition error_message (e : exn) : string :=
  let error_msg := if String.eqb (str e) EmptyString
                   then "Failed to submit transaction." else str e in
  "Error copying trade: " ++ error_msg
    ++ ". This may be due to low liquidity; consider increasing slippage tolerance.".

(** The body of the [try] (lines 189-239); [spend] is [send_amount_final]
    for a strict-send payment, [send_max_final] for a strict-receive one. *)
Definition copy_submit (wallet : string) (chat_id : Z) (telegram_id : user_id)
    (operations_to_submit : list Operation) (memo_text : string)
    (send_asset dest_asset : Asset) (spend : Q) : M W unit :=
  r <- Stellar.build_and_submit_transaction app_context telegram_id operations_to_submit
         (Some memo_text) None ;;
  let response := fst r in
  tx_hash <- lift (TradeServices.response_hash response) ;;
  TradeServices.wait_for_transaction_confirmation app_context tx_hash 60 1 ;;;
  xlm_volume <- get_xlm_equivalent send_asset spend ;;
  call (EvQuery "log_xlm_volume") (log_xlm_volume app_context telegram_id xlm_volume tx_hash) ;;;
  has_referrer <- call (EvQuery "referrals") (referrer_of app_context telegram_id) ;;
  let fee := (xlm_volume * (if truthy_id has_referrer then 9 # 1000 else 1 # 100))%Q in
  call (EvQuery "calculate_referral_shares")
    (calculate_referral_shares app_context telegram_id fee) ;;;
  effects <- call (EvQuery "effects") (effects_for_transaction app_context tx_hash) ;;
  let received := received_amount dest_asset effects in
  let message := copied_message wallet tx_hash in
  call (EvSendMessage chat_id message) (bot_send_message app_context chat_id message).

(** The [try] with its handler (lines 188-247): whatever the body raises is
    reported in the chat, and not raised again. *)
Definition copy_attempt (wallet : string) (chat_id : Z) (telegram_id : user_id)
    (operations_to_submit : list Operation) (memo_text : string)
    (send_asset dest_asset : Asset) (spend : Q) : M W unit :=
  try_except
    (copy_submit wallet chat_id telegram_id operations_to_submit memo_text
       send_asset dest_asset spend)
    (fun e =>
       call (EvSendMessage chat_id (error_message e))
         (bot_send_message app_context chat_id (error_message e))).

(** How the body of the loop over the operations ends: with the next
    operation ([continue], or the end of the body) or with [return]. *)
Inductive flow : Type := Next | Stop.

(** Lines 82-135: the replication of a strict-send payment. *)
Definition copy_strict_send (wallet : string) (chat_id : Z) (telegram_id : user_id)
    (cfg : CopyConfig) (op : OpRecord) (account_dict : Account) : M W unit :=
  let send_asset := op_source_asset op in
  let dest_asset := op_asset op in
  let balance := spend_balance account_dict send_asset in
  amounts <- lift (strict_send_amounts cfg op balance) ;;
  let send_amount_final := fst amounts in
  let dest_min_final := snd amounts in
  fee <- TradeServices.calculate_fee_and_check_balance app_context None send_asset
           send_amount_final false ;;
  operations_to_submit <- add_trustlines telegram_id [send_asset; dest_asset] account_dict [] ;;
  destination <- call (EvLoadPublicKey telegram_id) (load_public_key app_context telegram_id) ;;
  let operations_to_submit :=
    (operations_to_submit
       ++ [ PathPaymentStrictSend destination send_asset send_amount_final dest_asset
              dest_min_final (op_path op);
            Payment (fee_wallet app_context) Native fee ])%list in
  copy_attempt wallet chat_id telegram_id operations_to_submit
    ("Copy " ++ last5 wallet ++ " PPSend") send_asset dest_asset send_amount_final.

(** Lines 137-182: the replication of a strict-receive payment. *)
Definition copy_strict_receive (wallet : string) (chat_id : Z) (telegram_id : user_id)
    (cfg : CopyConfig) (op : OpRecord) (account_dict : Account) : M W unit :=
  let send_asset := op_source_asset op in
  let dest_asset := op_asset op in
  let balance := spend_balance account_dict send_asset in
  amounts <- lift (strict_receive_amounts cfg op balance) ;;
  let send_max_final := fst amounts in
  let dest_amount_final := snd amounts in
  fee <- TradeServices.calculate_fee_and_check_balance app_context None send_asset
           send_max_final false ;;
  operations_to_submit <- add_trustlines telegram_id [send_asset; dest_asset] account_dict [] ;;
  destination <- call (EvLoadPublicKey telegram_id) (load_public_key app_context telegram_id) ;;
  let operations_to_submit :=
    (operations_to_submit
       ++ [ PathPaymentStrictReceive destination send_asset send_max_final dest_asset
              dest_amount_final (op_path op);
            Payment (fee_wallet app_context) Native fee ])%list in
  copy_attempt wallet chat_id telegram_id operations_to_submit
    ("Copy " ++ last5 wallet ++ " PPReceive") send_asset dest_asset send_max_final.

(** The body of [for op in operations] (lines 49-247). *)
Definition process_operation (wallet : string) (tx : ObservedTx) (chat_id : Z)
    (telegram_id : user_id) (op : OpRecord) : M W flow :=
  let op_source :=
    match op_source_account op with Some a => a | None => otx_source_account tx end in
  if negb (String.eqb op_source wallet) then ret Next
  else
    public_key <- call (EvLoadPublicKey telegram_id) (load_public_key app_context telegram_id) ;;
    account_dict <- Stellar.load_account_async app_context public_key ;;
    user_data <- call (EvQuery "copy_trading")
                   (copy_trading_row app_context telegram_id wallet) ;;
    match user_data with
    | None => ret Stop
    | Some cfg =>
        if String.eqb (op_type op) "path_payment_strict_send" then
          copy_strict_send wallet chat_id telegram_id cfg op account_dict ;;; ret Next
        else if String.eqb (op_type op) "path_payment_strict_receive" then
          copy_strict_receive wallet chat_id telegram_id cfg op account_dict ;;; ret Next
        else ret Next
    end.

Fixpoint process_operations (wallet : string) (tx : ObservedTx) (chat_id : Z)
    (telegram_id : user_id) (operations : list OpRecord) : M W unit :=
  match operations with
  | [] => ret tt
  | op :: rest =>
      f <- process_operation wallet tx chat_id telegram_id op ;;
      match f with
      | Next => process_operations wallet tx chat_id telegram_id rest
      | Stop => ret tt
      end
  end.

(** [process_trade_signal] *)
Definition process_trade_signal (wallet : string) (tx : ObservedTx) (chat_id : Z)
    (telegram_id : user_id) : M W unit :=
  match otx_successful tx with
  | Some true =>
      operations <- call (EvQuery "operations")
                      (operations_for_transaction app_context (otx_hash tx)) ;;
      process_operations wallet tx chat_id telegram_id operations
  | _ => ret tt
  end.

End WithContext.
End CopyTrading.

(** ** rewards_disbursement_bot/payouts.py *)

Module Payouts.

(** One payout item: [item["account"]] and [item["hourly_amount_lmnr"]]. *)
Record PayoutItem : Type := {
  po_account : string;
  po_hourly_amount_lmnr : Q }.

(** What is recorded for an item: the response of the submission, or
    [{"error": str(e)}]. *)
Inductive PayoutResult : Type :=
| Submitted (response : Response)
| Failed (error : string).

(** [build_lmnr_payments] *)
Definition build_lmnr_payments (payouts : list PayoutItem) (lmnr_code lmnr_issuer : string)
  : list Operation :=
  map (fun item => Payment (po_account item) (Credit lmnr_code lmnr_issuer)
                     (po_hourly_amount_lmnr item)) payouts.

(** The batches of the outer loop: an item is added, and the batch is
    flushed when it has [batch_size] items or the item is the last. *)
Fixpoint batches (batch_size : Z) (batch payouts : list PayoutItem)
  : list (list PayoutItem) :=
  match payouts with
  | [] => []
  | item :: rest =>
      let batch := (batch ++ [item])%list in
      if (Z.of_nat (List.length batch) =? batch_size)
         || match rest with [] => true | _ => false end
      then batch :: batches batch_size [] rest
      else batches batch_size batch rest
  end.

(** [while start_index < len(batch)]: pieces of [max_ops_per_tx] items.
    [max_ops_per_tx] is positive (otherwise the loop of the source does not
    advance); the loop then runs at most [len(batch)] times. *)
Fixpoint chunks (rounds : nat) (max_ops_per_tx : nat) (batch : list PayoutItem)
  : list (list PayoutItem) :=
  match rounds, batch with
  | _, [] => []
  | O, _ => []
  | S rounds', _ =>
      firstn max_ops_per_tx batch :: chunks rounds' max_ops_per_tx (skipn max_ops_per_tx batch)
  end.

Section WithContext.
Context {W : Type} (app_context : AppContext W).

(** Lines 115-119: the confirmation check of [confirm_mode]; its failure is
    logged as a warning and nothing else. *)
Definition confirm_check (confirm_mode : bool) (tx_hash : option string) : M W unit :=
  match tx_hash with
  | Some (String c h) =>
      if confirm_mode then
        try_except
          (Stellar.wait_for_transaction_confirmation app_context (String c h) 30 2 ;;; ret tt)
          (fun _ => ret tt)
      else ret tt
  | _ => ret tt
  end.

(** [memo_text or "LP Rewards Hourly"] *)
Definition memo_or_default (memo_text : option string) : string :=
  match memo_text with
  | Some (String c m) => String c m
  | _ => "LP Rewards Hourly"
  end.

(** The body of the [try] of the retry loop (lines 102-123). *)
Definition submit_once (chunk : list PayoutItem) (ops : list Operation)
    (memo_text : option string) (confirm_mode : bool) (submit_sleep_seconds : Q)
  : M W (list (PayoutItem * PayoutResult)) :=
  r <- Stellar.build_and_submit_transaction app_context (Some 0) ops
         (Some (memo_or_default memo_text)) None ;;
  let response := fst r in
  let tx_hash := hash response in
  let results := map (fun b => (b, Submitted response)) chunk in
  confirm_check confirm_mode tx_hash ;;;
  Stellar.asyncio_sleep app_context submit_sleep_seconds ;;;
  ret results.

(** The retry loop (lines 98-134).  [attempt] counts from 1; a failure is
    retried while [attempt <= max_submit_retries], so [retries_left] is
    [max_submit_retries - (attempt - 1)]. *)
Fixpoint submit_chunk (retries_left : nat) (attempt : Z) (chunk : list PayoutItem)
    (ops : list Operation) (memo_text : option string) (confirm_mode : bool)
    (submit_sleep_seconds retry_backoff_seconds : Q)
  : M W (list (PayoutItem * PayoutResult)) :=
  let attempt := attempt + 1 in
  try_except
    (submit_once chunk ops memo_text confirm_mode submit_sleep_seconds)
    (fun e =>
       match retries_left with
       | S retries_left' =>
           let delay := (retry_backoff_seconds * inject_Z attempt)%Q in
           Stellar.asyncio_sleep app_context delay ;;;
           submit_chunk retries_left' attempt chunk ops memo_text confirm_mode
             submit_sleep_seconds retry_backoff_seconds
       | O => ret (map (fun b => (b, Failed (str e))) chunk)
       end).

Fixpoint submit_chunks (pieces : list (list PayoutItem)) (lmnr_code lmnr_issuer : string)
    (memo_text : option string) (confirm_mode : bool)
    (submit_sleep_seconds : Q) (max_submit_retries : Z) (retry_backoff_seconds : Q)
  : M W (list (PayoutItem * PayoutResult)) :=
  match pieces with
  | [] => ret []
  | chunk :: rest =>
      let ops := build_lmnr_payments chunk lmnr_code lmnr_issuer in
      results <- submit_chunk (Z.to_nat max_submit_retries) 0 chunk ops memo_text
                   confirm_mode submit_sleep_seconds retry_backoff_seconds ;;
      more <- submit_chunks rest lmnr_code lmnr_issuer memo_text confirm_mode
                submit_sleep_seconds max_submit_retries retry_backoff_seconds ;;
      ret (results ++ more)%list
  end.

(** [submit_batched_payments] *)
Definition submit_batched_payments (payouts : list PayoutItem)
    (lmnr_code lmnr_issuer : string) (batch_size : Z) (memo_text : option string)
    (max_ops_per_tx : Z) (submit_sleep_seconds : Q) (max_submit_retries : Z)
    (retry_backoff_seconds : Q) (confirm_mode : bool)
  : M W (list (PayoutItem * PayoutResult)) :=
  let pieces :=
    flat_map (fun batch => chunks (List.length batch) (Z.to_nat max_ops_per_tx) batch)
      (batches batch_size [] payouts) in
  submit_chunks pieces lmnr_code lmnr_issuer memo_text confirm_mode
    submit_sleep_seconds max_submit_retries retry_backoff_seconds.

End WithContext.
End Payouts.

(** ** rewards_disbursement_bot/calculator.py

    The amounts are [Decimal] values at 50 significant digits; like the
    floats they are modelled by exact rationals.  The snapshot is taken with
    its numbers parsed: [total_shares] and the balances are numbers. *)

Module Calculator.

Definition DAILY_REWARD_PER_POOL : Q := 4000.

Definition HOURLY_REWARD_PER_POOL : Q := DAILY_REWARD_PER_POOL / 24.

(** [x.quantize(Decimal("0.0000001"), rounding=ROUND_DOWN)]: seven decimals,
    rounded towards zero. *)
Definition truncate (x : Q) : Z :=
  if Qle_bool 0 x then Qfloor x else Qceiling x.

Definition quantize_down7 (x : Q) : Q :=
  (inject_Z (truncate (x * inject_Z 10000000)) / inject_Z 10000000)%Q.

(** One entry of [snapshot["records"]]. *)
Record Holder : Type := {
  holder_account : string;
  holder_balance : Q }.

Record Snapshot : Type := {
  total_shares : Q;
  records : list Holder }.

(** One entry of the list the function returns. *)
Record Share : Type := {
  account : string;
  share_balance : Q;
  percent : Q;
  hourly_amount_lmnr : Q }.

(** [compute_percentages_and_hourly] *)
Definition compute_percentages_and_hourly (snapshot : Snapshot) : list Share :=
  let total_shares := total_shares snapshot in
  map (fun rec =>
         let balance := holder_balance rec in
         let percent := if Qltb 0 total_shares then (balance / total_shares)%Q else 0%Q in
         let hourly := quantize_down7 (HOURLY_REWARD_PER_POOL * percent) in
         {| account := holder_account rec;
            share_balance := balance;
            percent := quantize_down7 (percent * 100);
            hourly_amount_lmnr := hourly |})
      (records snapshot).

End Calculator.

(** ** rewards_disbursement_bot/discovery.py and cli.py: labels and memos *)

Module Discovery.

(** Lines 91-97 of [discover_pools_for_lmnr]: the two labels under which a
    pool of LMNR and [other_asset] is stored.  [other_asset] is ["native"]
    or ["CODE:ISSUER"], or [None] when the reserve could not be read (printed
    as ["None"] in the label). *)
Definition other_label (other_asset : option string) : string :=
  match other_asset with
  | Some a => if String.eqb a "native" then "XLM" else a
  | None => "None"
  end.

Definition label (lmnr_code : string) (other_asset : option string) : string :=
  other_label other_asset ++ "-" ++ lmnr_code.

Definition rev (lmnr_code : string) (other_asset : option string) : string :=
  lmnr_code ++ "-" ++ other_label other_asset.

End Discovery.

Module Cli.

(** [s.split(sep)] for a separator of one character: the pieces between the
    separators, at least one. *)
Fixpoint split (sep : ascii) (s : string) : list string :=
  match s with
  | EmptyString => [EmptyString]
  | String c rest =>
      if Ascii.eqb c sep then EmptyString :: split sep rest
      else match split sep rest with
           | piece :: pieces => String c piece :: pieces
           | [] => [String c EmptyString]
           end
  end.

(** [p.split(sep, 1)[0]]: what comes before the first separator. *)
Fixpoint before (sep : ascii) (s : string) : string :=
  match s with
  | EmptyString => EmptyString
  | String c rest => if Ascii.eqb c sep then EmptyString else String c (before sep rest)
  end.

(** [sep.join(parts)] *)
Fixpoint join (sep : string) (parts : list string) : string :=
  match parts with
  | [] => EmptyString
  | [p] => p
  | p :: rest => p ++ sep ++ join sep rest
  end.

(** [human_readable_memo] of [cmd_payout] *)
Definition human_readable_memo (label : string) : string :=
  let parts := split "-" label in
  let codes := map (before ":") parts in
  let memo := join " " codes ++ " LP" in
  String.substring 0 28 memo.

End Cli.

(** * Vocabulary of the properties *)

(** ** The fee estimator and the envelope *)


(** The unsigned envelope [build_and_submit_transaction] assembles for an
    account, a fee and a clock reading. *)
Definition envelope (public_key : string) (account : Account) (base_fee now : Z)
    (operations : list Operation) (memo : option string) : Transaction :=
  {| tx_source := public_key;
     tx_sequence := sequence account;
     tx_base_fee := base_fee;
     tx_min_time := 0;
     tx_max_time := now + 900;
     tx_operations := operations;
     tx_memo := Stellar.memo_of memo |}.

(** The state after the signer's key and account have been loaded. *)
Definition loaded {W : Type} (s : State W) (telegram_id : user_id) (public_key : string) (w : W)
  : State W :=
  mk_state w ((log s ++ [EvLoadPublicKey telegram_id]) ++ [EvLoadAccount public_key])%list.

(** ** A scripted world

    A world made of tables and scripts, to run the functions on concrete
    inputs: accounts and keys are looked up, the answers of the submission
    endpoint and of the transaction lookup are read off scripts, one per
    call. *)

Module Scripted.

Record World : Type := {
  clock : Q;
  keys : list (Z * string);
  ledger_accounts : list (string * Account);
  latest_fees : result (list Z);
  books : list (Asset * Asset * OrderBook);
  receive_paths : list PathRecord;
  send_paths : list PathRecord;
  signer : result string;
  post_script : list (result Response);
  poll_script : list (result TxRecord);
  chat : result unit;
  observed_operations : list OpRecord;
  copy_config : option CopyConfig;
  (* the accounts as they are once something has been posted, when they change *)
  ledger_after_post : option (list (string * Account)) }.

Definition not_found : exn :=
  mk_exn HorizonError "404 https://stellar.org/horizon-errors/not_found Resource Missing".

Definition lookup_key (t : user_id) (w : World) : result string * World :=
  match t with
  | Some n =>
      match find (fun kv => fst kv =? n) (keys w) with
      | Some kv => (Ok (snd kv), w)
      | None => (Raise (mk_exn ValueError "No user found for telegram_id"), w)
      end
  | None => (Raise (mk_exn ValueError "No user found for telegram_id"), w)
  end.

Definition lookup_account (public_key : string) (w : World) : result Account * World :=
  match find (fun kv => String.eqb (fst kv) public_key) (ledger_accounts w) with
  | Some kv => (Ok (snd kv), w)
  | None => (Raise not_found, w)
  end.

Definition lookup_book (selling buying : Asset) (w : World) : result OrderBook * World :=
  match find (fun kv => Asset_eqb (fst (fst kv)) selling && Asset_eqb (snd (fst kv)) buying)
          (books w) with
  | Some kv => (Ok (snd kv), w)
  | None => (Ok {| asks := []; bids := [] |}, w)
  end.

Definition next_post (w : World) : result Response * World :=
  match post_script w with
  | r :: rest =>
      (r, {| clock := clock w; keys := keys w;
             ledger_accounts := match ledger_after_post w with
                                | Some accounts => accounts
                                | None => ledger_accounts w
                                end;
             latest_fees := latest_fees w; books := books w;
             receive_paths := receive_paths w; send_paths := send_paths w;
             signer := signer w; post_script := rest; poll_script := poll_script w;
             chat := chat w; observed_operations := observed_operations w;
             copy_config := copy_config w; ledger_after_post := ledger_after_post w |})
  | [] => (Raise (mk_exn HorizonError "503 Service Unavailable"), w)
  end.

Definition next_poll (w : World) : result TxRecord * World :=
  match poll_script w with
  | r :: rest =>
      (r, {| clock := clock w; keys := keys w; ledger_accounts := ledger_accounts w;
             latest_fees := latest_fees w; books := books w;
             receive_paths := receive_paths w; send_paths := send_paths w;
             signer := signer w; post_script := post_script w; poll_script := rest;
             chat := chat w; observed_operations := observed_operations w;
             copy_config := copy_config w; ledger_after_post := ledger_after_post w |})
  | [] => (Raise not_found, w)
  end.

Definition advance (seconds : Q) (w : World) : World :=
  {| clock := Qred (clock w + seconds); keys := keys w;
     ledger_accounts := ledger_accounts w;
     latest_fees := latest_fees w; books := books w;
     receive_paths := receive_paths w; send_paths := send_paths w;
     signer := signer w; post_script := post_script w; poll_script := poll_script w;
     chat := chat w; observed_operations := observed_operations w;
             copy_config := copy_config w; ledger_after_post := ledger_after_post w |}.

Definition context (wallet : string) (slip : option Q) : AppContext World :=
  {| fee_wallet := wallet;
     slippage := slip;
     load_public_key := lookup_key;
     sign_transaction := fun _ _ w => (signer w, w);
     accounts_call := lookup_account;
     ledgers_call := fun w => (Ok [1%Z], w);
     transactions_for_ledger := fun _ w => (latest_fees w, w);
     transaction_call := fun _ => next_poll;
     strict_receive_paths := fun _ _ _ w => (Ok (receive_paths w), w);
     strict_send_paths := fun _ _ limit w =>
                            (Ok (firstn (Z.to_nat limit) (send_paths w)), w);
     orderbook_call := lookup_book;
     post := fun _ => next_post;
     time_time := fun w => Qfloor (clock w);
     sleep := advance;
     bot_send_message := fun _ _ w => (chat w, w);
     operations_for_transaction := fun _ w => (Ok (observed_operations w), w);
     effects_for_transaction := fun _ w => (Ok [], w);
     copy_trading_row := fun _ _ w => (Ok (copy_config w), w);
     referrer_of := fun _ w => (Ok None, w);
     log_xlm_volume := fun _ _ _ w => (Ok tt, w);
     calculate_referral_shares := fun _ _ w => (Ok tt, w) |}.

(** An account holding only lumens. *)
Definition xlm_account (xlm : Q) (seq : Z) : Account :=
  {| balances := [ {| asset_type := "native"; asset_code := None; asset_issuer := None;
                      balance := xlm; selling_liabilities := 0 |} ];
     subentry_count := 0; num_sponsoring := None; num_sponsored := None;
     sequence := seq |}.

Definition accepted (h : string) : Response :=
  {| tx_status := Some "PENDING"; hash := Some h; title := None; detail := None;
     fee_charged := Some 100; effect_amount := None |}.

(** A world at time 1000 with one user (id 7, key ["GUSER"]) and the fee
    wallet ["GFEE"]. *)
Definition world0 : World :=
  {| clock := 1000;
     keys := [(7, "GUSER")];
     ledger_accounts := [("GUSER", xlm_account 100 41); ("GFEE", xlm_account 5 9)];
     latest_fees := Ok [];
     books := [];
     receive_paths := [];
     send_paths := [];
     signer := Ok "signed";
     post_script := [];
     poll_script := [];
     chat := Ok tt;
     observed_operations := [];
     copy_config := None;
     ledger_after_post := None |}.

Definition with_polls (polls : list (result TxRecord)) (w : World) : World :=
  {| clock := clock w; keys := keys w; ledger_accounts := ledger_accounts w;
     latest_fees := latest_fees w; books := books w;
     receive_paths := receive_paths w; send_paths := send_paths w;
     signer := signer w; post_script := post_script w; poll_script := polls;
     chat := chat w; observed_operations := observed_operations w;
             copy_config := copy_config w; ledger_after_post := ledger_after_post w |}.

Definition confirmed : TxRecord := {| successful := Some true |}.
Definition rejected : TxRecord := {| successful := Some false |}.

Definition start (w : World) : State World := mk_state w [].

End Scripted.


(** ** Text searched in exception messages *)

(** [c] occurs in [s]. *)
Definition mentions (c : ascii) (s : string) : Prop := In c (list_ascii_of_string s).

(** ** Polling *)

(** The handler's test: the failure reads as "not yet visible".  [marker]
    is the text looked for, [normalise] what is applied to [str(e)] first. *)
Definition not_yet_visible (marker : string) (normalise : string -> string) (e : exn)
  : bool :=
  contains marker (normalise (str e)).

(** The state after a poll that was answered "not yet visible": the poll
    and the sleep are logged, the world has answered and slept. *)
Definition after_retry {W : Type} (app_context : AppContext W) (tx_hash : string)
    (interval : Q) (s : State W) (w : W) : State W :=
  mk_state (sleep app_context interval w)
    ((log s ++ [EvPoll tx_hash]) ++ [EvSleep interval])%list.

(** [not_found_polls ... k s s']: from [s], the next [k] polls are all
    answered "not yet visible", and leave the state [s']. *)
Inductive not_found_polls {W : Type} (app_context : AppContext W) (marker : string)
    (normalise : string -> string) (tx_hash : string) (interval : Q)
  : nat -> State W -> State W -> Prop :=
| nfp_none (s : State W) :
    not_found_polls app_context marker normalise tx_hash interval O s s
| nfp_more (k : nat) (s s' : State W) (e : exn) (w : W) :
    transaction_call app_context tx_hash (world s) = (Raise e, w) ->
    not_yet_visible marker normalise e = true ->
    not_found_polls app_context marker normalise tx_hash interval k
      (after_retry app_context tx_hash interval s w) s' ->
    not_found_polls app_context marker normalise tx_hash interval (S k) s s'.

(** The error raised for a transaction that was found but failed. *)
Definition failed_error (tx_hash : string) : exn :=
  mk_exn ValueError ("Transaction " ++ tx_hash ++ " failed").

(** ** Submissions in the log *)

(** The events that hand a transaction to the signer or to the network. *)
Definition is_submission (ev : Event) : bool :=
  match ev with
  | EvSign _ _ | EvPost _ => true
  | _ => false
  end.

Definition submissions (events : list Event) : list Event := filter is_submission events.

(** A computation that submits nothing. *)
Definition quiet {W A : Type} (m : M W A) : Prop :=
  forall s r s', m s = (r, s') -> submissions (log s') = submissions (log s).

(** What one call of [build_and_submit_transaction] adds to the
    submissions: nothing, a signing request, or a signing request and a
    post; the request carries the operations it was given. *)
Definition one_attempt (telegram_id : user_id) (operations : list Operation)
    (d : list Event) : Prop :=
  d = []
  \/ exists tx, tx_operations tx = operations
                /\ (d = [EvSign telegram_id tx]
                    \/ exists x, d = [EvSign telegram_id tx; EvPost x]).

Definition is_strict_send (op : Operation) : bool :=
  match op with PathPaymentStrictSend _ _ _ _ _ _ => true | _ => false end.

Definition is_strict_receive (op : Operation) : bool :=
  match op with PathPaymentStrictReceive _ _ _ _ _ _ => true | _ => false end.

(** The signing requests of a log that carry an operation of some kind. *)
Definition requests_with (kind : Operation -> bool) (events : list Event) : list Transaction :=
  flat_map (fun ev => match ev with
                      | EvSign _ tx => if existsb kind (tx_operations tx) then [tx] else []
                      | _ => []
                      end) events.


Definition is_post (ev : Event) : bool :=
  match ev with EvPost _ => true | _ => false end.

(** A computation that returns in every state: it raises nothing. *)
Definition never_raises {W A : Type} (m : M W A) : Prop :=
  forall s, exists a s', m s = (Ok a, s').

(** ** Balances and the fee check *)

(** The balance as the specification words it, with no floor. *)
Definition unclamped_available (account : Account) : Q :=
  (TradeServices.native_field balance account
   - TradeServices.native_field selling_liabilities account
   - (2 + (1 # 2) * inject_Z (subentry_count account
                              + TradeServices.get_or_0 (num_sponsoring account)
                              - TradeServices.get_or_0 (num_sponsored account))))%Q.

(** The context with another way of finding a user's key. *)
Definition with_load_public_key {W : Type}
    (f : user_id -> W -> result string * W) (c : AppContext W) : AppContext W :=
  {| fee_wallet := fee_wallet c;
     slippage := slippage c;
     load_public_key := f;
     sign_transaction := sign_transaction c;
     accounts_call := accounts_call c;
     ledgers_call := ledgers_call c;
     transactions_for_ledger := transactions_for_ledger c;
     transaction_call := transaction_call c;
     strict_receive_paths := strict_receive_paths c;
     strict_send_paths := strict_send_paths c;
     orderbook_call := orderbook_call c;
     post := post c;
     time_time := time_time c;
     sleep := sleep c;
     bot_send_message := bot_send_message c;
     operations_for_transaction := operations_for_transaction c;
     effects_for_transaction := effects_for_transaction c;
     copy_trading_row := copy_trading_row c;
     referrer_of := referrer_of c;
     log_xlm_volume := log_xlm_volume c;
     calculate_referral_shares := calculate_referral_shares c |}.

Definition insufficient_xlm : exn := mk_exn ValueError "Insufficient XLM: required, available".

(** ** Replication *)

(** The bound of a capped replicated payment as the specification words it:
    the target scaled by the multiplier, rescaled by the capped amount over
    the amount scaled by the multiplier. *)
Definition rescaled_as_specified (scaled_target capped_amount scaled_amount : Q) : Q :=
  (scaled_target * (capped_amount / scaled_amount))%Q.

(** ** Route selection *)









(** The depth a book offers, as a sum. *)
Definition Qsum (l : list Q) : Q := fold_right Qplus 0%Q l.





(** ** Worlds and inputs of the examples *)

Definition some_issuer : string :=
  "GAAAAAAAAAAAAAAAAAAAAAAAAAAAAAAAAAAAAAAAAAAAAAAAAAAAAAAA".

(** A user without a trust line for the asset, holding 3 lumens, and a
    direct route that needs 10. *)
Definition poor_buyer_world : Scripted.World :=
  {| Scripted.clock := 1000;
     Scripted.keys := [(7, "GUSER")];
     Scripted.ledger_accounts := [("GUSER", Scripted.xlm_account 3 41)];
     Scripted.latest_fees := Ok [];
     Scripted.books := [];
     Scripted.receive_paths :=
       [{| source_amount := 10; destination_amount := 5; path := [] |}];
     Scripted.send_paths := [];
     Scripted.signer := Ok "signed";
     Scripted.post_script := [Ok (Scripted.accepted "ab12")];
     Scripted.poll_script := [Ok Scripted.confirmed];
     Scripted.chat := Ok tt;
     Scripted.observed_operations := [];
     Scripted.copy_config := None;
     Scripted.ledger_after_post := None |}.

(** The counterpart of the scenario: 100 units sent for at least 100, or at
    most 100 sent for 100 received. *)
Definition scenario_op (kind : string) : OpRecord :=
  {| op_type := kind; op_source_account := None;
     op_source_asset := Native; op_asset := Credit "USDC" "GISSUER";
     op_source_amount := 100; op_destination_min := 100;
     op_source_max := 100; op_amount := 100; op_path := [] |}.

Definition scenario_cfg : CopyConfig :=
  {| multiplier := 1 # 2; fixed_amount := None; cfg_slippage := 5 # 100 |}.

(** An account with a trust line for USDC of [some_issuer]. *)
Definition usdc_holder (xlm : Q) : Account :=
  {| balances := [ {| asset_type := "native"; asset_code := None; asset_issuer := None;
                      balance := xlm; selling_liabilities := 0 |};
                   {| asset_type := "credit_alphanum4"; asset_code := Some "USDC";
                      asset_issuer := Some some_issuer;
                      balance := 0; selling_liabilities := 0 |} ];
     subentry_count := 1; num_sponsoring := None; num_sponsored := None;
     sequence := 41 |}.

(** The answer of the submission endpoint to a payment that found too few
    offers. *)
Definition too_few_offers : Response :=
  {| tx_status := Some "ERROR"; hash := None; title := Some "op_too_few_offers";
     detail := None; fee_charged := None; effect_amount := None |}.

(** A buyer with 100 lumens and a direct route needing 10; the first post is
    answered "too few offers", the second is accepted.  [after] is what the
    accounts hold once the first post has been made. *)
Definition fallback_world (after : option (list (string * Account))) : Scripted.World :=
  {| Scripted.clock := 1000;
     Scripted.keys := [(7, "GUSER")];
     Scripted.ledger_accounts := [("GUSER", usdc_holder 100)];
     Scripted.latest_fees := Ok [];
     Scripted.books := [];
     Scripted.receive_paths :=
       [{| source_amount := 10; destination_amount := 5; path := [] |}];
     Scripted.send_paths := [];
     Scripted.signer := Ok "signed";
     Scripted.post_script := [Ok too_few_offers; Ok (Scripted.accepted "ab12")];
     Scripted.poll_script := [Ok Scripted.confirmed];
     Scripted.chat := Ok tt;
     Scripted.observed_operations := [];
     Scripted.copy_config := None;
     Scripted.ledger_after_post := after |}.

(** A follower (user 7) copying ["GCOUNTERPART"], a payer (user 0) and a
    fee wallet; one post is accepted with hash ["ab12"], which no lookup ever
    finds. *)
Definition copy_world (sign : result string) : Scripted.World :=
  {| Scripted.clock := 1000;
     Scripted.keys := [(7, "GUSER"); (0, "GPAYER")];
     Scripted.ledger_accounts :=
       [("GUSER", Scripted.xlm_account 1000 41); ("GFEE", Scripted.xlm_account 100 9);
        ("GPAYER", Scripted.xlm_account 100 3)];
     Scripted.latest_fees := Ok [];
     Scripted.books := [];
     Scripted.receive_paths := [];
     Scripted.send_paths := [];
     Scripted.signer := sign;
     Scripted.post_script := [Ok (Scripted.accepted "ab12")];
     Scripted.poll_script := [];
     Scripted.chat := Ok tt;
     Scripted.observed_operations := [scenario_op "path_payment_strict_send"];
     Scripted.copy_config := Some scenario_cfg;
     Scripted.ledger_after_post := None |}.

Definition observed_tx : ObservedTx :=
  {| otx_successful := Some true; otx_hash := "cd34";
     otx_source_account := "GCOUNTERPART" |}.


Definition lp_item : Payouts.PayoutItem :=
  {| Payouts.po_account := "GLP1"; Payouts.po_hourly_amount_lmnr := 5 |}.

(** A context whose order books are fixed and whose other services are
    down. *)
Definition down {A : Type} (w : unit) : result A * unit :=
  (Raise (mk_exn HorizonError "503 Service Unavailable"), w).

Definition book_context (book : Asset -> Asset -> OrderBook) : AppContext unit :=
  {| fee_wallet := "GFEE";
     slippage := None;
     load_public_key := fun _ => down;
     sign_transaction := fun _ _ => down;
     accounts_call := fun _ => down;
     ledgers_call := down;
     transactions_for_ledger := fun _ => down;
     transaction_call := fun _ => down;
     strict_receive_paths := fun _ _ _ => down;
     strict_send_paths := fun _ _ _ => down;
     orderbook_call := fun selling buying w => (Ok (book selling buying), w);
     post := fun _ => down;
     time_time := fun _ => 0;
     sleep := fun _ w => w;
     bot_send_message := fun _ _ => down;
     operations_for_transaction := fun _ => down;
     effects_for_transaction := fun _ => down;
     copy_trading_row := fun _ _ => down;
     referrer_of := fun _ => down;
     log_xlm_volume := fun _ _ _ => down;
     calculate_referral_shares := fun _ _ => down |}.

(** Two intermediate assets: the books through ["AAA"] offer 3 of it, the
    books through ["BBB"] enough. *)
Definition thin_and_deep (selling buying : Asset) : OrderBook :=
  match selling, buying with
  | Native, Credit "AAA" _ =>
      {| asks := [{| price := 1; amount := 3 |}]; bids := [{| price := 1; amount := 3 |}] |}
  | _, _ =>
      {| asks := [{| price := 2; amount := 4 |}; {| price := 3; amount := 4 |}];
         bids := [{| price := 2; amount := 8 |}; {| price := 0; amount := 100 |};
                  {| price := 4; amount := 8 |}] |}
  end.


(** ** Vocabulary of the further properties *)

(** ** What a run adds to the log *)

(** From [s], the computation only adds to the log, and every event it adds
    is of the kind [P]. *)
Definition emits_at {W A : Type} (P : Event -> Prop) (m : M W A) (s : State W) : Prop :=
  forall r s', m s = (r, s') -> exists d, log s' = (log s ++ d)%list /\ Forall P d.

Definition emits {W A : Type} (P : Event -> Prop) (m : M W A) : Prop :=
  forall s, emits_at P m s.

(** The events that read the ledger and the databases. *)
Definition is_read (ev : Event) : bool :=
  match ev with
  | EvLoadAccount _ | EvQuery _ => true
  | _ => false
  end.



(** The envelope of a signing request made by [build_and_submit_transaction]
    for these operations and this memo. *)
Definition request_for (operations : list Operation) (memo : option string)
    (tx : Transaction) : Prop :=
  tx_operations tx = operations /\ tx_memo tx = Stellar.memo_of memo /\ tx_min_time tx = 0.

(** ** Payouts *)

(** The pieces [submit_batched_payments] submits one transaction for. *)
Definition payout_pieces (batch_size max_ops_per_tx : Z) (payouts : list Payouts.PayoutItem)
  : list (list Payouts.PayoutItem) :=
  flat_map (fun batch => Payouts.chunks (List.length batch) (Z.to_nat max_ops_per_tx) batch)
    (Payouts.batches batch_size [] payouts).


(** Every signing request among the events satisfies [R]. *)
Definition requests_satisfy (R : user_id -> Transaction -> Prop) (ev : Event) : Prop :=
  match ev with
  | EvSign t tx => R t tx
  | _ => True
  end.


(** The context with another transaction lookup. *)
Definition with_transaction_call {W : Type}
    (f : string -> W -> result TxRecord * W) (c : AppContext W) : AppContext W :=
  {| fee_wallet := fee_wallet c;
     slippage := slippage c;
     load_public_key := load_public_key c;
     sign_transaction := sign_transaction c;
     accounts_call := accounts_call c;
     ledgers_call := ledgers_call c;
     transactions_for_ledger := transactions_for_ledger c;
     transaction_call := f;
     strict_receive_paths := strict_receive_paths c;
     strict_send_paths := strict_send_paths c;
     orderbook_call := orderbook_call c;
     post := post c;
     time_time := time_time c;
     sleep := sleep c;
     bot_send_message := bot_send_message c;
     operations_for_transaction := operations_for_transaction c;
     effects_for_transaction := effects_for_transaction c;
     copy_trading_row := copy_trading_row c;
     referrer_of := referrer_of c;
     log_xlm_volume := log_xlm_volume c;
     calculate_referral_shares := calculate_referral_shares c |}.

(** A ledger on which every transaction looked up is found, and has
    failed. *)
Definition all_failed : AppContext unit :=
  with_transaction_call (fun _ w => (Ok Scripted.rejected, w)) (book_context thin_and_deep).

(** The error [wait_for_transaction_confirmation] of trade_services.py ends
    with when its attempts are used up. *)
Definition not_confirmed (tx_hash : string) (max_attempts : Z) : exn :=
  mk_exn ValueError
    ("Transaction " ++ tx_hash ++ " not confirmed after "
       ++ Stellar.str_of_Z max_attempts ++ " attempts").

(** What an operation has read when it sends something for signature: the
    key of the user, the account and the recommended fee. *)
Definition has_read {W : Type} (app_context : AppContext W) (s : State W)
    (telegram_id : user_id) (public_key : string) (account : Account)
    (recommended_fee : Z) : Prop :=
  exists w1 w2 s3,
    load_public_key app_context telegram_id (world s) = (Ok public_key, w1)
    /\ accounts_call app_context public_key w1 = (Ok account, w2)
    /\ Stellar.get_recommended_fee app_context (loaded s telegram_id public_key w2)
       = (Ok recommended_fee, s3).

(** A user holding 30 lumens and [usdc] USDC of [some_issuer]. *)
Definition usdc_account (usdc : Q) : Account :=
  {| balances := [ {| asset_type := "credit_alphanum4"; asset_code := Some "USDC";
                      asset_issuer := Some some_issuer;
                      balance := usdc; selling_liabilities := 0 |};
                   {| asset_type := "native"; asset_code := None; asset_issuer := None;
                      balance := 30; selling_liabilities := 0 |} ];
     subentry_count := 1; num_sponsoring := None; num_sponsored := None;
     sequence := 41 |}.

Definition usdc_world (usdc : Q) : Scripted.World :=
  {| Scripted.clock := 1000;
     Scripted.keys := [(7, "GUSER")];
     Scripted.ledger_accounts := [("GUSER", usdc_account usdc); ("GFEE", Scripted.xlm_account 5 9)];
     Scripted.latest_fees := Ok [];
     Scripted.books := [];
     Scripted.receive_paths := [];
     Scripted.send_paths :=
       [{| source_amount := 20; destination_amount := 200; path := [] |}];
     Scripted.signer := Ok "signed";
     Scripted.post_script := [Ok (Scripted.accepted "ab12")];
     Scripted.poll_script := [Ok Scripted.confirmed];
     Scripted.chat := Ok tt;
     Scripted.observed_operations := [];
     Scripted.copy_config := None;
     Scripted.ledger_after_post := None |}.

(** The validity of a destination, for the examples: 56 characters, the
    first a G. *)
Definition looks_valid (destination : string) : bool :=
  negb (TradeServices.invalid_issuer destination).

(** ** Replication *)

(** [op.get("source_account", tx["source_account"])] *)
Definition operation_source (tx : ObservedTx) (op : OpRecord) : string :=
  match op_source_account op with
  | Some a => a
  | None => otx_source_account tx
  end.

(** The two kinds of operation the replication copies. *)
Definition copied_kind (op : OpRecord) : bool :=
  String.eqb (op_type op) "path_payment_strict_send"
  || String.eqb (op_type op) "path_payment_strict_receive".

(** An event that neither submits nor writes to the chat. *)
Definition silent (ev : Event) : Prop :=
  match ev with
  | EvSign _ _ | EvPost _ | EvSendMessage _ _ => False
  | _ => True
  end.

(** The amount a replicated strict-send payment would send, before the
    balance is looked at. *)
Definition wanted_send_amount (cfg : CopyConfig) (op : OpRecord) : Q :=
  round7 (match fixed_amount cfg with
          | Some fixed => fixed
          | None => (op_source_amount op * multiplier cfg)%Q
          end).

(** A follower holding 500 units of an asset with a long code. *)
Definition long_code_holder : Account :=
  {| balances := [ {| asset_type := "credit_alphanum12"; asset_code := Some "yUSDC";
                      asset_issuer := Some some_issuer;
                      balance := 500; selling_liabilities := 0 |};
                   {| asset_type := "native"; asset_code := None; asset_issuer := None;
                      balance := 30; selling_liabilities := 0 |} ];
     subentry_count := 1; num_sponsoring := None; num_sponsored := None;
     sequence := 41 |}.

Definition long_code_op : OpRecord :=
  {| op_type := "path_payment_strict_send"; op_source_account := None;
     op_source_asset := Credit "yUSDC" some_issuer; op_asset := Native;
     op_source_amount := 100; op_destination_min := 100;
     op_source_max := 100; op_amount := 100; op_path := [] |}.

(** A payment of another account and an offer of the followed wallet. *)
Definition uncopied_operations : list OpRecord :=
  [ {| op_type := "path_payment_strict_send"; op_source_account := Some "GOTHER";
       op_source_asset := Native; op_asset := Credit "USDC" "GISSUER";
       op_source_amount := 100; op_destination_min := 100;
       op_source_max := 100; op_amount := 100; op_path := [] |};
    {| op_type := "manage_sell_offer"; op_source_account := None;
       op_source_asset := Native; op_asset := Credit "USDC" "GISSUER";
       op_source_amount := 100; op_destination_min := 100;
       op_source_max := 100; op_amount := 100; op_path := [] |} ].

Definition uncopied_world : Scripted.World :=
  {| Scripted.clock := 1000;
     Scripted.keys := [(7, "GUSER")];
     Scripted.ledger_accounts := [("GUSER", Scripted.xlm_account 1000 41)];
     Scripted.latest_fees := Ok [];
     Scripted.books := [];
     Scripted.receive_paths := [];
     Scripted.send_paths := [];
     Scripted.signer := Ok "signed";
     Scripted.post_script := [Ok (Scripted.accepted "ab12")];
     Scripted.poll_script := [Ok Scripted.confirmed];
     Scripted.chat := Ok tt;
     Scripted.observed_operations := uncopied_operations;
     Scripted.copy_config := Some scenario_cfg;
     Scripted.ledger_after_post := None |}.

(** The answer of the submission endpoint when it is busy. *)
Definition try_again_later : Response :=
  {| tx_status := Some "TRY_AGAIN_LATER"; hash := Some "ab12"; title := None;
     detail := None; fee_charged := None; effect_amount := None |}.

(** The payer (user 0) and a submission endpoint that answers
    [TRY_AGAIN_LATER]. *)
Definition busy_world : Scripted.World :=
  {| Scripted.clock := 1000;
     Scripted.keys := [(0, "GPAYER")];
     Scripted.ledger_accounts := [("GPAYER", Scripted.xlm_account 100 3)];
     Scripted.latest_fees := Ok [];
     Scripted.books := [];
     Scripted.receive_paths := [];
     Scripted.send_paths := [];
     Scripted.signer := Ok "signed";
     Scripted.post_script := [Ok try_again_later];
     Scripted.poll_script := [];
     Scripted.chat := Ok tt;
     Scripted.observed_operations := [];
     Scripted.copy_config := None;
     Scripted.ledger_after_post := None |}.

(** An event that is not a post. *)
Definition not_a_post (ev : Event) : Prop :=
  match ev with EvPost _ => False | _ => True end.

(** The exact share of the hourly reward of a pool that a balance earns. *)
Definition pro_rata (total_shares balance : Q) : Q :=
  (Calculator.HOURLY_REWARD_PER_POOL * (balance / total_shares))%Q.

(** Three holders of 1/3, 1/2 and 1/6 of a pool. *)
Definition three_holders : Calculator.Snapshot :=
  {| Calculator.total_shares := 600;
     Calculator.records :=
       [ {| Calculator.holder_account := "GLP1"; Calculator.holder_balance := 200 |};
         {| Calculator.holder_account := "GLP2"; Calculator.holder_balance := 300 |};
         {| Calculator.holder_account := "GLP3"; Calculator.holder_balance := 100 |} ] |}.

(** * Properties *)

(** ** Equations of the monad *)

Lemma bind_ret {W A B : Type} (a : A) (k : A -> M W B) (s : State W) :
  bind (ret a) k s = k a s.
Proof. reflexivity. Qed.

Lemma bind_lift {W A B : Type} (r : result A) (k : A -> M W B) (s : State W) :
  bind (lift r) k s = match r with Ok a => k a s | Raise e => (Raise e, s) end.
Proof. destruct r; reflexivity. Qed.

Lemma bind_call {W A B : Type} (ev : Event) (f : W -> result A * W) (k : A -> M W B)
    (s : State W) :
  bind (call ev f) k s =
  match f (world s) with
  | (Ok a, w) => k a (mk_state w (log s ++ [ev])%list)
  | (Raise e, w) => (Raise e, mk_state w (log s ++ [ev])%list)
  end.
Proof. unfold bind, call. destruct (f (world s)) as [[a|e] w]; reflexivity. Qed.

Lemma bind_run {W A B : Type} (m : M W A) (k : A -> M W B) (s : State W)
    (r : result A) (s1 : State W) :
  m s = (r, s1) ->
  bind m k s = match r with Ok a => k a s1 | Raise e => (Raise e, s1) end.
Proof. intros H. unfold bind. rewrite H. destruct r; reflexivity. Qed.

Lemma try_run {W A : Type} (m : M W A) (h : exn -> M W A) (s : State W)
    (r : result A) (s1 : State W) :
  m s = (r, s1) ->
  try_except m h s = match r with Ok a => (Ok a, s1) | Raise e => h e s1 end.
Proof. intros H. unfold try_except. rewrite H. destruct r; reflexivity. Qed.

(** ** Sorting *)

Section SortFacts.
Context {A : Type} (leb : A -> A -> bool).



Hypothesis leb_total : forall x y, leb x y = true \/ leb y x = true.
Hypothesis leb_trans : forall x y z, leb x y = true -> leb y z = true -> leb x z = true.



End SortFacts.




(** ** The fee estimator *)





Section FeeEstimator.
Context {W : Type} (app_context : AppContext W).

(** [get_recommended_fee] returns a fee in every world: its handler catches
    everything. *)
Lemma get_recommended_fee_total (s : State W) :
  exists fee s', Stellar.get_recommended_fee app_context s = (Ok fee, s').
Proof.
  unfold Stellar.get_recommended_fee, try_except, bind.
  destruct (Stellar.query_fees app_context s) as [[fees|e] s1].
  - destruct fees as [|f fees].
    + eexists _, _. reflexivity.
    + unfold lift. destruct (Stellar.median_fee (f :: fees)); eexists _, _; reflexivity.
  - eexists _, _. reflexivity.
Qed.


End FeeEstimator.

(** ** The transaction orchestrator *)

Section Orchestrator.
Context {W : Type} (app_context : AppContext W).

(** What follows the assembly: the signing request, the submission and the
    test of [tx_status]. *)
Lemma sign_and_post_log (telegram_id : user_id) (tx : Transaction) (s : State W)
    (k : Response -> string -> M W (Response * string)) :
  (forall resp x s0, exists r, k resp x s0 = (r, s0)) ->
  exists r s' d,
    (signed_xdr <- call (EvSign telegram_id tx) (sign_transaction app_context telegram_id tx) ;;
     response_dict <- call (EvPost signed_xdr) (post app_context signed_xdr) ;;
     k response_dict signed_xdr) s = (r, s')
    /\ log s' = (log s ++ EvSign telegram_id tx :: d)%list
    /\ (d = [] \/ exists x, d = [EvPost x]).
Proof.
  intros Hk. unfold bind, call.
  destruct (sign_transaction app_context telegram_id tx (world s)) as [[x|e] w1]; simpl.
  - destruct (post app_context x w1) as [[resp|e] w2]; simpl.
    + destruct (Hk resp x (mk_state w2 ((log s ++ [EvSign telegram_id tx]) ++ [EvPost x])%list))
        as [r Hr].
      rewrite Hr. eexists r, _, [EvPost x]. split; [reflexivity|]. split.
      * simpl. rewrite <- app_assoc. reflexivity.
      * right. eexists. reflexivity.
    + eexists _, _, [EvPost x]. split; [reflexivity|]. split.
      * simpl. rewrite <- app_assoc. reflexivity.
      * right. eexists. reflexivity.
  - eexists _, _, []. split; [reflexivity|]. split; [reflexivity | left; reflexivity].
Qed.

(** With no [base_fee] given, the envelope sent for signature carries the
    fee computed from the estimator and the number of operations, the
    sequence number just loaded, no lower time bound and the clock plus 900
    as upper bound. *)
Lemma assembled_default_fee (telegram_id : user_id) (operations : list Operation)
    (memo : option string) (s : State W) (public_key : string) (account : Account)
    (w1 w2 : W) (recommended_fee : Z) (s3 : State W) :
  load_public_key app_context telegram_id (world s) = (Ok public_key, w1) ->
  accounts_call app_context public_key w1 = (Ok account, w2) ->
  Stellar.get_recommended_fee app_context (loaded s telegram_id public_key w2)
    = (Ok recommended_fee, s3) ->
  exists r s' d,
    Stellar.build_and_submit_transaction app_context telegram_id operations memo None s = (r, s')
    /\ log s' =
         (log s3
            ++ EvSign telegram_id
                 (envelope public_key account
                    (Z.max recommended_fee (200 * Z.of_nat (List.length operations)))
                    (time_time app_context (world s3)) operations memo) :: d)%list
    /\ (d = [] \/ exists x, d = [EvPost x]).
Proof.
  intros Hpk Hacc Hfee.
  unfold Stellar.build_and_submit_transaction, Stellar.load_account_async.
  unfold bind at 1. unfold call at 1. rewrite Hpk. cbn [world log].
  unfold bind at 1. unfold call at 1. cbn [world log]. rewrite Hacc.
  unfold bind at 1. unfold bind at 1. fold (loaded s telegram_id public_key w2).
  rewrite Hfee. unfold ret at 1. unfold bind at 1.
  apply sign_and_post_log.
  intros resp x s0.
  destruct (tx_status resp) as [st|]; [destruct (String.eqb st "ERROR")|];
    eexists; reflexivity.
Qed.

(** The same with a [base_fee] given by the caller. *)
Lemma assembled_given_fee (telegram_id : user_id) (operations : list Operation)
    (memo : option string) (base_fee : Z) (s : State W) (public_key : string)
    (account : Account) (w1 w2 : W) :
  load_public_key app_context telegram_id (world s) = (Ok public_key, w1) ->
  accounts_call app_context public_key w1 = (Ok account, w2) ->
  exists r s' d,
    Stellar.build_and_submit_transaction app_context telegram_id operations memo
      (Some base_fee) s = (r, s')
    /\ log s' =
         (log (loaded s telegram_id public_key w2)
            ++ EvSign telegram_id
                 (envelope public_key account base_fee (time_time app_context w2)
                    operations memo) :: d)%list
    /\ (d = [] \/ exists x, d = [EvPost x]).
Proof.
  intros Hpk Hacc.
  unfold Stellar.build_and_submit_transaction, Stellar.load_account_async.
  unfold bind at 1. unfold call at 1. rewrite Hpk. cbn [world log].
  unfold bind at 1. unfold call at 1. cbn [world log]. rewrite Hacc.
  unfold bind at 1. unfold ret at 1. unfold bind at 1.
  fold (loaded s telegram_id public_key w2).
  change (time_time app_context w2)
    with (time_time app_context (world (loaded s telegram_id public_key w2))).
  apply sign_and_post_log.
  intros resp x s0.
  destruct (tx_status resp) as [st|]; [destruct (String.eqb st "ERROR")|];
    eexists; reflexivity.
Qed.

End Orchestrator.

(** ** C5: the recommended fee and the default base fee *)



(** ** C7: the validity window of the envelope *)




(** ** Text searched in exception messages *)

Lemma prefix_mentions (needle : string) :
  forall hay, String.prefix needle hay = true ->
              forall c, mentions c needle -> mentions c hay.
Proof.
  induction needle as [|a needle IH]; intros hay Hp c Hc.
  - destruct Hc.
  - destruct hay as [|b hay]; simpl in Hp; [discriminate Hp|].
    destruct (ascii_dec a b) as [->|]; [|discriminate Hp].
    destruct Hc as [->|Hc]; [left; reflexivity | right; eapply IH; eassumption].
Qed.

Lemma contains_eq (needle hay : string) :
  contains needle hay =
  if String.prefix needle hay then true
  else match hay with
       | EmptyString => false
       | String _ rest => contains needle rest
       end.
Proof. destruct hay; reflexivity. Qed.

Lemma contains_mentions (needle : string) :
  forall hay, contains needle hay = true ->
              forall c, mentions c needle -> mentions c hay.
Proof.
  induction hay as [|b hay IH]; intros Hc c Hm; rewrite contains_eq in Hc.
  - destruct (String.prefix needle EmptyString) eqn:E; [|discriminate Hc].
    eapply prefix_mentions; eassumption.
  - destruct (String.prefix needle (String b hay)) eqn:E.
    + eapply prefix_mentions; eassumption.
    + right. apply IH; assumption.
Qed.

Lemma lower_ascii_underscore (c : ascii) : lower_ascii c = "_"%char -> c = "_"%char.
Proof.
  destruct c as [[] [] [] [] [] [] [] []]; vm_compute; intros H; first [reflexivity | discriminate H].
Qed.

Lemma mentions_lower_underscore (s : string) :
  mentions "_" (lower s) -> mentions "_" s.
Proof.
  induction s as [|c s IH]; simpl; [tauto|].
  intros [H|H].
  - left. apply lower_ascii_underscore. exact H.
  - right. apply IH. exact H.
Qed.

Lemma mentions_append (c : ascii) (s1 s2 : string) :
  mentions c (s1 ++ s2) -> mentions c s1 \/ mentions c s2.
Proof.
  induction s1 as [|a s1 IH]; simpl.
  - right. assumption.
  - intros [H|H]; [left; left; exact H|].
    destruct (IH H); [left; right|right]; assumption.
Qed.

(** The message of the [ValueError] raised for a transaction that was found
    but failed does not read as "not found" when the hash has no
    underscore, as is the case of every hexadecimal hash. *)
Lemma failed_message_not_found (tx_hash : string) :
  ~ mentions "_" tx_hash ->
  contains "not_found" (lower ("Transaction " ++ tx_hash ++ " failed")) = false.
Proof.
  intros Hh. destruct (contains _ _) eqn:E; [|reflexivity]. exfalso.
  assert (Hm : mentions "_" (lower ("Transaction " ++ tx_hash ++ " failed"))).
  { eapply contains_mentions; [exact E|]. vm_compute. tauto. }
  apply mentions_lower_underscore in Hm.
  apply mentions_append in Hm. destruct Hm as [Hm|Hm].
  - vm_compute in Hm. repeat (destruct Hm as [Hm|Hm]; [discriminate Hm|]). exact Hm.
  - apply mentions_append in Hm. destruct Hm as [Hm|Hm]; [exact (Hh Hm)|].
    vm_compute in Hm. repeat (destruct Hm as [Hm|Hm]; [discriminate Hm|]). exact Hm.
Qed.

(** ** C3: waiting for confirmation *)

Section Confirmation.
Context {W : Type} (app_context : AppContext W).
Variables (marker : string) (normalise : string -> string) (timeout : exn).
Variables (tx_hash : string) (interval : Q).

Lemma poll_once_retry (s : State W) (e : exn) (w : W) :
  transaction_call app_context tx_hash (world s) = (Raise e, w) ->
  not_yet_visible marker normalise e = true ->
  Stellar.poll_once app_context marker normalise tx_hash interval s = (Ok None, after_retry app_context tx_hash interval s w).
Proof.
  intros Hcall Hnf. unfold Stellar.poll_once, try_except, bind, call.
  rewrite Hcall. cbn [world log]. fold (not_yet_visible marker normalise e). rewrite Hnf. reflexivity.
Qed.

Lemma poll_once_error (s : State W) (e : exn) (w : W) :
  transaction_call app_context tx_hash (world s) = (Raise e, w) ->
  not_yet_visible marker normalise e = false ->
  Stellar.poll_once app_context marker normalise tx_hash interval s
  = (Raise e, mk_state w (log s ++ [EvPoll tx_hash])%list).
Proof.
  intros Hcall Hnf. unfold Stellar.poll_once, try_except, bind, call.
  rewrite Hcall. cbn [world log]. fold (not_yet_visible marker normalise e). rewrite Hnf. reflexivity.
Qed.

Lemma poll_once_success (s : State W) (tx : TxRecord) (w : W) :
  transaction_call app_context tx_hash (world s) = (Ok tx, w) ->
  successful tx = Some true ->
  Stellar.poll_once app_context marker normalise tx_hash interval s
  = (Ok (Some tx), mk_state w (log s ++ [EvPoll tx_hash])%list).
Proof.
  intros Hcall Hok. unfold Stellar.poll_once, try_except, bind, call.
  rewrite Hcall. cbn [world log]. rewrite Hok. reflexivity.
Qed.

Lemma poll_once_failed (s : State W) (tx : TxRecord) (w : W) :
  transaction_call app_context tx_hash (world s) = (Ok tx, w) ->
  successful tx = Some false ->
  not_yet_visible marker normalise (failed_error tx_hash) = false ->
  Stellar.poll_once app_context marker normalise tx_hash interval s
  = (Raise (failed_error tx_hash), mk_state w (log s ++ [EvPoll tx_hash])%list).
Proof.
  intros Hcall Hok Hnf. unfold Stellar.poll_once, try_except, bind, call.
  rewrite Hcall. cbn [world log]. rewrite Hok. unfold raise at 1.
  fold (failed_error tx_hash). fold (not_yet_visible marker normalise (failed_error tx_hash)). rewrite Hnf. reflexivity.
Qed.

(** Polls answered "not yet visible" use up one attempt each and nothing
    else. *)
Lemma poll_loop_skip (k : nat) (s s' : State W) :
  not_found_polls app_context marker normalise tx_hash interval k s s' ->
  forall remaining,
    Stellar.poll_loop app_context marker normalise timeout tx_hash interval (k + remaining) s
    = Stellar.poll_loop app_context marker normalise timeout tx_hash interval remaining s'.
Proof.
  induction 1 as [s|k s s' e w Hcall Hnf Hrest IH]; intros remaining.
  - reflexivity.
  - simpl. unfold bind at 1. rewrite (poll_once_retry s e w Hcall Hnf). apply IH.
Qed.

Lemma poll_loop_exhausted (k : nat) (s s' : State W) :
  not_found_polls app_context marker normalise tx_hash interval k s s' ->
  Stellar.poll_loop app_context marker normalise timeout tx_hash interval k s = (Raise timeout, s').
Proof.
  intros H. rewrite <- (Nat.add_0_r k) at 1. rewrite (poll_loop_skip k s s' H). reflexivity.
Qed.

Lemma poll_loop_step (k remaining : nat) (s s' : State W) (r : result TxRecord)
    (o : result (option TxRecord)) (s'' : State W) :
  not_found_polls app_context marker normalise tx_hash interval k s s' ->
  Stellar.poll_once app_context marker normalise tx_hash interval s' = (o, s'') ->
  match o with Ok (Some tx) => r = Ok tx | Raise e => r = Raise e | Ok None => False end ->
  Stellar.poll_loop app_context marker normalise timeout tx_hash interval (k + S remaining) s
  = (r, s'').
Proof.
  intros H Honce Hr. rewrite (poll_loop_skip k s s' H). simpl. unfold bind.
  rewrite Honce. destruct o as [[tx|]|e]; subst; try reflexivity. destruct Hr.
Qed.

(** The log of [k] unanswered polls: a poll and a sleep, [k] times. *)
Lemma not_found_polls_log (k : nat) (s s' : State W) :
  not_found_polls app_context marker normalise tx_hash interval k s s' ->
  log s' = (log s ++ List.concat (repeat [EvPoll tx_hash; EvSleep interval] k))%list.
Proof.
  induction 1 as [s|k s s' e w Hcall Hnf Hrest IH].
  - simpl. rewrite app_nil_r. reflexivity.
  - rewrite IH. unfold after_retry. cbn [log]. simpl.
    rewrite <- !app_assoc. reflexivity.
Qed.

End Confirmation.

(** C3.  [wait_for_transaction_confirmation] of core/stellar.py retries only
    the polls answered "not found".  After [k] such polls, with [k] below
    [max_attempts]: a successful transaction is returned; a transaction found
    unsuccessful raises [ValueError] at once, with no sleep and no further
    poll; any other error of the query is raised again at once.  When all
    [max_attempts] polls are answered "not found" it raises [TimeoutError],
    not [ValueError].  Each unanswered poll costs one sleep of [interval]
    seconds. *)
Theorem wait_for_confirmation_retries_only_not_found
    {W : Type} (app_context : AppContext W) (tx_hash : string)
    (max_attempts interval : Z) (k : nat) (s s1 : State W) :
  not_found_polls app_context "not_found" lower tx_hash (inject_Z interval) k s s1 ->
  log s1 = (log s ++ List.concat (repeat [EvPoll tx_hash; EvSleep (inject_Z interval)] k))%list
  /\ (Z.of_nat k < max_attempts ->
      forall tx w,
        transaction_call app_context tx_hash (world s1) = (Ok tx, w) ->
        successful tx = Some true ->
        Stellar.wait_for_transaction_confirmation app_context tx_hash max_attempts interval s
        = (Ok tx, mk_state w (log s1 ++ [EvPoll tx_hash])%list))
  /\ (Z.to_nat max_attempts = k ->
      exists e,
        Stellar.wait_for_transaction_confirmation app_context tx_hash max_attempts interval s
        = (Raise e, s1)
        /\ exn_cls e = TimeoutError)
  /\ (Z.of_nat k < max_attempts ->
      ~ mentions "_" tx_hash ->
      forall tx w,
        transaction_call app_context tx_hash (world s1) = (Ok tx, w) ->
        successful tx = Some false ->
        Stellar.wait_for_transaction_confirmation app_context tx_hash max_attempts interval s
        = (Raise (mk_exn ValueError ("Transaction " ++ tx_hash ++ " failed")),
           mk_state w (log s1 ++ [EvPoll tx_hash])%list))
  /\ (Z.of_nat k < max_attempts ->
      forall e w,
        transaction_call app_context tx_hash (world s1) = (Raise e, w) ->
        contains "not_found" (lower (str e)) = false ->
        Stellar.wait_for_transaction_confirmation app_context tx_hash max_attempts interval s
        = (Raise e, mk_state w (log s1 ++ [EvPoll tx_hash])%list)).
Proof.
  intros Hpolls.
  assert (Hfuel : Z.of_nat k < max_attempts ->
                  Z.to_nat max_attempts = (k + S (Z.to_nat max_attempts - k - 1))%nat) by lia.
  split; [apply (not_found_polls_log _ _ _ _ _ _ _ _ Hpolls)|].
  unfold Stellar.wait_for_transaction_confirmation.
  split; [|split; [|split]].
  - intros Hk tx w Hcall Hok. rewrite (Hfuel Hk).
    eapply poll_loop_step; [exact Hpolls | apply poll_once_success; eassumption | reflexivity].
  - intros Hk. eexists. split; [|].
    + rewrite Hk. apply poll_loop_exhausted. exact Hpolls.
    + reflexivity.
  - intros Hk Hhash tx w Hcall Hok. rewrite (Hfuel Hk).
    eapply poll_loop_step;
      [ exact Hpolls
      | eapply poll_once_failed;
        [exact Hcall | exact Hok | apply failed_message_not_found; exact Hhash]
      | reflexivity ].
  - intros Hk e w Hcall Hnf. rewrite (Hfuel Hk).
    eapply poll_loop_step;
      [exact Hpolls | apply poll_once_error; [exact Hcall | exact Hnf] | reflexivity].
Qed.

(** In the scripted world, a script that starts with [k] "not found" answers
    gives [k] unanswered polls and leaves the rest of the script. *)
Lemma scripted_not_found_polls (wallet : string) (slip : option Q) (tx_hash : string)
    (interval : Q) (k : nat) :
  forall (s : State Scripted.World) (rest : list (result TxRecord)),
    Scripted.poll_script (world s) = (repeat (Raise Scripted.not_found) k ++ rest)%list ->
    exists s',
      not_found_polls (Scripted.context wallet slip) "not_found" lower tx_hash interval k s s'
      /\ Scripted.poll_script (world s') = rest.
Proof.
  induction k as [|k IH]; intros s rest Hscript.
  - exists s. split; [constructor | exact Hscript].
  - simpl in Hscript.
    destruct (IH (after_retry (Scripted.context wallet slip) tx_hash interval s
                    (snd (Scripted.next_poll (world s)))) rest) as (s' & Hpolls & Hrest).
    + unfold Scripted.next_poll. rewrite Hscript. reflexivity.
    + exists s'. split; [|exact Hrest].
      eapply nfp_more with (e := Scripted.not_found); [| reflexivity | exact Hpolls].
      simpl. unfold Scripted.next_poll. rewrite Hscript. reflexivity.
Qed.

Lemma scripted_poll_next (wallet : string) (slip : option Q) (tx_hash : string)
    (w : Scripted.World) (r : result TxRecord) (rest : list (result TxRecord)) :
  Scripted.poll_script w = r :: rest ->
  transaction_call (Scripted.context wallet slip) tx_hash w
  = (r, Scripted.with_polls rest w).
Proof. intros H. simpl. unfold Scripted.next_poll. rewrite H. reflexivity. Qed.

(** Not found 29 times, then success on the 30th poll: the transaction is
    returned.  Not found 30 times: [TimeoutError].  Found unsuccessful on the
    first poll: [ValueError], the confirmed answer scripted next is never
    asked for.  A server error: raised again. *)
Lemma wait_for_confirmation_retries_only_not_found_witness :
  let ctx := Scripted.context "GFEE" None in
  let run polls :=
    Stellar.wait_for_transaction_confirmation ctx "ab12" 30 2
      (Scripted.start (Scripted.with_polls polls Scripted.world0)) in
  let server_error := mk_exn HorizonError "500 Internal Server Error" in
  fst (run (repeat (Raise Scripted.not_found) 29 ++ [Ok Scripted.confirmed])%list)
  = Ok Scripted.confirmed
  /\ (exists e,
         fst (run (repeat (Raise Scripted.not_found) 30 ++ [Ok Scripted.confirmed])%list)
         = Raise e /\ exn_cls e = TimeoutError)
  /\ run [Ok Scripted.rejected; Ok Scripted.confirmed]
     = (Raise (mk_exn ValueError "Transaction ab12 failed"),
        mk_state (Scripted.with_polls [Ok Scripted.confirmed] Scripted.world0) [EvPoll "ab12"])
  /\ fst (run [Raise server_error; Ok Scripted.confirmed]) = Raise server_error.
Proof.
  intros ctx run server_error. unfold run.
  split; [|split; [|split]].
  - destruct (scripted_not_found_polls "GFEE" None "ab12" (inject_Z 2) 29
                (Scripted.start
                   (Scripted.with_polls
                      (repeat (Raise Scripted.not_found) 29 ++ [Ok Scripted.confirmed])%list
                      Scripted.world0))
                [Ok Scripted.confirmed] eq_refl) as (s1 & H & Hrest).
    destruct (wait_for_confirmation_retries_only_not_found ctx "ab12" 30 2 29 _ _ H)
      as (_ & Hok & _).
    rewrite (Hok ltac:(lia) Scripted.confirmed _
               (scripted_poll_next "GFEE" None "ab12" _ _ _ Hrest) eq_refl).
    reflexivity.
  - destruct (scripted_not_found_polls "GFEE" None "ab12" (inject_Z 2) 30
                (Scripted.start
                   (Scripted.with_polls
                      (repeat (Raise Scripted.not_found) 30 ++ [Ok Scripted.confirmed])%list
                      Scripted.world0))
                [Ok Scripted.confirmed] eq_refl) as (s1 & H & Hrest).
    destruct (wait_for_confirmation_retries_only_not_found ctx "ab12" 30 2 30 _ _ H)
      as (_ & _ & Hto & _).
    destruct (Hto eq_refl) as (e & He & Hcls).
    exists e. rewrite He. split; [reflexivity | exact Hcls].
  - destruct (wait_for_confirmation_retries_only_not_found ctx "ab12" 30 2 0 _ _
                (nfp_none ctx "not_found" lower "ab12" (inject_Z 2)
                   (Scripted.start (Scripted.with_polls
                      [Ok Scripted.rejected; Ok Scripted.confirmed] Scripted.world0))))
      as (_ & _ & _ & Hfail & _).
    rewrite (Hfail ltac:(lia)
               ltac:(vm_compute; intros Hm;
                     repeat (destruct Hm as [Hm|Hm]; [discriminate Hm|]); exact Hm)
               Scripted.rejected _ eq_refl eq_refl).
    reflexivity.
  - destruct (wait_for_confirmation_retries_only_not_found ctx "ab12" 30 2 0 _ _
                (nfp_none ctx "not_found" lower "ab12" (inject_Z 2)
                   (Scripted.start (Scripted.with_polls
                      [Raise server_error; Ok Scripted.confirmed] Scripted.world0))))
      as (_ & _ & _ & _ & Herr).
    rewrite (Herr ltac:(lia) server_error _ eq_refl eq_refl). reflexivity.
Defined.

(** ** Rounding and bounds *)

Lemma round_half_even_bounds (x : Q) :
  (Qfloor x <= round_half_even x <= Qfloor x + 1)%Z.
Proof.
  unfold round_half_even.
  destruct (Qcompare (x - inject_Z (Qfloor x)) (1 # 2)); [destruct (Z.even (Qfloor x))| |]; lia.
Qed.

Lemma round_half_even_mono (x y : Q) :
  (x <= y)%Q -> (round_half_even x <= round_half_even y)%Z.
Proof.
  intros Hxy.
  pose proof (Qfloor_resp_le x y Hxy) as Hf.
  pose proof (round_half_even_bounds x) as Hx.
  pose proof (round_half_even_bounds y) as Hy.
  destruct (Z.eq_dec (Qfloor x) (Qfloor y)) as [E|NE]; [|lia].
  unfold round_half_even in *. rewrite <- E in *.
  destruct (Qcompare_spec (x - inject_Z (Qfloor x)) (1 # 2)) as [Ex|Lx|Gx];
    destruct (Qcompare_spec (y - inject_Z (Qfloor x)) (1 # 2)) as [Ey|Ly|Gy];
    try lia; try (destruct (Z.even (Qfloor x)); lia); exfalso; lra.
Qed.

Lemma round7_mono (x y : Q) : (x <= y)%Q -> (round7 x <= round7 y)%Q.
Proof.
  intros Hxy. unfold round7, Qdiv.
  apply Qmult_le_compat_r; [|vm_compute; discriminate].
  rewrite <- Zle_Qle. apply round_half_even_mono.
  apply Qmult_le_compat_r; [exact Hxy | vm_compute; discriminate].
Qed.

Lemma Qltb_lt (a b : Q) : Qltb a b = true <-> (a < b)%Q.
Proof.
  unfold Qltb. rewrite negb_true_iff. split.
  - intros H. apply Qnot_le_lt. intros Hle. apply Qle_bool_iff in Hle. congruence.
  - intros H. destruct (Qle_bool b a) eqn:E; [|reflexivity].
    apply Qle_bool_iff in E. exfalso. apply (Qlt_not_le _ _ H). exact E.
Qed.

Lemma pymax_spec (a b : Q) : (pymax a b == Qmax a b)%Q.
Proof.
  unfold pymax. destruct (Qle_bool b a) eqn:E.
  - apply Qle_bool_iff in E. symmetry. apply Q.max_l. exact E.
  - assert (H : (a <= b)%Q).
    { destruct (Qlt_le_dec a b) as [H|H]; [apply Qlt_le_weak; exact H|].
      apply Qle_bool_iff in H. congruence. }
    symmetry. apply Q.max_r. exact H.
Qed.

Lemma pymax_mono (a b c : Q) : (a <= b)%Q -> (pymax a c <= pymax b c)%Q.
Proof.
  intros H. rewrite !pymax_spec. apply Q.max_le_compat_r. exact H.
Qed.

Lemma pymax_lower (a b : Q) : (b <= pymax a b)%Q.
Proof. rewrite pymax_spec. apply Q.le_max_r. Qed.

Lemma effective_slippage_mono (p : PathRecord) (s1 s2 : Q) :
  (s1 <= s2)%Q ->
  (TradeServices.effective_slippage s1 p <= TradeServices.effective_slippage s2 p)%Q.
Proof.
  intros H. unfold TradeServices.effective_slippage. destruct (path p); lra.
Qed.

(** ** C8: the bounds are monotonic in the slippage tolerance *)

(** C8.  For a fixed selected route with a non-negative amount and two
    slippage tolerances [s1 <= s2]: the [send_max] of a buy at [s1] is at
    most the one at [s2], and the [dest_min] of a sell at [s1] is at least the
    one at [s2]; the doubling of the tolerance on routes with intermediate
    assets, the rounding to 7 decimals and the floor of one stroop are part of
    the computed values. *)
Theorem bounds_monotone_in_slippage (selected_path : PathRecord) (s1 s2 : Q) :
  (s1 <= s2)%Q ->
  ((0 <= source_amount selected_path)%Q ->
   (TradeServices.buy_send_max s1 selected_path
    <= TradeServices.buy_send_max s2 selected_path)%Q)
  /\ ((0 <= destination_amount selected_path)%Q ->
      (TradeServices.sell_dest_min s2 selected_path
       <= TradeServices.sell_dest_min s1 selected_path)%Q)
  /\ (stroop <= TradeServices.buy_send_max s1 selected_path)%Q
  /\ (stroop <= TradeServices.sell_dest_min s1 selected_path)%Q.
Proof.
  intros Hs.
  pose proof (effective_slippage_mono selected_path s1 s2 Hs) as He.
  unfold TradeServices.buy_send_max, TradeServices.sell_dest_min.
  split; [|split; [|split]].
  - intros Hpos. apply pymax_mono, round7_mono. nra.
  - intros Hpos. apply pymax_mono, round7_mono. nra.
  - apply pymax_lower.
  - apply pymax_lower.
Qed.

(** A two-hop route needing 10 lumens: 5% and 10% tolerance give a
    [send_max] of 11 and 12; a route yielding 10 lumens gives a [dest_min] of
    9 and 8. *)
Lemma bounds_monotone_in_slippage_witness :
  let p := {| source_amount := 10; destination_amount := 10;
              path := [Credit "USDC" "GISSUER"] |} in
  ((TradeServices.buy_send_max (5 # 100) p <= TradeServices.buy_send_max (10 # 100) p)%Q
   /\ (TradeServices.buy_send_max (5 # 100) p == 11)%Q
   /\ (TradeServices.buy_send_max (10 # 100) p == 12)%Q)
  /\ ((TradeServices.sell_dest_min (10 # 100) p <= TradeServices.sell_dest_min (5 # 100) p)%Q
      /\ (TradeServices.sell_dest_min (5 # 100) p == 9)%Q
      /\ (TradeServices.sell_dest_min (10 # 100) p == 8)%Q).
Proof.
  intros p.
  destruct (bounds_monotone_in_slippage p (5 # 100) (10 # 100)) as (Hbuy & Hsell & _).
  - vm_compute. discriminate.
  - split; (split; [|split; reflexivity]).
    + apply Hbuy. vm_compute. discriminate.
    + apply Hsell. vm_compute. discriminate.
Defined.

(** ** Submissions in the log *)

Section Quiet.
Context {W : Type}.

Lemma quiet_ret {A : Type} (a : A) : quiet (@ret W A a).
Proof. intros s r s' H. inversion H. reflexivity. Qed.

Lemma quiet_raise {A : Type} (e : exn) : quiet (@raise W A e).
Proof. intros s r s' H. inversion H. reflexivity. Qed.

Lemma quiet_lift {A : Type} (x : result A) : quiet (@lift W A x).
Proof. intros s r s' H. inversion H. reflexivity. Qed.

Lemma quiet_bind {A B : Type} (m : M W A) (k : A -> M W B) :
  quiet m -> (forall a, quiet (k a)) -> quiet (bind m k).
Proof.
  intros Hm Hk s r s' H. unfold bind in H.
  destruct (m s) as [[a|e] s1] eqn:E.
  - rewrite (Hk a s1 r s' H). exact (Hm s _ s1 E).
  - inversion H; subst. exact (Hm s _ s' E).
Qed.

Lemma quiet_try {A : Type} (m : M W A) (h : exn -> M W A) :
  quiet m -> (forall e, quiet (h e)) -> quiet (try_except m h).
Proof.
  intros Hm Hh s r s' H. unfold try_except in H.
  destruct (m s) as [[a|e] s1] eqn:E.
  - inversion H; subst. exact (Hm s _ s' E).
  - rewrite (Hh e s1 r s' H). exact (Hm s _ s1 E).
Qed.

Lemma quiet_call {A : Type} (ev : Event) (f : W -> result A * W) :
  is_submission ev = false -> quiet (call ev f).
Proof.
  intros Hev s r s' H. unfold call in H.
  destruct (f (world s)) as [x w]. inversion H; subst. cbn [log].
  unfold submissions. rewrite filter_app. simpl. rewrite Hev. apply app_nil_r.
Qed.

Lemma quiet_if {A : Type} (b : bool) (m1 m2 : M W A) :
  quiet m1 -> quiet m2 -> quiet (if b then m1 else m2).
Proof. destruct b; auto. Qed.

End Quiet.

Section QuietFunctions.
Context {W : Type} (app_context : AppContext W).

Lemma quiet_load_account (public_key : string) :
  quiet (Stellar.load_account_async app_context public_key).
Proof. apply quiet_call. reflexivity. Qed.

Lemma quiet_get_estimated_xlm_value (asset : Asset) (amount : Q) :
  quiet (TradeServices.get_estimated_xlm_value app_context asset amount).
Proof.
  unfold TradeServices.get_estimated_xlm_value.
  apply quiet_if; [apply quiet_ret|].
  apply quiet_try; [|intros; apply quiet_ret].
  apply quiet_bind; [apply quiet_call; reflexivity|].
  intros [|p paths]; apply quiet_ret.
Qed.

(** The affordability check only reads: it submits nothing. *)
Lemma quiet_calculate_fee_and_check_balance (telegram_id : user_id) (send_asset : Asset)
    (send_amount : Q) (is_send_max : bool) :
  quiet (TradeServices.calculate_fee_and_check_balance app_context telegram_id
           send_asset send_amount is_send_max).
Proof.
  unfold TradeServices.calculate_fee_and_check_balance.
  apply quiet_bind.
  - apply quiet_if; [apply quiet_call; reflexivity | apply quiet_ret].
  - intros public_key. apply quiet_bind; [apply quiet_load_account|].
    intros account. apply quiet_bind.
    + apply quiet_if; [apply quiet_ret|].
      apply quiet_bind; [apply quiet_get_estimated_xlm_value | intros; apply quiet_ret].
    + intros fee. apply quiet_if; [apply quiet_raise | apply quiet_ret].
Qed.

End QuietFunctions.

(** ** C6: the available native balance *)

(** C6, as stated, fails.  An account holding 1.5 lumens and nothing else
    has an available balance of 0, where balance - liabilities - reserve is
    -0.5.  And a buy that cannot be afforded fails only after the transaction
    that creates the missing trust line has been signed and posted. *)
Lemma available_balance_unclamped_counterexample :
  let account := Scripted.xlm_account (15 # 10) 1 in
  let run := TradeServices.perform_buy (Scripted.context "GFEE" None) (Some 7)
               "USDC" some_issuer 5 (Scripted.start poor_buyer_world) in
  ((unclamped_available account == - (1 # 2))%Q
   /\ (TradeServices.calculate_available_xlm account == 0)%Q
   /\ ~ (TradeServices.calculate_available_xlm account == unclamped_available account)%Q)
  /\ (fst run = Raise (mk_exn ValueError "Insufficient XLM: required, available")
      /\ submissions (log (snd run))
         = [EvSign (Some 7)
              {| tx_source := "GUSER"; tx_sequence := 41; tx_base_fee := 10000;
                 tx_min_time := 0; tx_max_time := 1900;
                 tx_operations :=
                   [ChangeTrust (Credit "USDC" some_issuer) (inject_Z 1000000000)];
                 tx_memo := Some "Add Trustline" |};
            EvPost "signed"]).
Proof.
  split.
  - split; [reflexivity|]. split; [reflexivity|].
    vm_compute. discriminate.
  - split; vm_compute; reflexivity.
Qed.

(** C6, amended.  The available native balance is balance - selling
    liabilities - minimum reserve, with minimum reserve = 2 + 0.5 *
    (subentries + sponsoring - sponsored), floored at 0: it is never negative
    and equals the difference whenever that is not negative.  In a buy, when
    the affordability check raises, or when it returns a fee with
    [send_max + fee] above the available balance, the buy raises and nothing
    is sent to the signer or to the network from the moment the route is
    selected. *)
Theorem available_balance_floored_and_checked
    {W : Type} (app_context : AppContext W) (account : Account)
    (telegram_id : user_id) (public_key : string) (asset : Asset) (asset_code : string)
    (dest_amount : Q) (selected_path : PathRecord) (s s1 : State W) (checked : result Q) :
  let available_xlm := TradeServices.calculate_available_xlm account in
  let send_max :=
    TradeServices.buy_send_max (TradeServices.context_slippage app_context) selected_path in
  TradeServices.calculate_fee_and_check_balance app_context telegram_id Native send_max true s
  = (checked, s1) ->
  match checked with
  | Ok fee => (available_xlm < send_max + fee)%Q
  | Raise _ => True
  end ->
  (available_xlm == Qmax (unclamped_available account) 0)%Q
  /\ (0 <= available_xlm)%Q
  /\ ((0 <= unclamped_available account)%Q ->
      (available_xlm == unclamped_available account)%Q)
  /\ (exists e,
         TradeServices.buy_selected app_context telegram_id public_key asset asset_code
           available_xlm dest_amount selected_path s = (Raise e, s1)
         /\ exn_cls e = match checked with Ok _ => ValueError | Raise e' => exn_cls e' end)
  /\ submissions (log s1) = submissions (log s).
Proof.
  intros available_xlm send_max Hcheck Hover.
  assert (Hmax : (available_xlm == Qmax (unclamped_available account) 0)%Q).
  { unfold available_xlm, TradeServices.calculate_available_xlm.
    rewrite pymax_spec. apply Q.max_compat; [|reflexivity].
    unfold unclamped_available, TradeServices.minimum_reserve. ring. }
  split; [exact Hmax|]. split; [rewrite Hmax; apply Q.le_max_r|].
  split; [intros Hpos; rewrite Hmax; apply Q.max_l; exact Hpos|].
  split.
  - unfold TradeServices.buy_selected, bind. fold send_max. rewrite Hcheck.
    destruct checked as [fee|e].
    + assert (Hlt : Qltb available_xlm (send_max + fee) = true).
      { unfold Qltb. destruct (Qle_bool (send_max + fee) available_xlm) eqn:E; [|reflexivity].
        apply Qle_bool_iff in E. exfalso. lra. }
      rewrite Hlt. eexists. split; reflexivity.
    + eexists. split; reflexivity.
  - exact (quiet_calculate_fee_and_check_balance app_context telegram_id Native send_max
             true s checked s1 Hcheck).
Qed.

(** A direct route needing 10 lumens at 5% tolerance: [send_max] is 10.5
    and the fee 0.105.  The account read at the start of the buy holds 3
    lumens (1 available), the one the check reads holds 100: the check
    passes, the comparison with the available balance raises, nothing is
    submitted. *)
Lemma available_balance_floored_and_checked_witness :
  let ctx := Scripted.context "GFEE" None in
  let account := Scripted.xlm_account 3 41 in
  let p := {| source_amount := 10; destination_amount := 5; path := [] |} in
  let s1 := mk_state Scripted.world0 [EvLoadPublicKey (Some 7); EvLoadAccount "GUSER"] in
  (TradeServices.calculate_available_xlm account == 1)%Q
  /\ (exists e,
         TradeServices.buy_selected ctx (Some 7) "GUSER" (Credit "USDC" "GISSUER") "USDC"
           (TradeServices.calculate_available_xlm account) 5 p
           (Scripted.start Scripted.world0) = (Raise e, s1)
         /\ exn_cls e = ValueError)
  /\ submissions (log s1) = [].
Proof.
  intros ctx account p s1.
  destruct (available_balance_floored_and_checked ctx account (Some 7) "GUSER"
              (Credit "USDC" "GISSUER") "USDC" 5 p (Scripted.start Scripted.world0) s1
              (fst (TradeServices.calculate_fee_and_check_balance ctx (Some 7) Native
                      (TradeServices.buy_send_max (TradeServices.context_slippage ctx) p)
                      true (Scripted.start Scripted.world0))))
    as (_ & _ & Heq & Hraise & Hquiet).
  - vm_compute. reflexivity.
  - vm_compute. reflexivity.
  - split; [eapply Qeq_trans; [apply Heq; vm_compute; discriminate | reflexivity]|].
    split; [exact Hraise | exact Hquiet].
Defined.

(** ** C10: whose balance the fee check reads *)

Section FeeCheck.
Context {W : Type} (app_context : AppContext W).

(** The value in lumens is asked from a path query whose failure is caught:
    the estimate never raises. *)
Lemma get_estimated_xlm_value_total (asset : Asset) (amount : Q) (s : State W) :
  exists value s',
    TradeServices.get_estimated_xlm_value app_context asset amount s = (Ok value, s')
    /\ exists d, log s' = (log s ++ d)%list
                 /\ forall ev, In ev d -> ev = EvQuery "strict_send_paths".
Proof.
  unfold TradeServices.get_estimated_xlm_value.
  destruct asset as [|code issuer]; simpl.
  - eexists _, _. split; [reflexivity|]. exists []. split; [symmetry; apply app_nil_r|].
    intros ev [].
  - unfold bind, try_except, call.
    destruct (strict_send_paths app_context (Credit code issuer) (round7 amount) 1
                (world s)) as [[paths|e] w1]; [destruct paths as [|p paths]|];
      (eexists _, _; split; [reflexivity|];
       exists [EvQuery "strict_send_paths"]; split; [reflexivity|];
       intros ev [<-|[]]; reflexivity).
Qed.

(** The service fee of the check: 1% of the amount in lumens. *)
Lemma service_fee_total (send_asset : Asset) (send_amount : Q) (s : State W) :
  exists fee s',
    (if is_native send_asset then ret (round7 ((1 # 100) * send_amount))
     else
       estimated_xlm <- TradeServices.get_estimated_xlm_value app_context send_asset
                          send_amount ;;
       ret (round7 ((1 # 100) * estimated_xlm))) s = (Ok fee, s')
    /\ (is_native send_asset = true -> fee = round7 ((1 # 100) * send_amount))
    /\ exists d, log s' = (log s ++ d)%list
                 /\ forall ev, In ev d -> ev = EvQuery "strict_send_paths".
Proof.
  destruct (is_native send_asset).
  - eexists _, _. split; [reflexivity|]. split; [reflexivity|].
    exists []. split; [symmetry; apply app_nil_r|].
    intros ev [].
  - destruct (get_estimated_xlm_value_total send_asset send_amount s)
      as (value & s' & Hrun & Hlog).
    unfold bind. rewrite Hrun. eexists _, _. split; [reflexivity|].
    split; [discriminate | exact Hlog].
Qed.

(** Without a user id the check loads the account of the fee wallet, and
    compares the available balance of that account. *)
Lemma fee_check_on_fee_wallet (telegram_id : user_id) (send_asset : Asset)
    (send_amount : Q) (is_send_max : bool) (s : State W) :
  truthy_id telegram_id = false ->
  match accounts_call app_context (fee_wallet app_context) (world s) with
  | (Ok account, w1) =>
      exists fee s2 d,
        TradeServices.calculate_fee_and_check_balance app_context telegram_id
          send_asset send_amount is_send_max s
        = (if Qltb (TradeServices.calculate_available_xlm account)
                (if is_native send_asset && is_send_max then send_amount + fee else fee)%Q
           then Raise insufficient_xlm else Ok fee, s2)
        /\ (is_native send_asset = true -> fee = round7 ((1 # 100) * send_amount))
        /\ log s2 = (log s ++ EvLoadAccount (fee_wallet app_context) :: d)%list
        /\ forall ev, In ev d -> ev = EvQuery "strict_send_paths"
  | (Raise e, w1) =>
      TradeServices.calculate_fee_and_check_balance app_context telegram_id
        send_asset send_amount is_send_max s
      = (Raise e, mk_state w1 (log s ++ [EvLoadAccount (fee_wallet app_context)])%list)
  end.
Proof.
  intros Hid. unfold TradeServices.calculate_fee_and_check_balance. rewrite Hid.
  rewrite bind_ret. unfold Stellar.load_account_async. rewrite bind_call.
  destruct (accounts_call app_context (fee_wallet app_context) (world s))
    as [[account|e] w1]; [|reflexivity].
  destruct (service_fee_total send_asset send_amount
              (mk_state w1 (log s ++ [EvLoadAccount (fee_wallet app_context)])%list))
    as (fee & s2 & Hfee & Hnative & d & Hlog & Hd).
  exists fee, s2, d. rewrite (bind_run _ _ _ _ _ Hfee).
  split; [|split; [exact Hnative|split; [|exact Hd]]].
  - fold insufficient_xlm.
    destruct (Qltb _ _); reflexivity.
  - rewrite Hlog. cbn [log]. rewrite <- app_assoc. reflexivity.
Qed.

End FeeCheck.

(** Without a user id the check never asks for a user's key: it gives the
    same result whatever the lookup of keys would answer. *)
Lemma fee_check_ignores_users {W : Type} (app_context : AppContext W)
    (f : user_id -> W -> result string * W) (telegram_id : user_id)
    (send_asset : Asset) (send_amount : Q) (is_send_max : bool) (s : State W) :
  truthy_id telegram_id = false ->
  TradeServices.calculate_fee_and_check_balance (with_load_public_key f app_context)
    telegram_id send_asset send_amount is_send_max s
  = TradeServices.calculate_fee_and_check_balance app_context
      telegram_id send_asset send_amount is_send_max s.
Proof.
  intros Hid. unfold TradeServices.calculate_fee_and_check_balance. rewrite Hid.
  reflexivity.
Qed.

(** C10.  The copy-trade replicator calls the affordability check with no
    user id, for strict-send and for strict-receive payments alike.  The
    check then loads the account of the fee wallet, never a user's key, and
    raises "Insufficient XLM" exactly when the available balance of the fee
    wallet's account is below the fee: whatever the follower's own account
    holds, the replication fails with that error when the fee wallet cannot
    cover the fee. *)
Theorem replication_fee_check_reads_fee_wallet
    {W : Type} (app_context : AppContext W) (wallet : string) (chat_id : Z)
    (telegram_id : user_id) (cfg : CopyConfig) (op : OpRecord)
    (follower_account fee_wallet_account : Account) (s : State W) (w1 : W) :
  accounts_call app_context (fee_wallet app_context) (world s) = (Ok fee_wallet_account, w1) ->
  (forall amounts,
      CopyTrading.strict_send_amounts cfg op
        (CopyTrading.spend_balance follower_account (op_source_asset op)) = Ok amounts ->
      exists fee s2 d,
        TradeServices.calculate_fee_and_check_balance app_context None
          (op_source_asset op) (fst amounts) false s
        = (if Qltb (TradeServices.calculate_available_xlm fee_wallet_account) fee
           then Raise insufficient_xlm else Ok fee, s2)
        /\ (is_native (op_source_asset op) = true ->
            fee = round7 ((1 # 100) * fst amounts))
        /\ log s2 = (log s ++ EvLoadAccount (fee_wallet app_context) :: d)%list
        /\ (forall ev, In ev d -> ev = EvQuery "strict_send_paths")
        /\ (Qltb (TradeServices.calculate_available_xlm fee_wallet_account) fee = true ->
            CopyTrading.copy_strict_send app_context wallet chat_id telegram_id cfg op
              follower_account s = (Raise insufficient_xlm, s2)))
  /\ (forall amounts,
         CopyTrading.strict_receive_amounts cfg op
           (CopyTrading.spend_balance follower_account (op_source_asset op)) = Ok amounts ->
         exists fee s2 d,
           TradeServices.calculate_fee_and_check_balance app_context None
             (op_source_asset op) (fst amounts) false s
           = (if Qltb (TradeServices.calculate_available_xlm fee_wallet_account) fee
              then Raise insufficient_xlm else Ok fee, s2)
           /\ (is_native (op_source_asset op) = true ->
               fee = round7 ((1 # 100) * fst amounts))
           /\ log s2 = (log s ++ EvLoadAccount (fee_wallet app_context) :: d)%list
           /\ (forall ev, In ev d -> ev = EvQuery "strict_send_paths")
           /\ (Qltb (TradeServices.calculate_available_xlm fee_wallet_account) fee = true ->
               CopyTrading.copy_strict_receive app_context wallet chat_id telegram_id cfg op
                 follower_account s = (Raise insufficient_xlm, s2)))
  /\ (forall f send_asset send_amount is_send_max,
         TradeServices.calculate_fee_and_check_balance (with_load_public_key f app_context)
           None send_asset send_amount is_send_max s
         = TradeServices.calculate_fee_and_check_balance app_context
             None send_asset send_amount is_send_max s).
Proof.
  intros Hacc.
  assert (Hcheck : forall send_amount,
             exists fee s2 d,
               TradeServices.calculate_fee_and_check_balance app_context None
                 (op_source_asset op) send_amount false s
               = (if Qltb (TradeServices.calculate_available_xlm fee_wallet_account) fee
                  then Raise insufficient_xlm else Ok fee, s2)
               /\ (is_native (op_source_asset op) = true ->
                   fee = round7 ((1 # 100) * send_amount))
               /\ log s2 = (log s ++ EvLoadAccount (fee_wallet app_context) :: d)%list
               /\ (forall ev, In ev d -> ev = EvQuery "strict_send_paths")).
  { intros send_amount.
    pose proof (fee_check_on_fee_wallet app_context None (op_source_asset op) send_amount
                  false s eq_refl) as H.
    rewrite Hacc in H. rewrite andb_false_r in H. exact H. }
  split; [|split].
  - intros amounts Hamounts.
    destruct (Hcheck (fst amounts)) as (fee & s2 & d & Hrun & Hnative & Hlog & Hd).
    exists fee, s2, d. repeat split; try assumption.
    intros Hlow. unfold CopyTrading.copy_strict_send.
    rewrite Hamounts, bind_lift. rewrite (bind_run _ _ _ _ _ Hrun). rewrite Hlow. reflexivity.
  - intros amounts Hamounts.
    destruct (Hcheck (fst amounts)) as (fee & s2 & d & Hrun & Hnative & Hlog & Hd).
    exists fee, s2, d. repeat split; try assumption.
    intros Hlow. unfold CopyTrading.copy_strict_receive.
    rewrite Hamounts, bind_lift. rewrite (bind_run _ _ _ _ _ Hrun). rewrite Hlow. reflexivity.
  - intros f send_asset send_amount is_send_max. apply fee_check_ignores_users. reflexivity.
Qed.

(** The counterpart sends 1000 lumens, the follower copies at multiplier 1
    and holds 5000; the fee wallet holds 5 lumens, 3 of them available, and
    the fee is 10: the replication fails with "Insufficient XLM". *)
Lemma replication_fee_check_reads_fee_wallet_witness :
  let ctx := Scripted.context "GFEE" None in
  let cfg := {| multiplier := 1; fixed_amount := None; cfg_slippage := 5 # 100 |} in
  let op := {| op_type := "path_payment_strict_send"; op_source_account := None;
               op_source_asset := Native; op_asset := Credit "USDC" "GISSUER";
               op_source_amount := 1000; op_destination_min := 100;
               op_source_max := 0; op_amount := 101; op_path := [] |} in
  let follower := Scripted.xlm_account 5000 41 in
  exists s2,
    CopyTrading.copy_strict_send ctx "GCOUNTERPART" 1 (Some 7) cfg op follower
      (Scripted.start Scripted.world0) = (Raise insufficient_xlm, s2)
    /\ log s2 = [EvLoadAccount "GFEE"].
Proof.
  intros ctx cfg op follower.
  destruct (replication_fee_check_reads_fee_wallet ctx "GCOUNTERPART" 1 (Some 7) cfg op
              follower (Scripted.xlm_account 5 9) (Scripted.start Scripted.world0)
              Scripted.world0 eq_refl) as (Hsend & _ & _).
  destruct (Hsend _ eq_refl) as (fee & s2 & d & Hrun & Hnative & Hlog & Hd & Hraise).
  rewrite (Hnative eq_refl) in Hraise, Hrun.
  exists s2. split; [apply Hraise; vm_compute; reflexivity|].
  vm_compute in Hrun. inversion Hrun. reflexivity.
Defined.

(** ** C1: replication scaling and capping *)

Lemma truediv_nonzero (x y : Q) : ~ (y == 0)%Q -> TradeServices.truediv x y = Ok (x / y)%Q.
Proof.
  intros Hy. unfold TradeServices.truediv.
  destruct (Qeq_bool y 0) eqn:E; [|reflexivity].
  apply Qeq_bool_iff in E. contradiction.
Qed.

(** What the code computes when the follower's balance caps a replicated
    strict-send payment: the bound is the target scaled by the multiplier,
    times the capped amount over the counterpart's own amount. *)
Lemma strict_send_capped (cfg : CopyConfig) (op : OpRecord) (balance : Q) :
  fixed_amount cfg = None ->
  (balance < round7 (op_source_amount op * multiplier cfg))%Q ->
  (0 < round7 balance)%Q ->
  ~ (op_source_amount op == 0)%Q ->
  let scaled_dest_min := pymax (op_destination_min op * multiplier cfg) stroop in
  let rescaled := (scaled_dest_min * (round7 balance / op_source_amount op))%Q in
  CopyTrading.strict_send_amounts cfg op balance
  = Ok (round7 balance,
        pymax (round7 (rescaled * (1 - cfg_slippage cfg))) (round7 (rescaled * (75 # 100)))).
Proof.
  intros Hfixed Hcap Hpos Horig scaled_dest_min rescaled.
  unfold CopyTrading.strict_send_amounts. rewrite Hfixed.
  apply Qltb_lt in Hcap. rewrite Hcap.
  assert (E : Qle_bool (round7 balance) 0 = false).
  { destruct (Qle_bool (round7 balance) 0) eqn:E; [|reflexivity].
    apply Qle_bool_iff in E. exfalso. lra. }
  rewrite E. unfold CopyTrading.strict_send_dest_min.
  rewrite (truediv_nonzero _ _ Horig). reflexivity.
Qed.

(** The same for a replicated strict-receive payment: the amount to receive
    is the amount scaled by the multiplier, times the capped spend over the
    counterpart's own maximum. *)
Lemma strict_receive_capped (cfg : CopyConfig) (op : OpRecord) (balance : Q) :
  fixed_amount cfg = None ->
  ~ (op_amount op == 0)%Q ->
  ~ (op_source_max op == 0)%Q ->
  (balance < round7 (op_source_max op
                     * (round7 (op_amount op * multiplier cfg) / op_amount op)
                     * (1 + cfg_slippage cfg)))%Q ->
  (0 < round7 balance)%Q ->
  CopyTrading.strict_receive_amounts cfg op balance
  = Ok (round7 balance,
        round7 (op_amount op * multiplier cfg * (round7 balance / op_source_max op))).
Proof.
  intros Hfixed Hdest Hmax Hcap Hpos.
  unfold CopyTrading.strict_receive_amounts. rewrite Hfixed.
  rewrite (truediv_nonzero _ _ Hdest).
  apply Qltb_lt in Hcap. rewrite Hcap.
  assert (E : Qle_bool (round7 balance) 0 = false).
  { destruct (Qle_bool (round7 balance) 0) eqn:E; [|reflexivity].
    apply Qle_bool_iff in E. exfalso. lra. }
  rewrite E. rewrite (truediv_nonzero _ _ Hmax). reflexivity.
Qed.

(** C1 on the code.  The counterpart sends 100, the multiplier is 0.5, the
    follower holds 40.  The replicated amount is 100 * 0.5 = 50 where the
    balance allows it, and is capped to 40 here.  The specification rescales
    the 0.5-scaled target (50) by 40/50, which gives 40, and 38 after 5%
    slippage.  The code rescales it by 40/100, the capped amount over the
    counterpart's own amount: 20, and 19 after slippage.  The multiplier is
    applied twice; without capping the strict-send bound is 100 * 0.5 * 0.5 *
    0.95 = 23.75 where the strict-receive bound of the same function scales
    once (100 * 0.5 * 1.05 = 52.5).  The capped strict-receive payment has
    the same defect: 50 * 40/100 = 20 to receive for 40. *)
Theorem replication_capping_applies_multiplier_twice :
  (* strict send, capped at 40 *)
  match CopyTrading.strict_send_amounts scenario_cfg
          (scenario_op "path_payment_strict_send") 40 with
  | Ok (send_amount_final, dest_min_final) =>
      (send_amount_final == 40)%Q /\ (dest_min_final == 19)%Q
      /\ (rescaled_as_specified 50 40 50 * (1 - (5 # 100)) == 38)%Q
      /\ ~ (dest_min_final == 38)%Q
  | Raise _ => False
  end
  (* strict send, balance sufficient *)
  /\ match CopyTrading.strict_send_amounts scenario_cfg
             (scenario_op "path_payment_strict_send") 1000 with
     | Ok (send_amount_final, dest_min_final) =>
         (send_amount_final == 100 * (1 # 2))%Q /\ (dest_min_final == 2375 # 100)%Q
     | Raise _ => False
     end
  (* strict receive, balance sufficient *)
  /\ match CopyTrading.strict_receive_amounts scenario_cfg
             (scenario_op "path_payment_strict_receive") 1000 with
     | Ok (send_max_final, dest_amount_final) =>
         (dest_amount_final == 100 * (1 # 2))%Q /\ (send_max_final == 525 # 10)%Q
     | Raise _ => False
     end
  (* strict receive, capped at 40 *)
  /\ match CopyTrading.strict_receive_amounts scenario_cfg
             (scenario_op "path_payment_strict_receive") 40 with
     | Ok (send_max_final, dest_amount_final) =>
         (send_max_final == 40)%Q /\ (dest_amount_final == 20)%Q
         /\ (rescaled_as_specified 50 40 50 == 40)%Q
         /\ ~ (dest_amount_final == 40)%Q
     | Raise _ => False
     end.
Proof.
  vm_compute. repeat split; try reflexivity; discriminate.
Qed.

(** ** What a submission attempt sends *)

Section Attempts.
Context {W : Type} (app_context : AppContext W).

Lemma quiet_get_recommended_fee : quiet (Stellar.get_recommended_fee app_context).
Proof.
  unfold Stellar.get_recommended_fee, Stellar.query_fees.
  apply quiet_try; [|intros; apply quiet_ret].
  apply quiet_bind.
  - apply quiet_bind; [apply quiet_call; reflexivity|].
    intros ledgers. apply quiet_bind; [apply quiet_lift|].
    intros latest. apply quiet_call. reflexivity.
  - intros [|f fees]; [apply quiet_ret | apply quiet_lift].
Qed.

Lemma quiet_asyncio_sleep (seconds : Q) : quiet (Stellar.asyncio_sleep app_context seconds).
Proof.
  intros s r s' H. unfold Stellar.asyncio_sleep in H. inversion H; subst. cbn [log].
  unfold submissions. rewrite filter_app. simpl. apply app_nil_r.
Qed.

Lemma quiet_poll_once (marker : string) (normalise : string -> string)
    (tx_hash : string) (interval : Q) :
  quiet (Stellar.poll_once app_context marker normalise tx_hash interval).
Proof.
  unfold Stellar.poll_once. apply quiet_try.
  - apply quiet_bind; [apply quiet_call; reflexivity|].
    intros tx. destruct (successful tx) as [[|]|];
      [apply quiet_ret | apply quiet_raise | apply quiet_raise].
  - intros e. apply quiet_if; [|apply quiet_raise].
    apply quiet_bind; [apply quiet_asyncio_sleep | intros; apply quiet_ret].
Qed.

Lemma quiet_poll_loop (marker : string) (normalise : string -> string) (timeout : exn)
    (tx_hash : string) (interval : Q) (remaining : nat) :
  quiet (Stellar.poll_loop app_context marker normalise timeout tx_hash interval remaining).
Proof.
  induction remaining as [|n IH]; simpl.
  - apply quiet_raise.
  - apply quiet_bind; [apply quiet_poll_once|].
    intros [tx|]; [apply quiet_ret | exact IH].
Qed.

(** Waiting for confirmation submits nothing. *)
Lemma quiet_wait_for_transaction_confirmation (tx_hash : string) (max_attempts interval : Z) :
  quiet (TradeServices.wait_for_transaction_confirmation app_context tx_hash
           max_attempts interval).
Proof.
  unfold TradeServices.wait_for_transaction_confirmation.
  apply quiet_bind; [apply quiet_poll_loop | intros; apply quiet_ret].
Qed.

Lemma build_and_submit_one_attempt (telegram_id : user_id) (operations : list Operation)
    (memo : option string) (base_fee : option Z) (s : State W)
    (r : result (Response * string)) (s' : State W) :
  Stellar.build_and_submit_transaction app_context telegram_id operations memo base_fee s
  = (r, s') ->
  exists d, submissions (log s') = (submissions (log s) ++ d)%list
            /\ one_attempt telegram_id operations d.
Proof.
  intros Hrun.
  destruct (load_public_key app_context telegram_id (world s)) as [[pk|e] w1] eqn:Hpk.
  2:{ unfold Stellar.build_and_submit_transaction in Hrun.
      rewrite bind_call, Hpk in Hrun. inversion Hrun; subst. cbn [log].
      exists []. split; [|left; reflexivity].
      unfold submissions. rewrite filter_app. reflexivity. }
  destruct (accounts_call app_context pk w1) as [[account|e] w2] eqn:Hacc.
  2:{ unfold Stellar.build_and_submit_transaction, Stellar.load_account_async in Hrun.
      rewrite bind_call, Hpk, bind_call in Hrun. cbn [world log] in Hrun.
      rewrite Hacc in Hrun. inversion Hrun; subst. cbn [log].
      exists []. split; [|left; reflexivity].
      unfold submissions. rewrite !filter_app. simpl. rewrite !app_nil_r. reflexivity. }
  assert (Hloaded : submissions (log (loaded s telegram_id pk w2)) = submissions (log s)).
  { unfold loaded. cbn [log]. unfold submissions. rewrite !filter_app. simpl.
    rewrite !app_nil_r. reflexivity. }
  assert (Hsub : forall l tx d0,
             (d0 = [] \/ exists x, d0 = [EvPost x]) ->
             submissions (l ++ EvSign telegram_id tx :: d0)%list
             = (submissions l ++ EvSign telegram_id tx :: d0)%list).
  { intros l tx d0 Hd0. unfold submissions. rewrite filter_app. simpl.
    destruct Hd0 as [->|[x ->]]; reflexivity. }
  destruct base_fee as [fee|].
  - destruct (assembled_given_fee app_context telegram_id operations memo fee s
                pk account w1 w2 Hpk Hacc) as (r0 & s0 & d0 & Hrun0 & Hlog & Hd0).
    rewrite Hrun in Hrun0. inversion Hrun0; subst r0 s0.
    exists (EvSign telegram_id
              (envelope pk account fee (time_time app_context w2) operations memo) :: d0).
    split.
    + rewrite Hlog, (Hsub _ _ _ Hd0), Hloaded. reflexivity.
    + right. exists (envelope pk account fee (time_time app_context w2) operations memo).
      split; [reflexivity|].
      destruct Hd0 as [->|[x ->]]; [left; reflexivity | right; eexists; reflexivity].
  - destruct (get_recommended_fee_total app_context (loaded s telegram_id pk w2))
      as (rf & s3 & Hfee).
    destruct (assembled_default_fee app_context telegram_id operations memo s
                pk account w1 w2 rf s3 Hpk Hacc Hfee) as (r0 & s0 & d0 & Hrun0 & Hlog & Hd0).
    rewrite Hrun in Hrun0. inversion Hrun0; subst r0 s0.
    set (tx := envelope pk account
                 (Z.max rf (200 * Z.of_nat (List.length operations)))
                 (time_time app_context (world s3)) operations memo) in *.
    exists (EvSign telegram_id tx :: d0).
    split.
    + rewrite Hlog, (Hsub _ _ _ Hd0).
      rewrite (quiet_get_recommended_fee _ _ _ Hfee), Hloaded. reflexivity.
    + right. exists tx. split; [reflexivity|].
      destruct Hd0 as [->|[x ->]]; [left; reflexivity | right; eexists; reflexivity].
Qed.

End Attempts.

(** ** C4: the fallback of buy *)

Section Fallback.
Context {W : Type} (app_context : AppContext W).

(** A call of [build_and_submit_transaction] followed by statements that
    submit nothing adds one attempt to the submissions. *)
Lemma attempt_then_quiet {A : Type} (telegram_id : user_id) (operations : list Operation)
    (memo : option string) (base_fee : option Z) (k : Response * string -> M W A)
    (s : State W) (r : result A) (s' : State W) :
  (forall x, quiet (k x)) ->
  bind (Stellar.build_and_submit_transaction app_context telegram_id operations memo base_fee)
    k s = (r, s') ->
  exists d, submissions (log s') = (submissions (log s) ++ d)%list
            /\ one_attempt telegram_id operations d.
Proof.
  intros Hk Hrun. unfold bind in Hrun.
  destruct (Stellar.build_and_submit_transaction app_context telegram_id operations memo
              base_fee s) as [[x|e] s1] eqn:Hbuild.
  - destruct (build_and_submit_one_attempt app_context _ _ _ _ _ _ _ Hbuild)
      as (d & Hd & Hone).
    exists d. split; [|exact Hone]. rewrite (Hk x s1 r s' Hrun). exact Hd.
  - inversion Hrun; subst.
    exact (build_and_submit_one_attempt app_context _ _ _ _ _ _ _ Hbuild).
Qed.

Lemma quiet_confirm_and_return {A : Type} (response : Response) (a : A) :
  quiet (tx_hash <- lift (TradeServices.response_hash response) ;;
         TradeServices.wait_for_transaction_confirmation app_context tx_hash 60 1 ;;;
         @ret W A a).
Proof.
  apply quiet_bind; [apply quiet_lift|]. intros h.
  apply quiet_bind; [apply quiet_wait_for_transaction_confirmation|].
  intros _. apply quiet_ret.
Qed.

Lemma buy_strict_send_one_attempt (telegram_id : user_id) (asset_code : string)
    (operations : list Operation) (base_fee : Z) (send_amount dest_amount : Q)
    (s : State W) (r : result (Response * Q * Q)) (s' : State W) :
  TradeServices.buy_strict_send app_context telegram_id asset_code operations base_fee
    send_amount dest_amount s = (r, s') ->
  exists d, submissions (log s') = (submissions (log s) ++ d)%list
            /\ one_attempt telegram_id operations d.
Proof.
  apply attempt_then_quiet. intros x. apply quiet_confirm_and_return.
Qed.

Lemma buy_strict_receive_one_attempt (telegram_id : user_id) (asset_code : string)
    (operations : list Operation) (base_fee : Z) (min_source_amount dest_amount : Q)
    (s : State W) (r : result (Response * Q * Q)) (s' : State W) :
  TradeServices.buy_strict_receive app_context telegram_id asset_code operations base_fee
    min_source_amount dest_amount s = (r, s') ->
  exists d, submissions (log s') = (submissions (log s) ++ d)%list
            /\ one_attempt telegram_id operations d.
Proof.
  apply attempt_then_quiet. intros x. apply quiet_confirm_and_return.
Qed.

(** The fallback's [dest_min] for positive route amounts. *)
Lemma fallback_dest_min_value (send_amount min_source_amount dest_amount slippage : Q) :
  (0 < min_source_amount)%Q -> (0 < dest_amount)%Q ->
  TradeServices.fallback_dest_min send_amount min_source_amount dest_amount slippage
  = Ok (pymax (round7 (send_amount / (min_source_amount / dest_amount) * (1 - slippage)))
          stroop).
Proof.
  intros Hs Hd. unfold TradeServices.fallback_dest_min, TradeServices.truediv.
  assert (E1 : Qeq_bool dest_amount 0 = false).
  { destruct (Qeq_bool dest_amount 0) eqn:E; [|reflexivity].
    apply Qeq_bool_iff in E. lra. }
  rewrite E1.
  assert (Hratio : (0 < min_source_amount / dest_amount)%Q).
  { unfold Qdiv. apply Qmult_lt_0_compat; [exact Hs | apply Qinv_lt_0_compat; exact Hd]. }
  assert (E2 : Qeq_bool (min_source_amount / dest_amount) 0 = false).
  { destruct (Qeq_bool (min_source_amount / dest_amount) 0) eqn:E; [|reflexivity].
    apply Qeq_bool_iff in E. lra. }
  rewrite E2. reflexivity.
Qed.

Section Buy.
Variables (telegram_id : user_id) (public_key : string) (asset : Asset)
  (asset_code : string) (selected_path : PathRecord)
  (send_max fee min_source_amount dest_amount slippage : Q).
Variables (s s1 : State W) (base_fee : Z).
Hypothesis Hfee : Stellar.get_recommended_fee app_context s = (Ok base_fee, s1).

Local Abbreviation first_attempt :=
  (TradeServices.buy_strict_receive app_context telegram_id asset_code
     (TradeServices.buy_operations app_context public_key asset send_max dest_amount fee
        selected_path)
     base_fee min_source_amount dest_amount).

Local Abbreviation submit :=
  (TradeServices.buy_submit app_context telegram_id public_key asset asset_code
     selected_path send_max fee min_source_amount dest_amount slippage).

(** The first attempt succeeds: its result is the result of the buy. *)
Lemma buy_submit_first_ok (x : Response * Q * Q) (s2 : State W) :
  first_attempt s1 = (Ok x, s2) -> submit s = (Ok x, s2).
Proof.
  intros H. unfold TradeServices.buy_submit.
  rewrite (bind_run _ _ _ _ _ Hfee).
  rewrite (try_run _ _ _ _ _ H). reflexivity.
Qed.

(** The first attempt fails and the failure is not one of the two: it is
    raised again. *)
Lemma buy_submit_unclassified (e : exn) (s2 : State W) :
  first_attempt s1 = (Raise e, s2) ->
  TradeServices.fallback_failure e = false ->
  submit s = (Raise e, s2).
Proof.
  intros H Hcls. unfold TradeServices.buy_submit.
  rewrite (bind_run _ _ _ _ _ Hfee).
  rewrite (try_run _ _ _ _ _ H). unfold TradeServices.buy_fallback. rewrite Hcls.
  reflexivity.
Qed.

(** The first attempt fails with one of the two failures: the fallback
    runs.  A failure of its affordability check is raised as it is. *)
Lemma buy_submit_fallback_unaffordable (e e' : exn) (s2 s3 : State W) (dest_min : Q) :
  first_attempt s1 = (Raise e, s2) ->
  TradeServices.fallback_failure e = true ->
  TradeServices.fallback_dest_min send_max min_source_amount dest_amount slippage
  = Ok dest_min ->
  TradeServices.calculate_fee_and_check_balance app_context telegram_id Native send_max
    false s2 = (Raise e', s3) ->
  submit s = (Raise e', s3) /\ submissions (log s3) = submissions (log s2).
Proof.
  intros H Hcls Hmin Hcheck. split.
  - unfold TradeServices.buy_submit.
    rewrite (bind_run _ _ _ _ _ Hfee).
    rewrite (try_run _ _ _ _ _ H). unfold TradeServices.buy_fallback. rewrite Hcls.
    rewrite Hmin, bind_lift. rewrite (bind_run _ _ _ _ _ Hcheck). reflexivity.
  - exact (quiet_calculate_fee_and_check_balance app_context _ _ _ _ _ _ _ Hcheck).
Qed.

(** With the check passed, the strict-send payment is attempted once: its
    result is the result of the buy, its failure a [ValueError]. *)
Lemma buy_submit_fallback_attempt (e : exn) (s2 s3 s4 : State W) (dest_min fee' : Q)
    (r2 : result (Response * Q * Q)) :
  first_attempt s1 = (Raise e, s2) ->
  TradeServices.fallback_failure e = true ->
  TradeServices.fallback_dest_min send_max min_source_amount dest_amount slippage
  = Ok dest_min ->
  TradeServices.calculate_fee_and_check_balance app_context telegram_id Native send_max
    false s2 = (Ok fee', s3) ->
  TradeServices.buy_strict_send app_context telegram_id asset_code
    (TradeServices.buy_fallback_operations app_context public_key asset send_max dest_min
       fee' selected_path)
    base_fee send_max dest_amount s3 = (r2, s4) ->
  submit s = (match r2 with
              | Ok x => Ok x
              | Raise _ => Raise (mk_exn ValueError "Buy failed (PPSR & PPSS)")
              end, s4).
Proof.
  intros H Hcls Hmin Hcheck Hsecond.
  unfold TradeServices.buy_submit.
  rewrite (bind_run _ _ _ _ _ Hfee).
  rewrite (try_run _ _ _ _ _ H). unfold TradeServices.buy_fallback. rewrite Hcls.
  rewrite Hmin, bind_lift. rewrite (bind_run _ _ _ _ _ Hcheck).
  rewrite (try_run _ _ _ _ _ Hsecond). destruct r2; reflexivity.
Qed.

End Buy.

(** A failure of the only attempt of a sell is raised as a [ValueError]. *)
Lemma sell_selected_failure (telegram_id : user_id) (public_key : string) (asset : Asset)
    (asset_code : string) (send_amount fee : Q) (selected_path : PathRecord)
    (s s1 s2 : State W) (base_fee : Z) (r : result (Response * Q * Q)) :
  Stellar.get_recommended_fee app_context s = (Ok base_fee, s1) ->
  TradeServices.sell_strict_send app_context telegram_id asset_code
    [ PathPaymentStrictSend public_key asset (round7 send_amount) Native
        (TradeServices.sell_dest_min (TradeServices.context_slippage app_context)
           selected_path)
        (path selected_path);
      Payment (fee_wallet app_context) Native fee ]
    base_fee (destination_amount selected_path) send_amount s1 = (r, s2) ->
  TradeServices.sell_selected app_context telegram_id public_key asset asset_code
    send_amount fee selected_path s
  = (match r with
     | Ok x => Ok x
     | Raise _ => Raise (mk_exn ValueError "Sell failed (PPSS)")
     end, s2)
  /\ exists d, submissions (log s2) = (submissions (log s) ++ d)%list
               /\ one_attempt telegram_id
                    [ PathPaymentStrictSend public_key asset (round7 send_amount) Native
                        (TradeServices.sell_dest_min
                           (TradeServices.context_slippage app_context) selected_path)
                        (path selected_path);
                      Payment (fee_wallet app_context) Native fee ] d.
Proof.
  intros Hfee Hrun. split.
  - unfold TradeServices.sell_selected.
    rewrite (bind_run _ _ _ _ _ Hfee). rewrite (try_run _ _ _ _ _ Hrun).
    destruct r; reflexivity.
  - rewrite <- (quiet_get_recommended_fee app_context _ _ _ Hfee).
    revert Hrun. apply attempt_then_quiet. intros x. apply quiet_confirm_and_return.
Qed.

End Fallback.

(** C4, as stated, fails: the first submission fails with "too few offers",
    but the buyer's account, read again by the fallback, no longer covers the
    service fee (2.55 lumens, 0.05 available, for a fee of 0.105): the buy
    raises "Insufficient XLM" and no strict-send payment is ever sent. *)
Lemma fallback_without_submission_counterexample :
  let run := TradeServices.perform_buy (Scripted.context "GFEE" None) (Some 7)
               "USDC" some_issuer 5
               (Scripted.start (fallback_world (Some [("GUSER", usdc_holder (255 # 100))]))) in
  TradeServices.fallback_failure
    (mk_exn Exception "Transaction failed: op_too_few_offers, details: No details") = true
  /\ fst run = Raise insufficient_xlm
  /\ List.length (requests_with is_strict_receive (log (snd run))) = 1%nat
  /\ requests_with is_strict_send (log (snd run)) = [].
Proof.
  vm_compute. repeat split; reflexivity.
Qed.

(** C4, amended.  In a buy, the strict-send fallback runs if and only if the
    first attempt (submission and confirmation of the strict-receive
    payment) fails with a text that contains "op_too_few_offers" or
    "over_sendmax".  For positive route amounts it then checks affordability
    again; a failure of that check is raised and nothing more is submitted;
    otherwise exactly one further attempt is made, a strict-send payment of
    [send_max] for at least max(round((send_max / (required source /
    destination amount)) * (1 - slippage), 7), one stroop), whose failure is
    raised as a [ValueError] without another attempt.  Any other failure of
    the first attempt is raised again at once.  A sell makes one attempt, and
    raises its failure as a [ValueError]. *)
Theorem buy_falls_back_once_sell_never
    {W : Type} (app_context : AppContext W) (telegram_id : user_id) (public_key : string)
    (asset : Asset) (asset_code : string) (selected_path : PathRecord)
    (send_max fee min_source_amount dest_amount slippage : Q)
    (s s1 : State W) (base_fee : Z) :
  let first_attempt :=
    TradeServices.buy_strict_receive app_context telegram_id asset_code
      (TradeServices.buy_operations app_context public_key asset send_max dest_amount fee
         selected_path)
      base_fee min_source_amount dest_amount in
  let submit :=
    TradeServices.buy_submit app_context telegram_id public_key asset asset_code
      selected_path send_max fee min_source_amount dest_amount slippage in
  let recheck :=
    TradeServices.calculate_fee_and_check_balance app_context telegram_id Native send_max
      false in
  let dest_min :=
    pymax (round7 (send_max / (min_source_amount / dest_amount) * (1 - slippage))) stroop in
  let fallback_operations fee' :=
    [ PathPaymentStrictSend public_key Native send_max asset dest_min (path selected_path);
      Payment (fee_wallet app_context) Native fee' ] in
  Stellar.get_recommended_fee app_context s = (Ok base_fee, s1) ->
  (forall x s2, first_attempt s1 = (Ok x, s2) -> submit s = (Ok x, s2))
  /\ (forall e s2,
         first_attempt s1 = (Raise e, s2) ->
         TradeServices.fallback_failure e = false ->
         submit s = (Raise e, s2))
  /\ (forall e s2 e' s3,
         first_attempt s1 = (Raise e, s2) ->
         TradeServices.fallback_failure e = true ->
         (0 < min_source_amount)%Q -> (0 < dest_amount)%Q ->
         recheck s2 = (Raise e', s3) ->
         submit s = (Raise e', s3) /\ submissions (log s3) = submissions (log s2))
  /\ (forall e s2 fee' s3 r2 s4,
         first_attempt s1 = (Raise e, s2) ->
         TradeServices.fallback_failure e = true ->
         (0 < min_source_amount)%Q -> (0 < dest_amount)%Q ->
         recheck s2 = (Ok fee', s3) ->
         TradeServices.buy_strict_send app_context telegram_id asset_code
           (fallback_operations fee') base_fee send_max dest_amount s3 = (r2, s4) ->
         submit s = (match r2 with
                     | Ok x => Ok x
                     | Raise _ => Raise (mk_exn ValueError "Buy failed (PPSR & PPSS)")
                     end, s4)
         /\ exists d, submissions (log s4) = (submissions (log s2) ++ d)%list
                      /\ one_attempt telegram_id (fallback_operations fee') d)
  /\ (forall send_amount r s2,
         TradeServices.sell_strict_send app_context telegram_id asset_code
           [ PathPaymentStrictSend public_key asset (round7 send_amount) Native
               (TradeServices.sell_dest_min (TradeServices.context_slippage app_context)
                  selected_path)
               (path selected_path);
             Payment (fee_wallet app_context) Native fee ]
           base_fee (destination_amount selected_path) send_amount s1 = (r, s2) ->
         TradeServices.sell_selected app_context telegram_id public_key asset asset_code
           send_amount fee selected_path s
         = (match r with
            | Ok x => Ok x
            | Raise _ => Raise (mk_exn ValueError "Sell failed (PPSS)")
            end, s2)
         /\ exists d, submissions (log s2) = (submissions (log s) ++ d)%list
                      /\ one_attempt telegram_id
                           [ PathPaymentStrictSend public_key asset (round7 send_amount)
                               Native
                               (TradeServices.sell_dest_min
                                  (TradeServices.context_slippage app_context)
                                  selected_path)
                               (path selected_path);
                             Payment (fee_wallet app_context) Native fee ] d).
Proof.
  intros first_attempt submit recheck dest_min fallback_operations Hfee.
  subst first_attempt submit recheck dest_min fallback_operations. cbv beta.
  split; [|split; [|split; [|split]]].
  - intros x s2 H. eapply buy_submit_first_ok; eassumption.
  - intros e s2 H Hcls. eapply buy_submit_unclassified; eassumption.
  - intros e s2 e' s3 H Hcls Hsrc Hdst Hcheck.
    eapply buy_submit_fallback_unaffordable; try eassumption.
    apply fallback_dest_min_value; assumption.
  - intros e s2 fee' s3 r2 s4 H Hcls Hsrc Hdst Hcheck Hsecond. split.
    + eapply buy_submit_fallback_attempt; try eassumption.
      apply fallback_dest_min_value; assumption.
    + rewrite <- (quiet_calculate_fee_and_check_balance app_context _ _ _ _ _ _ _ Hcheck).
      eapply buy_strict_send_one_attempt. exact Hsecond.
  - intros send_amount r s2 Hrun. eapply sell_selected_failure; eassumption.
Qed.

(** The first post is answered "too few offers", the accounts do not
    change: the fallback sends 10.5 lumens for at least 4.9875 USDC, once,
    and the buy succeeds. *)
Lemma buy_falls_back_once_sell_never_witness :
  let ctx := Scripted.context "GFEE" None in
  let asset := Credit "USDC" some_issuer in
  let p := {| source_amount := 10; destination_amount := 5; path := [] |} in
  exists x s4,
    TradeServices.buy_submit ctx (Some 7) "GUSER" asset "USDC" p
      (105 # 10) (105 # 1000) 10 5 (5 # 100) (Scripted.start (fallback_world None))
    = (Ok x, s4)
    /\ map tx_operations (requests_with is_strict_send (log s4))
       = [[ PathPaymentStrictSend "GUSER" Native (105 # 10) asset
              (pymax (round7 ((105 # 10) / (10 / 5) * (1 - (5 # 100)))) stroop) [];
            Payment "GFEE" Native (round7 ((1 # 100) * (105 # 10))) ]].
Proof.
  intros ctx asset p.
  set (s := Scripted.start (fallback_world None)).
  set (s1 := snd (Stellar.get_recommended_fee ctx s)).
  set (first_attempt :=
         TradeServices.buy_strict_receive ctx (Some 7) "USDC"
           (TradeServices.buy_operations ctx "GUSER" asset (105 # 10) 5 (105 # 1000) p)
           10000 10 5).
  set (e := mk_exn Exception "Transaction failed: op_too_few_offers, details: No details").
  set (s2 := snd (first_attempt s1)).
  set (recheck := TradeServices.calculate_fee_and_check_balance ctx (Some 7) Native
                    (105 # 10) false).
  set (fee' := round7 ((1 # 100) * (105 # 10))).
  set (s3 := snd (recheck s2)).
  set (second :=
         TradeServices.buy_strict_send ctx (Some 7) "USDC"
           [ PathPaymentStrictSend "GUSER" Native (105 # 10) asset
               (pymax (round7 ((105 # 10) / (10 / 5) * (1 - (5 # 100)))) stroop) (path p);
             Payment (fee_wallet ctx) Native fee' ]
           10000 (105 # 10) 5).
  destruct (buy_falls_back_once_sell_never ctx (Some 7) "GUSER" asset "USDC" p
              (105 # 10) (105 # 1000) 10 5 (5 # 100) s s1 10000)
    as (_ & _ & _ & Hfallback & _).
  - vm_compute. reflexivity.
  - destruct (Hfallback e s2 fee' s3 (fst (second s3)) (snd (second s3)))
      as (Hsubmit & _).
    + vm_compute. reflexivity.
    + reflexivity.
    + reflexivity.
    + reflexivity.
    + vm_compute. reflexivity.
    + apply surjective_pairing.
    + eexists _, (snd (second s3)). split.
      * rewrite Hsubmit. vm_compute. reflexivity.
      * vm_compute. reflexivity.
Defined.

(** ** C9: what happens to failures after submission *)

Section Swallowing.
Context {W : Type} (app_context : AppContext W).

Lemma never_raises_ret {A : Type} (a : A) : never_raises (@ret W A a).
Proof. intros s. eexists _, _. reflexivity. Qed.

Lemma never_raises_bind {A B : Type} (m : M W A) (k : A -> M W B) :
  never_raises m -> (forall a, never_raises (k a)) -> never_raises (bind m k).
Proof.
  intros Hm Hk s. destruct (Hm s) as (a & s1 & H1). destruct (Hk a s1) as (b & s2 & H2).
  exists b, s2. rewrite (bind_run _ _ _ _ _ H1). exact H2.
Qed.

Lemma never_raises_try {A : Type} (m : M W A) (h : exn -> M W A) :
  (forall e, never_raises (h e)) -> never_raises (try_except m h).
Proof.
  intros Hh s. unfold try_except. destruct (m s) as [[a|e] s1].
  - eexists _, _. reflexivity.
  - apply Hh.
Qed.

Lemma never_raises_sleep (seconds : Q) :
  never_raises (Stellar.asyncio_sleep app_context seconds).
Proof. intros s. eexists _, _. reflexivity. Qed.

(** The confirmation check of the payouts catches everything. *)
Lemma confirm_check_never_raises (confirm_mode : bool) (tx_hash : option string) :
  never_raises (Payouts.confirm_check app_context confirm_mode tx_hash).
Proof.
  unfold Payouts.confirm_check.
  destruct tx_hash as [[|c h]|]; try apply never_raises_ret.
  destruct confirm_mode; [|apply never_raises_ret].
  apply never_raises_try. intros e. apply never_raises_ret.
Qed.


Lemma submit_chunk_never_raises (retries_left : nat) :
  forall attempt chunk ops memo_text confirm_mode submit_sleep_seconds
         retry_backoff_seconds,
    never_raises (Payouts.submit_chunk app_context retries_left attempt chunk ops
                    memo_text confirm_mode submit_sleep_seconds retry_backoff_seconds).
Proof.
  induction retries_left as [|n IH]; intros; simpl; apply never_raises_try; intros e.
  - apply never_raises_ret.
  - apply never_raises_bind; [apply never_raises_sleep | intros _; apply IH].
Qed.


Lemma submit_chunks_never_raises (pieces : list (list Payouts.PayoutItem)) :
  forall lmnr_code lmnr_issuer memo_text confirm_mode submit_sleep_seconds
         max_submit_retries retry_backoff_seconds,
    never_raises (Payouts.submit_chunks app_context pieces lmnr_code lmnr_issuer memo_text
                    confirm_mode submit_sleep_seconds max_submit_retries
                    retry_backoff_seconds).
Proof.
  induction pieces as [|chunk rest IH]; intros; simpl.
  - apply never_raises_ret.
  - apply never_raises_bind; [apply submit_chunk_never_raises|].
    intros results. apply never_raises_bind; [apply IH|].
    intros more. apply never_raises_ret.
Qed.



End Swallowing.




(** ** C2: route selection *)








Section Selection.
Context {W : Type} (app_context : AppContext W).

(** The order books are those of [book] throughout the selection: every
    query is answered, and with the same book for the same pair. *)
Variable book : Asset -> Asset -> OrderBook.
Hypothesis stable_books :
  forall selling buying w,
    fst (orderbook_call app_context selling buying w) = Ok (book selling buying).




End Selection.



Lemma negb_Qltb_le (a b : Q) : negb (Qltb a b) = true <-> (b <= a)%Q.
Proof.
  unfold Qltb. rewrite negb_involutive. apply Qle_bool_iff.
Qed.





(** * Further properties of the code *)

Section Emits.
Context {W : Type} (P : Event -> Prop).

Lemma emits_at_ret {A : Type} (a : A) (s : State W) : emits_at P (@ret W A a) s.
Proof.
  intros r s' H. inversion H; subst. exists []. split; [symmetry; apply app_nil_r | constructor].
Qed.

Lemma emits_at_raise {A : Type} (e : exn) (s : State W) : emits_at P (@raise W A e) s.
Proof.
  intros r s' H. inversion H; subst. exists []. split; [symmetry; apply app_nil_r | constructor].
Qed.

Lemma emits_at_lift {A : Type} (x : result A) (s : State W) : emits_at P (@lift W A x) s.
Proof.
  intros r s' H. inversion H; subst. exists []. split; [symmetry; apply app_nil_r | constructor].
Qed.

Lemma emits_at_call {A : Type} (ev : Event) (f : W -> result A * W) (s : State W) :
  P ev -> emits_at P (call ev f) s.
Proof.
  intros Hev r s' H. unfold call in H. destruct (f (world s)) as [x w].
  inversion H; subst. exists [ev]. split; [reflexivity | repeat constructor; exact Hev].
Qed.

Lemma emits_at_bind {A B : Type} (m : M W A) (k : A -> M W B) (s : State W) :
  emits_at P m s ->
  (forall a s1, m s = (Ok a, s1) -> emits_at P (k a) s1) ->
  emits_at P (bind m k) s.
Proof.
  intros Hm Hk r s' H. unfold bind in H.
  destruct (m s) as [[a|e] s1] eqn:E.
  - destruct (Hm _ _ E) as (d1 & Hl1 & Hd1).
    destruct (Hk a s1 eq_refl r s' H) as (d2 & Hl2 & Hd2).
    exists (d1 ++ d2)%list. split.
    + rewrite Hl2, Hl1, app_assoc. reflexivity.
    + apply Forall_app. split; assumption.
  - inversion H; subst. exact (Hm _ _ E).
Qed.

Lemma emits_at_try {A : Type} (m : M W A) (h : exn -> M W A) (s : State W) :
  emits_at P m s ->
  (forall e s1, m s = (Raise e, s1) -> emits_at P (h e) s1) ->
  emits_at P (try_except m h) s.
Proof.
  intros Hm Hh r s' H. unfold try_except in H.
  destruct (m s) as [[a|e] s1] eqn:E.
  - inversion H; subst. exact (Hm _ _ E).
  - destruct (Hm _ _ E) as (d1 & Hl1 & Hd1).
    destruct (Hh e s1 eq_refl r s' H) as (d2 & Hl2 & Hd2).
    exists (d1 ++ d2)%list. split.
    + rewrite Hl2, Hl1, app_assoc. reflexivity.
    + apply Forall_app. split; assumption.
Qed.

Lemma emits_ret {A : Type} (a : A) : emits P (@ret W A a).
Proof. intros s. apply emits_at_ret. Qed.

Lemma emits_raise {A : Type} (e : exn) : emits P (@raise W A e).
Proof. intros s. apply emits_at_raise. Qed.

Lemma emits_lift {A : Type} (x : result A) : emits P (@lift W A x).
Proof. intros s. apply emits_at_lift. Qed.

Lemma emits_call {A : Type} (ev : Event) (f : W -> result A * W) :
  P ev -> emits P (call ev f).
Proof. intros Hev s. apply emits_at_call. exact Hev. Qed.

Lemma emits_bind {A B : Type} (m : M W A) (k : A -> M W B) :
  emits P m -> (forall a, emits P (k a)) -> emits P (bind m k).
Proof. intros Hm Hk s. apply emits_at_bind; [apply Hm | intros a s1 _; apply Hk]. Qed.

Lemma emits_try {A : Type} (m : M W A) (h : exn -> M W A) :
  emits P m -> (forall e, emits P (h e)) -> emits P (try_except m h).
Proof. intros Hm Hh s. apply emits_at_try; [apply Hm | intros e s1 _; apply Hh]. Qed.

Lemma emits_if {A : Type} (b : bool) (m1 m2 : M W A) :
  emits P m1 -> emits P m2 -> emits P (if b then m1 else m2).
Proof. destruct b; auto. Qed.

End Emits.

(** What a successful call tells about the world. *)
Lemma call_ok {W A : Type} (ev : Event) (f : W -> result A * W) (s s1 : State W) (a : A) :
  call ev f s = (Ok a, s1) ->
  f (world s) = (Ok a, world s1) /\ s1 = mk_state (world s1) (log s ++ [ev])%list.
Proof.
  unfold call. destruct (f (world s)) as [x w]. intros H. inversion H; subst.
  split; reflexivity.
Qed.

Section EmitsFunctions.
Context {W : Type} (app_context : AppContext W) (P : Event -> Prop).
Hypothesis reads : forall ev, is_read ev = true -> P ev.

Lemma emits_load_account (public_key : string) :
  emits P (Stellar.load_account_async app_context public_key).
Proof. apply emits_call. apply reads. reflexivity. Qed.

Lemma emits_get_recommended_fee : emits P (Stellar.get_recommended_fee app_context).
Proof.
  unfold Stellar.get_recommended_fee, Stellar.query_fees.
  apply emits_try; [|intros; apply emits_ret].
  apply emits_bind.
  - apply emits_bind; [apply emits_call, reads; reflexivity|].
    intros ledgers. apply emits_bind; [apply emits_lift|].
    intros latest. apply emits_call, reads. reflexivity.
  - intros [|f fees]; [apply emits_ret | apply emits_lift].
Qed.

Lemma emits_get_estimated_xlm_value (asset : Asset) (amount : Q) :
  emits P (TradeServices.get_estimated_xlm_value app_context asset amount).
Proof.
  unfold TradeServices.get_estimated_xlm_value.
  apply emits_if; [apply emits_ret|].
  apply emits_try; [|intros; apply emits_ret].
  apply emits_bind; [apply emits_call, reads; reflexivity|].
  intros [|p paths]; apply emits_ret.
Qed.

Lemma emits_calculate_fee_and_check_balance (telegram_id : user_id) (send_asset : Asset)
    (send_amount : Q) (is_send_max : bool) :
  P (EvLoadPublicKey telegram_id) ->
  emits P (TradeServices.calculate_fee_and_check_balance app_context telegram_id
             send_asset send_amount is_send_max).
Proof.
  intros Hkey. unfold TradeServices.calculate_fee_and_check_balance.
  apply emits_bind.
  - apply emits_if; [apply emits_call; exact Hkey | apply emits_ret].
  - intros public_key. apply emits_bind; [apply emits_load_account|].
    intros account. apply emits_bind.
    + apply emits_if; [apply emits_ret|].
      apply emits_bind; [apply emits_get_estimated_xlm_value | intros; apply emits_ret].
    + intros fee. apply emits_if; [apply emits_raise | apply emits_ret].
Qed.

Lemma emits_asyncio_sleep (seconds : Q) :
  P (EvSleep seconds) -> emits P (Stellar.asyncio_sleep app_context seconds).
Proof.
  intros Hs s r s' H. unfold Stellar.asyncio_sleep in H. inversion H; subst.
  exists [EvSleep seconds]. split; [reflexivity | repeat constructor; exact Hs].
Qed.

Lemma emits_poll_loop (marker : string) (normalise : string -> string) (timeout : exn)
    (tx_hash : string) (interval : Q) (remaining : nat) :
  P (EvPoll tx_hash) -> P (EvSleep interval) ->
  emits P (Stellar.poll_loop app_context marker normalise timeout tx_hash interval remaining).
Proof.
  intros Hp Hs. induction remaining as [|n IH]; simpl.
  - apply emits_raise.
  - apply emits_bind.
    + unfold Stellar.poll_once. apply emits_try.
      * apply emits_bind; [apply emits_call; exact Hp|].
        intros tx. destruct (successful tx) as [[|]|];
          [apply emits_ret | apply emits_raise | apply emits_raise].
      * intros e. apply emits_if; [|apply emits_raise].
        apply emits_bind; [apply emits_asyncio_sleep; exact Hs | intros; apply emits_ret].
    + intros [tx|]; [apply emits_ret | exact IH].
Qed.

(** Waiting for the confirmation of a submitted transaction polls and
    sleeps, and nothing else. *)
Lemma emits_confirmation (response : Response) {A : Type} (a : A) :
  (forall h, P (EvPoll h)) -> (forall seconds, P (EvSleep seconds)) ->
  emits P (tx_hash <- lift (TradeServices.response_hash response) ;;
           TradeServices.wait_for_transaction_confirmation app_context tx_hash 60 1 ;;;
           @ret W A a).
Proof.
  intros Hp Hs. apply emits_bind; [apply emits_lift|]. intros h.
  apply emits_bind; [|intros; apply emits_ret].
  unfold TradeServices.wait_for_transaction_confirmation.
  apply emits_bind; [apply emits_poll_loop; auto | intros; apply emits_ret].
Qed.

(** What [build_and_submit_transaction] adds to the log: the load of the
    key, then reads, at most one signing request for the operations and the
    memo it was given, and at most one post. *)
Lemma build_and_submit_events (telegram_id : user_id) (operations : list Operation)
    (memo : option string) (base_fee : option Z) (s : State W)
    (r : result (Response * string)) (s' : State W) :
  (forall tx, request_for operations memo tx -> P (EvSign telegram_id tx)) ->
  (forall x, P (EvPost x)) ->
  Stellar.build_and_submit_transaction app_context telegram_id operations memo base_fee s
  = (r, s') ->
  exists d, log s' = (log s ++ EvLoadPublicKey telegram_id :: d)%list /\ Forall P d.
Proof.
  intros Hsign Hpost Hrun.
  unfold Stellar.build_and_submit_transaction in Hrun.
  unfold bind at 1 in Hrun.
  destruct (call (EvLoadPublicKey telegram_id) (load_public_key app_context telegram_id) s)
    as [[pk|e] s1] eqn:Hpk.
  2:{ inversion Hrun; subst. unfold call in Hpk.
      destruct (load_public_key app_context telegram_id (world s)) as [x w].
      inversion Hpk; subst. exists []. split; [reflexivity | constructor]. }
  apply call_ok in Hpk. destruct Hpk as [_ Hs1].
  assert (Hrest : emits P
            (account_data <- Stellar.load_account_async app_context pk ;;
             let sequence := sequence account_data in
             base_fee <- match base_fee with
                         | None =>
                             recommended_fee <- Stellar.get_recommended_fee app_context ;;
                             ret (Z.max recommended_fee
                                    (200 * Z.of_nat (List.length operations)))
                         | Some f => ret f
                         end ;;
             now <- (fun s => (Ok (time_time app_context (world s)), s)) ;;
             let tx := {| tx_source := pk;
                          tx_sequence := sequence;
                          tx_base_fee := base_fee;
                          tx_min_time := 0;
                          tx_max_time := now + 900;
                          tx_operations := operations;
                          tx_memo := Stellar.memo_of memo |} in
             signed_xdr <- call (EvSign telegram_id tx)
                             (sign_transaction app_context telegram_id tx) ;;
             response_dict <- call (EvPost signed_xdr) (post app_context signed_xdr) ;;
             let failed :=
               mk_exn Exception
                 ("Transaction failed: "
                    ++ match title response_dict with Some t => t | None => "Unknown error" end
                    ++ ", details: "
                    ++ match detail response_dict with Some d => d | None => "No details" end) in
             match tx_status response_dict with
             | Some status =>
                 if String.eqb status "ERROR" then raise failed
                 else ret (response_dict, signed_xdr)
             | None => raise failed
             end)).
  { apply emits_bind; [apply emits_load_account|]. intros account_data. cbv zeta.
    apply emits_bind.
    { destruct base_fee as [f|]; [apply emits_ret|].
      apply emits_bind; [apply emits_get_recommended_fee | intros; apply emits_ret]. }
    intros fee. apply emits_bind.
    { intros s0 r0 s0' H0. inversion H0; subst. exists [].
      split; [symmetry; apply app_nil_r | constructor]. }
    intros now. apply emits_bind.
    { apply emits_call. apply Hsign. repeat split. }
    intros signed. apply emits_bind; [apply emits_call, Hpost|].
    intros resp. destruct (tx_status resp) as [st|]; [|apply emits_raise].
    destruct (String.eqb st "ERROR"); [apply emits_raise | apply emits_ret]. }
  destruct (Hrest s1 r s' Hrun) as (d & Hl & Hd).
  exists d. split; [|exact Hd].
  rewrite Hl, Hs1. cbn [log]. rewrite <- app_assoc. reflexivity.
Qed.

Lemma emits_build_and_submit (telegram_id : user_id) (operations : list Operation)
    (memo : option string) (base_fee : option Z) :
  P (EvLoadPublicKey telegram_id) ->
  (forall tx, request_for operations memo tx -> P (EvSign telegram_id tx)) ->
  (forall x, P (EvPost x)) ->
  emits P (Stellar.build_and_submit_transaction app_context telegram_id operations memo
             base_fee).
Proof.
  intros Hkey Hsign Hpost s r s' Hrun.
  destruct (build_and_submit_events _ _ _ _ _ _ _ Hsign Hpost Hrun) as (d & Hl & Hd).
  exists (EvLoadPublicKey telegram_id :: d). split; [exact Hl|].
  constructor; [exact Hkey | exact Hd].
Qed.

End EmitsFunctions.

(** ** Payouts: batches and chunks *)

Lemma batches_cons (batch_size : Z) (batch : list Payouts.PayoutItem)
    (item : Payouts.PayoutItem) (rest : list Payouts.PayoutItem) :
  Payouts.batches batch_size batch (item :: rest) =
  if (Z.of_nat (List.length (batch ++ [item])) =? batch_size)
     || match rest with [] => true | _ => false end
  then (batch ++ [item])%list :: Payouts.batches batch_size [] rest
  else Payouts.batches batch_size (batch ++ [item]) rest.
Proof. reflexivity. Qed.

Lemma batches_concat (batch_size : Z) (payouts : list Payouts.PayoutItem) :
  forall batch, payouts <> [] ->
    List.concat (Payouts.batches batch_size batch payouts) = (batch ++ payouts)%list.
Proof.
  induction payouts as [|item rest IH]; intros batch Hne; [congruence|].
  rewrite batches_cons. destruct rest as [|item' rest'].
  - rewrite orb_true_r. simpl. rewrite app_nil_r. reflexivity.
  - rewrite orb_false_r.
    destruct (Z.of_nat (List.length (batch ++ [item])) =? batch_size).
    + change (List.concat ((batch ++ [item])%list
                             :: Payouts.batches batch_size [] (item' :: rest')))
        with ((batch ++ [item]) ++ List.concat (Payouts.batches batch_size [] (item' :: rest')))%list.
      rewrite (IH []) by discriminate. simpl.
      rewrite <- app_assoc. reflexivity.
    + rewrite IH by discriminate. rewrite <- app_assoc. reflexivity.
Qed.

Lemma batches_bounded (batch_size : Z) (payouts : list Payouts.PayoutItem) :
  0 < batch_size ->
  forall batch, Z.of_nat (List.length batch) < batch_size ->
    Forall (fun b => Z.of_nat (List.length b) <= batch_size)
      (Payouts.batches batch_size batch payouts).
Proof.
  intros Hpos. induction payouts as [|item rest IH]; intros batch Hlt; [constructor|].
  rewrite batches_cons.
  assert (Hlen : Z.of_nat (List.length (batch ++ [item])) = Z.of_nat (List.length batch) + 1).
  { rewrite length_app. simpl. lia. }
  destruct (Z.of_nat (List.length (batch ++ [item])) =? batch_size) eqn:E.
  - rewrite orb_true_l. constructor; [lia | apply IH; simpl; lia].
  - apply Z.eqb_neq in E. rewrite orb_false_l. destruct rest as [|item' rest'].
    + constructor; [lia | constructor].
    + apply IH. lia.
Qed.

Lemma chunks_spec (max_ops_per_tx : nat) :
  (0 < max_ops_per_tx)%nat ->
  forall rounds batch, (List.length batch <= rounds)%nat ->
    List.concat (Payouts.chunks rounds max_ops_per_tx batch) = batch
    /\ Forall (fun chunk => (1 <= List.length chunk <= max_ops_per_tx)%nat
                            /\ (List.length chunk <= List.length batch)%nat)
         (Payouts.chunks rounds max_ops_per_tx batch).
Proof.
  intros Hpos. induction rounds as [|rounds IH]; intros batch Hlen.
  - destruct batch; [split; [reflexivity | constructor] | simpl in Hlen; lia].
  - destruct batch as [|item rest]; [split; [reflexivity | constructor]|].
    change (Payouts.chunks (S rounds) max_ops_per_tx (item :: rest))
      with (firstn max_ops_per_tx (item :: rest)
              :: Payouts.chunks rounds max_ops_per_tx (skipn max_ops_per_tx (item :: rest))).
    assert (Hskip : (List.length (skipn max_ops_per_tx (item :: rest)) <= rounds)%nat).
    { rewrite length_skipn. simpl List.length in *. lia. }
    destruct (IH _ Hskip) as [Hc Hall]. split.
    + simpl List.concat. rewrite Hc. apply firstn_skipn.
    + constructor.
      * rewrite length_firstn. simpl List.length. lia.
      * eapply Forall_impl; [|exact Hall]. intros chunk [H1 H2]. split; [exact H1|].
        rewrite length_skipn in H2. lia.
Qed.

Lemma concat_flat_map {A B : Type} (f : A -> list (list B)) (l : list A) :
  List.concat (flat_map f l) = flat_map (fun x => List.concat (f x)) l.
Proof.
  induction l as [|x l IH]; [reflexivity|].
  simpl. rewrite concat_app, IH. reflexivity.
Qed.

Lemma payout_pieces_concat (batch_size max_ops_per_tx : Z) (payouts : list Payouts.PayoutItem) :
  0 < max_ops_per_tx ->
  List.concat (payout_pieces batch_size max_ops_per_tx payouts) = payouts.
Proof.
  intros Hpos. unfold payout_pieces. rewrite concat_flat_map.
  destruct payouts as [|item rest]; [reflexivity|].
  rewrite <- (batches_concat batch_size (item :: rest) []) at 2 by discriminate.
  rewrite flat_map_concat_map. f_equal.
  rewrite <- (map_id (Payouts.batches batch_size [] (item :: rest))) at 2.
  apply map_ext. intros batch.
  apply chunks_spec; lia.
Qed.

Lemma payout_pieces_bounded (batch_size max_ops_per_tx : Z)
    (payouts : list Payouts.PayoutItem) :
  0 < max_ops_per_tx ->
  Forall (fun chunk => (1 <= List.length chunk)%nat
                       /\ Z.of_nat (List.length chunk) <= max_ops_per_tx
                       /\ (0 < batch_size -> Z.of_nat (List.length chunk) <= batch_size))
    (payout_pieces batch_size max_ops_per_tx payouts).
Proof.
  intros Hpos. unfold payout_pieces. apply Forall_flat_map.
  assert (Hb : Forall (fun b => 0 < batch_size -> Z.of_nat (List.length b) <= batch_size)
                 (Payouts.batches batch_size [] payouts)).
  { destruct (Z_lt_dec 0 batch_size) as [Hbs|Hbs].
    - eapply Forall_impl; [|apply batches_bounded; [exact Hbs | simpl; lia]].
      intros b Hle _. exact Hle.
    - apply Forall_forall. intros b _ H. contradiction. }
  eapply Forall_impl; [|exact Hb]. intros batch Hbatch.
  destruct (chunks_spec (Z.to_nat max_ops_per_tx) ltac:(lia) (List.length batch) batch
              (le_n _)) as [_ Hall].
  eapply Forall_impl; [|exact Hall]. intros chunk [[H1 H2] H3].
  split; [exact H1|]. split; [lia|]. intros Hbs. specialize (Hbatch Hbs). lia.
Qed.

(** X1. With a positive [max_ops_per_tx], the pieces [submit_batched_payments]
    submits one transaction for are a partition of the payouts in their
    order: put end to end they are the list of payouts, none is empty, none
    is longer than [max_ops_per_tx], and none is longer than [batch_size]
    when that is positive. *)
Theorem payout_batches_partition_the_payouts
    (batch_size max_ops_per_tx : Z) (payouts : list Payouts.PayoutItem) :
  0 < max_ops_per_tx ->
  let pieces :=
    flat_map (fun batch => Payouts.chunks (List.length batch) (Z.to_nat max_ops_per_tx) batch)
      (Payouts.batches batch_size [] payouts) in
  List.concat pieces = payouts
  /\ Forall (fun chunk => (1 <= List.length chunk)%nat
                          /\ Z.of_nat (List.length chunk) <= max_ops_per_tx
                          /\ (0 < batch_size -> Z.of_nat (List.length chunk) <= batch_size))
       pieces.
Proof.
  intros Hpos pieces. split.
  - apply payout_pieces_concat. exact Hpos.
  - apply payout_pieces_bounded. exact Hpos.
Qed.

Lemma payout_batches_partition_the_payouts_witness :
  let pieces :=
    flat_map (fun batch => Payouts.chunks (List.length batch) (Z.to_nat 1) batch)
      (Payouts.batches 2 [] [lp_item; lp_item; lp_item]) in
  List.concat pieces = [lp_item; lp_item; lp_item]
  /\ Forall (fun chunk => (1 <= List.length chunk)%nat
                          /\ Z.of_nat (List.length chunk) <= 1
                          /\ (0 < 2 -> Z.of_nat (List.length chunk) <= 2))
       pieces.
Proof.
  apply (payout_batches_partition_the_payouts 2 1 [lp_item; lp_item; lp_item]). lia.
Defined.

Section PayoutRuns.
Context {W : Type} (app_context : AppContext W).
Variables (memo_text : option string) (confirm_mode : bool).
Variables (submit_sleep_seconds retry_backoff_seconds : Q).

Lemma submit_once_items (chunk : list Payouts.PayoutItem) (ops : list Operation)
    (s s' : State W) (results : list (Payouts.PayoutItem * Payouts.PayoutResult)) :
  Payouts.submit_once app_context chunk ops memo_text confirm_mode submit_sleep_seconds s
  = (Ok results, s') ->
  exists response, results = map (fun b => (b, Payouts.Submitted response)) chunk.
Proof.
  unfold Payouts.submit_once. intros H. unfold bind at 1 in H.
  destruct (Stellar.build_and_submit_transaction app_context (Some 0) ops
              (Some (Payouts.memo_or_default memo_text)) None s) as [[r|e] s1];
    [|discriminate H].
  cbv zeta in H. unfold bind at 1 in H.
  destruct (Payouts.confirm_check app_context confirm_mode (hash (fst r)) s1)
    as [[[]|e] s2]; [|discriminate H].
  unfold bind, Stellar.asyncio_sleep, ret in H. inversion H; subst.
  exists (fst r). reflexivity.
Qed.

Lemma map_fst_results {R : Type} (chunk : list Payouts.PayoutItem) (x : R) :
  map fst (map (fun b => (b, x)) chunk) = chunk.
Proof. rewrite map_map. simpl. apply map_id. Qed.

Lemma submit_chunk_items (chunk : list Payouts.PayoutItem) (ops : list Operation)
    (retries_left : nat) :
  forall attempt s s' results,
    Payouts.submit_chunk app_context retries_left attempt chunk ops memo_text confirm_mode
      submit_sleep_seconds retry_backoff_seconds s = (Ok results, s') ->
    map fst results = chunk.
Proof.
  induction retries_left as [|n IH]; intros attempt s s' results H; simpl in H;
    unfold try_except in H;
    destruct (Payouts.submit_once app_context chunk ops memo_text confirm_mode
                submit_sleep_seconds s) as [[res|e] s1] eqn:E.
  - inversion H; subst. destruct (submit_once_items _ _ _ _ _ E) as [response ->].
    apply map_fst_results.
  - inversion H; subst. apply map_fst_results.
  - inversion H; subst. destruct (submit_once_items _ _ _ _ _ E) as [response ->].
    apply map_fst_results.
  - unfold bind, Stellar.asyncio_sleep in H. eapply IH. exact H.
Qed.

Lemma submit_chunks_items (lmnr_code lmnr_issuer : string) (max_submit_retries : Z)
    (pieces : list (list Payouts.PayoutItem)) :
  forall s s' results,
    Payouts.submit_chunks app_context pieces lmnr_code lmnr_issuer memo_text confirm_mode
      submit_sleep_seconds max_submit_retries retry_backoff_seconds s = (Ok results, s') ->
    map fst results = List.concat pieces.
Proof.
  induction pieces as [|chunk rest IH]; intros s s' results H; simpl in H.
  - inversion H. reflexivity.
  - unfold bind at 1 in H.
    destruct (Payouts.submit_chunk app_context (Z.to_nat max_submit_retries) 0 chunk
                (Payouts.build_lmnr_payments chunk lmnr_code lmnr_issuer) memo_text
                confirm_mode submit_sleep_seconds retry_backoff_seconds s)
      as [[res|e] s1] eqn:E; [|discriminate H].
    unfold bind at 1 in H.
    destruct (Payouts.submit_chunks app_context rest lmnr_code lmnr_issuer memo_text
                confirm_mode submit_sleep_seconds max_submit_retries retry_backoff_seconds s1)
      as [[more|e] s2] eqn:E2; [|discriminate H].
    inversion H; subst. rewrite map_app. simpl. f_equal.
    + eapply submit_chunk_items. exact E.
    + eapply IH. exact E2.
Qed.

End PayoutRuns.

(** X2. With a positive [max_ops_per_tx], [submit_batched_payments] returns,
    whatever the ledger, the signer and the submissions do, and its results
    name every payout item exactly once, in the order of the payouts. *)
Theorem payout_results_record_every_item_once
    {W : Type} (app_context : AppContext W) (payouts : list Payouts.PayoutItem)
    (lmnr_code lmnr_issuer : string) (batch_size : Z) (memo_text : option string)
    (max_ops_per_tx : Z) (submit_sleep_seconds : Q) (max_submit_retries : Z)
    (retry_backoff_seconds : Q) (confirm_mode : bool) (s : State W) :
  0 < max_ops_per_tx ->
  exists results s',
    Payouts.submit_batched_payments app_context payouts lmnr_code lmnr_issuer batch_size
      memo_text max_ops_per_tx submit_sleep_seconds max_submit_retries
      retry_backoff_seconds confirm_mode s = (Ok results, s')
    /\ map fst results = payouts.
Proof.
  intros Hpos. unfold Payouts.submit_batched_payments.
  destruct (submit_chunks_never_raises app_context
              (flat_map
                 (fun batch => Payouts.chunks (List.length batch) (Z.to_nat max_ops_per_tx) batch)
                 (Payouts.batches batch_size [] payouts))
              lmnr_code lmnr_issuer memo_text confirm_mode submit_sleep_seconds
              max_submit_retries retry_backoff_seconds s) as (results & s' & Hrun).
  exists results, s'. split; [exact Hrun|].
  rewrite (submit_chunks_items _ _ _ _ _ _ _ _ _ _ _ _ Hrun).
  apply (payout_pieces_concat batch_size max_ops_per_tx payouts Hpos).
Qed.

Lemma payout_results_record_every_item_once_witness :
  exists results s',
    Payouts.submit_batched_payments (Scripted.context "GFEE" None) [lp_item; lp_item; lp_item]
      "LMNR" "GISSUER" 2 None 1 2 1 2 false (Scripted.start (copy_world (Ok "signed")))
    = (Ok results, s')
    /\ map fst results = [lp_item; lp_item; lp_item].
Proof.
  apply (payout_results_record_every_item_once (Scripted.context "GFEE" None)
           [lp_item; lp_item; lp_item] "LMNR" "GISSUER" 2 None 1 2 1 2 false
           (Scripted.start (copy_world (Ok "signed")))).
  lia.
Defined.

Lemma requests_satisfy_In (R : user_id -> Transaction -> Prop) (d : list Event) :
  Forall (requests_satisfy R) d -> forall t tx, In (EvSign t tx) d -> R t tx.
Proof.
  intros H t tx Hin. rewrite Forall_forall in H. exact (H _ Hin).
Qed.

Section PayoutRequests.
Context {W : Type} (app_context : AppContext W).
Variables (memo_text : option string) (confirm_mode : bool).
Variables (submit_sleep_seconds retry_backoff_seconds : Q).
Variable P : Event -> Prop.
Hypothesis reads : forall ev, is_read ev = true -> P ev.
Hypothesis keys : forall t, P (EvLoadPublicKey t).
Hypothesis polls : forall h, P (EvPoll h).
Hypothesis pauses : forall seconds, P (EvSleep seconds).
Hypothesis posts : forall x, P (EvPost x).

Lemma emits_confirm_check (tx_hash : option string) :
  emits P (Payouts.confirm_check app_context confirm_mode tx_hash).
Proof.
  unfold Payouts.confirm_check.
  destruct tx_hash as [[|c h]|]; try apply emits_ret.
  destruct confirm_mode; [|apply emits_ret].
  apply emits_try; [|intros; apply emits_ret].
  apply emits_bind; [|intros; apply emits_ret].
  unfold Stellar.wait_for_transaction_confirmation.
  apply emits_poll_loop; auto.
Qed.



End PayoutRequests.




(** ** Payouts: the retry loop *)



Section Retries.
Context {W : Type} (app_context : AppContext W).
Variables (chunk : list Payouts.PayoutItem) (ops : list Operation).
Variables (memo_text : option string) (confirm_mode : bool).
Variables (submit_sleep_seconds retry_backoff_seconds : Q).

Hypothesis always_fails :
  forall s0, exists e s1,
    Stellar.build_and_submit_transaction app_context (Some 0) ops
      (Some (Payouts.memo_or_default memo_text)) None s0 = (Raise e, s1).



End Retries.



(** ** The confirmation wait of trade_services.py *)

Lemma prefix_cons (a b : ascii) (s1 s2 : string) :
  String.prefix (String a s1) (String b s2)
  = if ascii_dec a b then String.prefix s1 s2 else false.
Proof. reflexivity. Qed.

Lemma prefix_04_failed (h : string) :
  String.prefix "04" (h ++ " failed") = String.prefix "04" h.
Proof.
  destruct h as [|c1 [|c2 h]].
  - reflexivity.
  - change (String c1 EmptyString ++ " failed") with (String c1 " failed").
    rewrite !prefix_cons. destruct (ascii_dec "0" c1); reflexivity.
  - change (String c1 (String c2 h) ++ " failed")
      with (String c1 (String c2 (h ++ " failed"))).
    rewrite !prefix_cons.
    assert (Hnil : forall x, String.prefix EmptyString x = true) by (intros []; reflexivity).
    rewrite !Hnil. reflexivity.
Qed.

Lemma contains_404_suffix (h : string) :
  contains "404" (h ++ " failed") = contains "404" h.
Proof.
  induction h as [|c h IH]; [reflexivity|].
  change (String c h ++ " failed") with (String c (h ++ " failed")).
  rewrite (contains_eq "404" (String c (h ++ " failed"))), (contains_eq "404" (String c h)).
  rewrite IH.
  change (String.prefix "404" (String c (h ++ " failed")))
    with (if ascii_dec "4" c then String.prefix "04" (h ++ " failed") else false).
  change (String.prefix "404" (String c h))
    with (if ascii_dec "4" c then String.prefix "04" h else false).
  rewrite prefix_04_failed. reflexivity.
Qed.

(** The text of the error for a failed transaction reads "404" exactly when
    the hash does. *)
Lemma failed_error_reads_404 (tx_hash : string) :
  contains "404" (str (failed_error tx_hash)) = contains "404" tx_hash.
Proof.
  unfold failed_error, str. cbn [exn_msg].
  change (contains "404" ("Transaction " ++ tx_hash ++ " failed"))
    with (contains "404" (tx_hash ++ " failed")).
  apply contains_404_suffix.
Qed.

Section FailedAndRetried.
Context {W : Type} (app_context : AppContext W).
Variables (tx_hash : string) (interval : Q) (timeout : exn).

Hypothesis found_failed :
  forall w, exists w', transaction_call app_context tx_hash w = (Ok Scripted.rejected, w').

Lemma poll_failed_once (s : State W) :
  contains "404" tx_hash = false ->
  exists s',
    Stellar.poll_once app_context "404" (fun x => x) tx_hash interval s
    = (Raise (failed_error tx_hash), s')
    /\ log s' = (log s ++ [EvPoll tx_hash])%list.
Proof.
  intros Hh. destruct (found_failed (world s)) as [w Hcall].
  eexists. split.
  - apply (poll_once_failed app_context "404" (fun x => x) tx_hash interval s
             Scripted.rejected w Hcall eq_refl).
    unfold not_yet_visible. rewrite failed_error_reads_404. exact Hh.
  - reflexivity.
Qed.

Lemma poll_failed_retried (s : State W) :
  contains "404" tx_hash = true ->
  exists s',
    Stellar.poll_once app_context "404" (fun x => x) tx_hash interval s = (Ok None, s')
    /\ log s' = (log s ++ [EvPoll tx_hash; EvSleep interval])%list.
Proof.
  intros Hh. destruct (found_failed (world s)) as [w Hcall].
  eexists. split.
  - unfold Stellar.poll_once, try_except, bind, call. rewrite Hcall. cbn [world log].
    unfold Scripted.rejected at 1. cbn [successful]. unfold raise at 1.
    fold (failed_error tx_hash). rewrite failed_error_reads_404, Hh. reflexivity.
  - cbn [log]. rewrite <- app_assoc. reflexivity.
Qed.

Lemma poll_loop_all_retried (remaining : nat) :
  contains "404" tx_hash = true ->
  forall s, exists s',
    Stellar.poll_loop app_context "404" (fun x => x) timeout tx_hash interval remaining s
    = (Raise timeout, s')
    /\ log s'
       = (log s ++ List.concat (repeat [EvPoll tx_hash; EvSleep interval] remaining))%list.
Proof.
  intros Hh. induction remaining as [|n IH]; intros s.
  - exists s. split; [reflexivity | simpl; rewrite app_nil_r; reflexivity].
  - destruct (poll_failed_retried s Hh) as (s1 & Hone & Hl1).
    destruct (IH s1) as (s' & Hrest & Hl').
    exists s'. split.
    + simpl. rewrite (bind_run _ _ _ _ _ Hone). exact Hrest.
    + rewrite Hl', Hl1. simpl. rewrite <- app_assoc. reflexivity.
Qed.

End FailedAndRetried.

(** X6. The confirmation wait of trade_services.py, on a transaction that is
    found and has failed: when the hash does not contain "404" the first
    poll raises "Transaction <hash> failed"; when it does, the handler takes
    that error for a missing transaction, so the wait polls and sleeps
    [max_attempts] times and raises "not confirmed after <n> attempts". *)
Theorem trade_confirmation_retries_failed_transaction_when_hash_reads_404
    {W : Type} (app_context : AppContext W) (tx_hash : string) (max_attempts interval : Z)
    (s : State W) :
  (forall w, exists w',
      transaction_call app_context tx_hash w = (Ok {| successful := Some false |}, w')) ->
  0 < max_attempts ->
  exists s',
    TradeServices.wait_for_transaction_confirmation app_context tx_hash max_attempts interval s
    = (Raise (if contains "404" tx_hash
              then not_confirmed tx_hash max_attempts
              else failed_error tx_hash), s')
    /\ log s'
       = (log s
            ++ if contains "404" tx_hash
               then List.concat (repeat [EvPoll tx_hash; EvSleep (inject_Z interval)]
                                   (Z.to_nat max_attempts))
               else [EvPoll tx_hash])%list.
Proof.
  intros Hfound Hpos. unfold TradeServices.wait_for_transaction_confirmation.
  fold (not_confirmed tx_hash max_attempts).
  destruct (contains "404" tx_hash) eqn:Hh.
  - destruct (poll_loop_all_retried app_context tx_hash (inject_Z interval)
                (not_confirmed tx_hash max_attempts) Hfound (Z.to_nat max_attempts) Hh s)
      as (s' & Hrun & Hl).
    exists s'. split; [|exact Hl]. rewrite (bind_run _ _ _ _ _ Hrun). reflexivity.
  - destruct (poll_failed_once app_context tx_hash (inject_Z interval) Hfound s Hh)
      as (s' & Hone & Hl).
    exists s'. split; [|exact Hl].
    destruct (Z.to_nat max_attempts) as [|n] eqn:En; [lia|].
    simpl. rewrite (bind_run _ _ _ _ _ (bind_run _ _ _ _ _ Hone)). reflexivity.
Qed.

Lemma trade_confirmation_retries_failed_transaction_when_hash_reads_404_witness :
  exists s',
    TradeServices.wait_for_transaction_confirmation all_failed "ab404cd" 60 1
      (mk_state tt [])
    = (Raise (mk_exn ValueError "Transaction ab404cd not confirmed after 60 attempts"), s')
    /\ log s' = List.concat (repeat [EvPoll "ab404cd"; EvSleep 1] 60).
Proof.
  apply (trade_confirmation_retries_failed_transaction_when_hash_reads_404 all_failed
           "ab404cd" 60 1 (mk_state tt [])).
  - intros w. eexists. reflexivity.
  - lia.
Defined.

(** ** Withdrawals and trust lines: what is sent for signature *)

Section Guards.
Context {W : Type} (app_context : AppContext W).

(** The two loads every operation starts with, and what the rest knows
    afterwards. *)
Lemma emits_at_after_loading {A : Type} (P : Event -> Prop) (telegram_id : user_id)
    (k : string -> Account -> M W A) (s : State W) :
  P (EvLoadPublicKey telegram_id) ->
  (forall pk, P (EvLoadAccount pk)) ->
  (forall pk account w1 w2,
      load_public_key app_context telegram_id (world s) = (Ok pk, w1) ->
      accounts_call app_context pk w1 = (Ok account, w2) ->
      emits_at P (k pk account) (loaded s telegram_id pk w2)) ->
  emits_at P
    (public_key <- call (EvLoadPublicKey telegram_id)
                     (load_public_key app_context telegram_id) ;;
     account <- Stellar.load_account_async app_context public_key ;;
     k public_key account) s.
Proof.
  intros Hkey Hacc Hk.
  apply emits_at_bind; [apply emits_at_call; exact Hkey|].
  intros pk s1 Hpk. apply call_ok in Hpk. destruct Hpk as [Hpk Hs1].
  apply emits_at_bind; [apply emits_at_call; apply Hacc|].
  intros account s2 Hload. apply call_ok in Hload. destruct Hload as [Hload Hs2].
  rewrite Hs2, Hs1. cbn [log]. fold (loaded s telegram_id pk (world s2)).
  apply (Hk pk account (world s1) (world s2)); [exact Hpk|].
  rewrite Hs1 in Hload. exact Hload.
Qed.

(** A submission followed by the wait for its confirmation. *)
Lemma emits_submit_and_confirm {A : Type} (P : Event -> Prop) (telegram_id : user_id)
    (operations : list Operation) (memo : option string) (base_fee : option Z)
    (k : Response * string -> A) :
  (forall ev, match ev with EvSign _ _ => False | _ => True end -> P ev) ->
  (forall tx, request_for operations memo tx -> P (EvSign telegram_id tx)) ->
  emits P
    (r <- Stellar.build_and_submit_transaction app_context telegram_id operations memo
            base_fee ;;
     tx_hash <- lift (TradeServices.response_hash (fst r)) ;;
     TradeServices.wait_for_transaction_confirmation app_context tx_hash 60 1 ;;;
     ret (k r)).
Proof.
  intros Hother Hsign.
  apply emits_bind.
  - apply emits_build_and_submit.
    + intros ev Hr. apply Hother. destruct ev; try exact I; discriminate Hr.
    + apply Hother. exact I.
    + exact Hsign.
    + intros x. apply Hother. exact I.
  - intros r. cbv zeta. apply emits_confirmation.
    + intros h. apply Hother. exact I.
    + intros seconds. apply Hother. exact I.
Qed.

End Guards.

Lemma Qltb_false_le (a b : Q) : Qltb a b = false -> (b <= a)%Q.
Proof.
  intros H. apply negb_Qltb_le. rewrite H. reflexivity.
Qed.

Lemma lift_ok {W A : Type} (x : result A) (s s1 : State W) (a : A) :
  lift x s = (Ok a, s1) -> x = Ok a /\ s1 = s.
Proof. unfold lift. intros H. inversion H; subst. split; reflexivity. Qed.

(** When the search of [has_trustline] returns, it returns what the search
    without the indexing finds. *)
Lemma has_trustline_indexed_agrees (asset : Asset) (account : Account) (line : bool) :
  Stellar.has_trustline_indexed asset (balances account) = Ok line ->
  Stellar.has_trustline account asset = line.
Proof.
  unfold Stellar.has_trustline. induction (balances account) as [|b rest IH]; simpl.
  - intros H. inversion H. reflexivity.
  - unfold Stellar.balance_matches at 1.
    destruct asset as [|code issuer]; cbn [is_native andb].
    + destruct (String.eqb (asset_type b) "native"); [intros H; inversion H; reflexivity|].
      destruct (asset_code b) as [c|]; [|intros H; discriminate H].
      destruct (String.eqb c "XLM").
      * destruct (asset_issuer b) as [i|]; [exact IH | intros H; discriminate H].
      * exact IH.
    + destruct (String.eqb (asset_type b) "native"); cbn [negb andb orb]; [exact IH|].
      destruct (asset_code b) as [c|]; [|intros H; discriminate H].
      destruct (String.eqb c code); cbn [andb orb];
        [|destruct (asset_issuer b); cbn [orb]; exact IH].
      destruct (asset_issuer b) as [i|]; [|intros H; discriminate H].
      destruct (String.eqb i issuer); cbn [orb]; [intros H; inversion H; reflexivity | exact IH].
Qed.

Ltac not_a_request :=
  let ev := fresh "ev" in
  intros ev; destruct ev; intros; try exact I; try contradiction; try discriminate.

Section GuardedOperations.
Context {W : Type} (app_context : AppContext W).

Lemma requests_other (R : user_id -> Transaction -> Prop) (ev : Event) :
  match ev with EvSign _ _ => False | _ => True end -> requests_satisfy R ev.
Proof. destruct ev; intros H; try exact I. contradiction. Qed.

Lemma emits_at_get_recommended_fee (P : Event -> Prop) (s : State W) :
  (forall ev, is_read ev = true -> P ev) ->
  emits_at P (Stellar.get_recommended_fee app_context) s.
Proof. intros H. apply emits_get_recommended_fee. exact H. Qed.

Lemma emits_at_if {A : Type} (P : Event -> Prop) (b : bool) (m1 m2 : M W A) (s : State W) :
  (b = true -> emits_at P m1 s) -> (b = false -> emits_at P m2 s) ->
  emits_at P (if b then m1 else m2) s.
Proof. destruct b; auto. Qed.

Lemma emits_withdraw_checks (P : Event -> Prop) (asset : Asset) (amount fee : Q)
    (account : Account) :
  emits P (@TradeServices.withdraw_checks W asset amount fee account).
Proof.
  unfold TradeServices.withdraw_checks. destruct asset as [|code issuer].
  - cbv zeta. apply emits_if; [apply emits_raise | apply emits_ret].
  - apply emits_bind; [apply emits_lift|]. intros held.
    apply emits_if; [apply emits_raise|]. cbv zeta.
    apply emits_if; [apply emits_raise | apply emits_ret].
Qed.

(** What the checks of a withdrawal have established when they pass. *)
Lemma withdraw_checks_pass (asset : Asset) (amount fee : Q) (account : Account)
    (s s' : State W) :
  TradeServices.withdraw_checks asset amount fee account s = (Ok tt, s') ->
  match asset with
  | Native =>
      (amount <= TradeServices.native_field balance account
                 - TradeServices.minimum_reserve account - fee)%Q
  | Credit code issuer =>
      exists held,
        TradeServices.indexed_asset_balance code issuer (balances account) = Ok held
        /\ (amount <= held)%Q
        /\ (fee <= TradeServices.calculate_available_xlm account)%Q
  end.
Proof.
  unfold TradeServices.withdraw_checks. destruct asset as [|code issuer]; intros Hchecks.
  - cbv zeta in Hchecks.
    destruct (Qltb (TradeServices.native_field balance account
                    - TradeServices.minimum_reserve account - fee) amount) eqn:Hq;
      [discriminate Hchecks|].
    apply Qltb_false_le. exact Hq.
  - rewrite bind_lift in Hchecks.
    destruct (TradeServices.indexed_asset_balance code issuer (balances account))
      as [held|e] eqn:Hheld; [|discriminate Hchecks].
    destruct (Qltb held amount) eqn:Hq1; [discriminate Hchecks|].
    cbv zeta in Hchecks.
    destruct (Qltb (TradeServices.calculate_available_xlm account) fee) eqn:Hq2;
      [discriminate Hchecks|].
    exists held. split; [reflexivity|]. split; apply Qltb_false_le; assumption.
Qed.

End GuardedOperations.

(** X7. Whatever [perform_add_trustline] sends for signature is the user's
    own request of one [ChangeTrust] of the asset with limit 1000000000 and
    memo "Add Trust <code>", and it is sent only after the account was read,
    the search of its balances returned that there is no such trust line,
    and the available lumens cover the recommended fee plus 0.5. *)
Theorem add_trustline_signs_only_a_missing_line_with_reserve
    {W : Type} (app_context : AppContext W) (telegram_id : user_id)
    (asset_code asset_issuer : string) (s s' : State W) (r : result Response) :
  TradeServices.perform_add_trustline app_context telegram_id asset_code asset_issuer s
  = (r, s') ->
  exists d,
    log s' = (log s ++ d)%list
    /\ forall t tx,
         In (EvSign t tx) d ->
         t = telegram_id
         /\ tx_operations tx
            = [ChangeTrust (Credit asset_code asset_issuer) (inject_Z 1000000000)]
         /\ tx_memo tx = Some ("Add Trust " ++ asset_code)
         /\ exists public_key account recommended_fee,
              has_read app_context s telegram_id public_key account recommended_fee
              /\ Stellar.has_trustline_indexed (Credit asset_code asset_issuer) (balances account)
                 = Ok false
              /\ (TradeServices.fee_in_lumens recommended_fee + (1 # 2)
                  <= TradeServices.calculate_available_xlm account)%Q.
Proof.
  intros Hrun.
  set (R := fun (t : user_id) (tx : Transaction) =>
              t = telegram_id
              /\ tx_operations tx
                 = [ChangeTrust (Credit asset_code asset_issuer) (inject_Z 1000000000)]
              /\ tx_memo tx = Some ("Add Trust " ++ asset_code)
              /\ exists public_key account recommended_fee,
                   has_read app_context s telegram_id public_key account recommended_fee
                   /\ Stellar.has_trustline_indexed (Credit asset_code asset_issuer) (balances account)
                 = Ok false
                   /\ (TradeServices.fee_in_lumens recommended_fee + (1 # 2)
                       <= TradeServices.calculate_available_xlm account)%Q).
  assert (Hem : emits_at (requests_satisfy R)
                  (TradeServices.perform_add_trustline app_context telegram_id asset_code
                     asset_issuer) s).
  { unfold TradeServices.perform_add_trustline. cbv zeta.
    apply emits_at_after_loading; try (intros; exact I).
    intros pk account w1 w2 Hpk Hacc.
    apply emits_at_bind; [apply emits_at_lift|].
    intros line s0 Hline. apply lift_ok in Hline. destruct Hline as [Hline ->].
    destruct line; [apply emits_at_raise|].
    apply emits_at_bind; [apply emits_at_get_recommended_fee; not_a_request|].
    intros fee s3 Hfee.
    destruct (Qltb (TradeServices.calculate_available_xlm account)
                (TradeServices.fee_in_lumens fee + (1 # 2))) eqn:Hq;
      [apply emits_at_raise|].
    apply emits_submit_and_confirm; [apply requests_other|].
    intros tx (Hops & Hmemo & _). simpl. unfold R.
    split; [reflexivity|]. split; [exact Hops|]. split; [exact Hmemo|].
    exists pk, account, fee. split; [exists w1, w2, s3; auto|].
    split; [exact Hline|]. apply Qltb_false_le. exact Hq. }
  destruct (Hem r s' Hrun) as (d & Hl & Hd).
  exists d. split; [exact Hl|]. intros t tx Hin.
  exact (requests_satisfy_In R d Hd t tx Hin).
Qed.

Lemma add_trustline_signs_only_a_missing_line_with_reserve_witness :
  let run :=
    TradeServices.perform_add_trustline (Scripted.context "GFEE" None) (Some 7)
      "USDC" some_issuer (Scripted.start poor_buyer_world) in
  exists d,
    log (snd run) = d
    /\ forall t tx,
         In (EvSign t tx) d ->
         t = Some 7
         /\ tx_operations tx = [ChangeTrust (Credit "USDC" some_issuer) (inject_Z 1000000000)]
         /\ tx_memo tx = Some "Add Trust USDC"
         /\ exists public_key account recommended_fee,
              has_read (Scripted.context "GFEE" None) (Scripted.start poor_buyer_world)
                (Some 7) public_key account recommended_fee
              /\ Stellar.has_trustline_indexed (Credit "USDC" some_issuer) (balances account)
                 = Ok false
              /\ (TradeServices.fee_in_lumens recommended_fee + (1 # 2)
                  <= TradeServices.calculate_available_xlm account)%Q.
Proof.
  intros run.
  apply (add_trustline_signs_only_a_missing_line_with_reserve (Scripted.context "GFEE" None)
           (Some 7) "USDC" some_issuer (Scripted.start poor_buyer_world) (snd run) (fst run)).
  vm_compute. reflexivity.
Defined.

(** X8. Whatever [perform_remove_trustline] sends for signature is the
    user's own request of one [ChangeTrust] of the asset with limit 0 and
    memo "Remove Trust <code>", and it is sent only when the account read
    has the trust line, holds nothing of the asset, and its available
    lumens cover the recommended fee. *)
Theorem remove_trustline_signs_only_an_empty_line
    {W : Type} (app_context : AppContext W) (telegram_id : user_id)
    (asset_code asset_issuer : string) (s s' : State W) (r : result Response) :
  TradeServices.perform_remove_trustline app_context telegram_id asset_code asset_issuer s
  = (r, s') ->
  exists d,
    log s' = (log s ++ d)%list
    /\ forall t tx,
         In (EvSign t tx) d ->
         t = telegram_id
         /\ tx_operations tx = [ChangeTrust (Credit asset_code asset_issuer) 0]
         /\ tx_memo tx = Some ("Remove Trust " ++ asset_code)
         /\ exists public_key account recommended_fee,
              has_read app_context s telegram_id public_key account recommended_fee
              /\ Stellar.has_trustline_indexed (Credit asset_code asset_issuer) (balances account)
                 = Ok true
              /\ (TradeServices.asset_balance account asset_code asset_issuer <= 0)%Q
              /\ (TradeServices.fee_in_lumens recommended_fee
                  <= TradeServices.calculate_available_xlm account)%Q.
Proof.
  intros Hrun.
  set (R := fun (t : user_id) (tx : Transaction) =>
              t = telegram_id
              /\ tx_operations tx = [ChangeTrust (Credit asset_code asset_issuer) 0]
              /\ tx_memo tx = Some ("Remove Trust " ++ asset_code)
              /\ exists public_key account recommended_fee,
                   has_read app_context s telegram_id public_key account recommended_fee
                   /\ Stellar.has_trustline_indexed (Credit asset_code asset_issuer) (balances account)
                 = Ok true
                   /\ (TradeServices.asset_balance account asset_code asset_issuer <= 0)%Q
                   /\ (TradeServices.fee_in_lumens recommended_fee
                       <= TradeServices.calculate_available_xlm account)%Q).
  assert (Hem : emits_at (requests_satisfy R)
                  (TradeServices.perform_remove_trustline app_context telegram_id asset_code
                     asset_issuer) s).
  { unfold TradeServices.perform_remove_trustline. cbv zeta.
    apply emits_at_after_loading; try (intros; exact I).
    intros pk account w1 w2 Hpk Hacc.
    apply emits_at_bind; [apply emits_at_lift|].
    intros line s0 Hline. apply lift_ok in Hline. destruct Hline as [Hline ->].
    destruct line; [|apply emits_at_raise].
    cbn [negb].
    destruct (Qltb 0 (TradeServices.asset_balance account asset_code asset_issuer)) eqn:Hbal;
      [apply emits_at_raise|].
    apply emits_at_bind; [apply emits_at_get_recommended_fee; not_a_request|].
    intros fee s3 Hfee.
    destruct (Qltb (TradeServices.calculate_available_xlm account)
                (TradeServices.fee_in_lumens fee)) eqn:Hq;
      [apply emits_at_raise|].
    apply emits_submit_and_confirm; [apply requests_other|].
    intros tx (Hops & Hmemo & _). simpl. unfold R.
    split; [reflexivity|]. split; [exact Hops|]. split; [exact Hmemo|].
    exists pk, account, fee. split; [exists w1, w2, s3; auto|].
    split; [exact Hline|]. split; apply Qltb_false_le; assumption. }
  destruct (Hem r s' Hrun) as (d & Hl & Hd).
  exists d. split; [exact Hl|]. intros t tx Hin.
  exact (requests_satisfy_In R d Hd t tx Hin).
Qed.

Lemma remove_trustline_signs_only_an_empty_line_witness :
  let run :=
    TradeServices.perform_remove_trustline (Scripted.context "GFEE" None) (Some 7)
      "USDC" some_issuer (Scripted.start (usdc_world 0)) in
  exists d,
    log (snd run) = d
    /\ forall t tx,
         In (EvSign t tx) d ->
         t = Some 7
         /\ tx_operations tx = [ChangeTrust (Credit "USDC" some_issuer) 0]
         /\ tx_memo tx = Some "Remove Trust USDC"
         /\ exists public_key account recommended_fee,
              has_read (Scripted.context "GFEE" None) (Scripted.start (usdc_world 0))
                (Some 7) public_key account recommended_fee
              /\ Stellar.has_trustline_indexed (Credit "USDC" some_issuer) (balances account)
                 = Ok true
              /\ (TradeServices.asset_balance account "USDC" some_issuer <= 0)%Q
              /\ (TradeServices.fee_in_lumens recommended_fee
                  <= TradeServices.calculate_available_xlm account)%Q.
Proof.
  intros run.
  apply (remove_trustline_signs_only_an_empty_line (Scripted.context "GFEE" None)
           (Some 7) "USDC" some_issuer (Scripted.start (usdc_world 0)) (snd run) (fst run)).
  vm_compute. reflexivity.
Defined.

(** X9. Whatever [perform_withdraw] sends for signature is the user's own
    request of one payment of the amount (rounded to 7 decimals) to a valid
    destination with memo "Withdrawal", and it is sent only when the account
    read can afford it: for lumens the amount is at most the balance less
    the minimum reserve and the fee; for another asset it is at most the
    balance held and the available lumens cover the fee. *)
Theorem withdraw_signs_only_within_the_limits
    {W : Type} (app_context : AppContext W) (valid_public_key : string -> bool)
    (telegram_id : user_id) (asset : Asset) (amount : Q) (destination : string)
    (s s' : State W) (r : result Response) :
  TradeServices.perform_withdraw app_context valid_public_key telegram_id asset amount
    destination s = (r, s') ->
  exists d,
    log s' = (log s ++ d)%list
    /\ forall t tx,
         In (EvSign t tx) d ->
         t = telegram_id
         /\ tx_operations tx = [Payment destination asset (round7 amount)]
         /\ tx_memo tx = Some "Withdrawal"
         /\ valid_public_key destination = true
         /\ exists public_key account recommended_fee,
              has_read app_context s telegram_id public_key account recommended_fee
              /\ match asset with
                 | Native =>
                     (amount <= TradeServices.native_field balance account
                                - TradeServices.minimum_reserve account
                                - TradeServices.fee_in_lumens recommended_fee)%Q
                 | Credit code issuer =>
                     exists held,
                       TradeServices.indexed_asset_balance code issuer (balances account)
                       = Ok held
                       /\ (amount <= held)%Q
                       /\ (TradeServices.fee_in_lumens recommended_fee
                           <= TradeServices.calculate_available_xlm account)%Q
                 end.
Proof.
  intros Hrun.
  set (R := fun (t : user_id) (tx : Transaction) =>
              t = telegram_id
              /\ tx_operations tx = [Payment destination asset (round7 amount)]
              /\ tx_memo tx = Some "Withdrawal"
              /\ valid_public_key destination = true
              /\ exists public_key account recommended_fee,
                   has_read app_context s telegram_id public_key account recommended_fee
                   /\ match asset with
                      | Native =>
                          (amount <= TradeServices.native_field balance account
                                     - TradeServices.minimum_reserve account
                                     - TradeServices.fee_in_lumens recommended_fee)%Q
                      | Credit code issuer =>
                          exists held,
                            TradeServices.indexed_asset_balance code issuer (balances account)
                            = Ok held
                            /\ (amount <= held)%Q
                            /\ (TradeServices.fee_in_lumens recommended_fee
                                <= TradeServices.calculate_available_xlm account)%Q
                      end).
  assert (Hem : emits_at (requests_satisfy R)
                  (TradeServices.perform_withdraw app_context valid_public_key telegram_id
                     asset amount destination) s).
  { unfold TradeServices.perform_withdraw.
    apply emits_at_after_loading; try (intros; exact I).
    intros pk account w1 w2 Hpk Hacc.
    apply emits_at_if; intros Hvalid; [apply emits_at_raise|].
    apply negb_false_iff in Hvalid.
    apply emits_at_bind; [apply emits_at_get_recommended_fee; not_a_request|].
    intros fee s3 Hfee. cbv zeta.
    apply emits_at_bind; [apply emits_withdraw_checks|].
    intros [] s4 Hchecks.
    apply emits_submit_and_confirm; [apply requests_other|].
    intros tx (Hops & Hmemo & _). simpl. unfold R.
    split; [reflexivity|]. split; [exact Hops|]. split; [exact Hmemo|].
    split; [exact Hvalid|].
    exists pk, account, fee. split; [exists w1, w2, s3; auto|].
    exact (withdraw_checks_pass asset amount
             (TradeServices.fee_in_lumens fee) account s3 s4 Hchecks). }
  destruct (Hem r s' Hrun) as (d & Hl & Hd).
  exists d. split; [exact Hl|]. intros t tx Hin.
  exact (requests_satisfy_In R d Hd t tx Hin).
Qed.

Lemma withdraw_signs_only_within_the_limits_witness :
  let run :=
    TradeServices.perform_withdraw (Scripted.context "GFEE" None) looks_valid (Some 7)
      (Credit "USDC" some_issuer) 5 some_issuer (Scripted.start (usdc_world 20)) in
  exists d,
    log (snd run) = d
    /\ forall t tx,
         In (EvSign t tx) d ->
         t = Some 7
         /\ tx_operations tx = [Payment some_issuer (Credit "USDC" some_issuer) (round7 5)]
         /\ tx_memo tx = Some "Withdrawal"
         /\ looks_valid some_issuer = true
         /\ exists public_key account recommended_fee,
              has_read (Scripted.context "GFEE" None) (Scripted.start (usdc_world 20))
                (Some 7) public_key account recommended_fee
              /\ exists held,
                   TradeServices.indexed_asset_balance "USDC" some_issuer (balances account)
                   = Ok held
                   /\ (5 <= held)%Q
                   /\ (TradeServices.fee_in_lumens recommended_fee
                       <= TradeServices.calculate_available_xlm account)%Q.
Proof.
  intros run.
  apply (withdraw_signs_only_within_the_limits (Scripted.context "GFEE" None) looks_valid
           (Some 7) (Credit "USDC" some_issuer) 5 some_issuer
           (Scripted.start (usdc_world 20)) (snd run) (fst run)).
  vm_compute. reflexivity.
Defined.

(** ** Withdrawing an asset that is not held *)

Lemma indexed_asset_balance_missing (code issuer : string) (balances : list Balance) :
  Forall (fun b => asset_code b <> Some code) balances ->
  Exists (fun b => asset_code b = None) balances ->
  TradeServices.indexed_asset_balance code issuer balances
  = Raise (mk_exn KeyError "'asset_code'").
Proof.
  induction balances as [|b rest IH]; intros Hall Hex.
  - inversion Hex.
  - inversion Hall as [|? ? Hb Hrest]; subst. simpl.
    destruct (asset_code b) as [c|] eqn:Hc; [|reflexivity].
    assert (Hne : String.eqb c code = false).
    { apply String.eqb_neq. intros ->. apply Hb. reflexivity. }
    rewrite Hne. apply IH; [exact Hrest|].
    inversion Hex as [? ? Hhere|? ? Hthere]; subst; [congruence | exact Hthere].
Qed.

(** X10. The withdrawal of an asset under whose code the account has no
    entry, from an account that has an entry without a code (as the entry of
    the lumens is), ends with [KeyError: 'asset_code'] rather than with the
    message of an insufficient balance; nothing is signed or submitted. *)
Theorem withdraw_of_an_asset_not_held_raises_key_error
    {W : Type} (app_context : AppContext W) (valid_public_key : string -> bool)
    (telegram_id : user_id) (code issuer : string) (amount : Q) (destination : string)
    (s : State W) (public_key : string) (account : Account) (w1 w2 : W) :
  load_public_key app_context telegram_id (world s) = (Ok public_key, w1) ->
  accounts_call app_context public_key w1 = (Ok account, w2) ->
  valid_public_key destination = true ->
  Forall (fun b => asset_code b <> Some code) (balances account) ->
  Exists (fun b => asset_code b = None) (balances account) ->
  exists s',
    TradeServices.perform_withdraw app_context valid_public_key telegram_id
      (Credit code issuer) amount destination s
    = (Raise (mk_exn KeyError "'asset_code'"), s')
    /\ submissions (log s') = submissions (log s).
Proof.
  intros Hpk Hacc Hvalid Hall Hex.
  destruct (get_recommended_fee_total app_context (loaded s telegram_id public_key w2))
    as (fee & s3 & Hfee).
  exists s3. split.
  - unfold TradeServices.perform_withdraw, Stellar.load_account_async.
    rewrite bind_call, Hpk, bind_call. cbn [world log]. rewrite Hacc, Hvalid. cbn [negb].
    fold (loaded s telegram_id public_key w2).
    rewrite (bind_run _ _ _ _ _ Hfee). cbv zeta.
    unfold TradeServices.withdraw_checks.
    rewrite (indexed_asset_balance_missing code issuer _ Hall Hex).
    reflexivity.
  - rewrite (quiet_get_recommended_fee app_context _ _ _ Hfee).
    unfold loaded. cbn [log]. unfold submissions. rewrite !filter_app. simpl.
    rewrite !app_nil_r. reflexivity.
Qed.

Lemma withdraw_of_an_asset_not_held_raises_key_error_witness :
  exists s',
    TradeServices.perform_withdraw (Scripted.context "GFEE" None) looks_valid (Some 7)
      (Credit "EURC" some_issuer) 5 some_issuer (Scripted.start (usdc_world 20))
    = (Raise (mk_exn KeyError "'asset_code'"), s')
    /\ submissions (log s') = submissions (log (Scripted.start (usdc_world 20))).
Proof.
  apply (withdraw_of_an_asset_not_held_raises_key_error (Scripted.context "GFEE" None)
           looks_valid (Some 7) "EURC" some_issuer 5 some_issuer
           (Scripted.start (usdc_world 20)) "GUSER" (usdc_account 20)
           (usdc_world 20) (usdc_world 20)).
  - reflexivity.
  - reflexivity.
  - reflexivity.
  - repeat constructor; discriminate.
  - right. left. reflexivity.
Defined.

(** ** Selling *)

Section Sell.
Context {W : Type} (app_context : AppContext W) (P : Event -> Prop).
Hypothesis reads : forall ev, is_read ev = true -> P ev.

Lemma emits_hops_ok (depth_ok : OrderBook -> bool) (path_assets : list Asset) :
  emits P (TradeServices.hops_ok app_context depth_ok path_assets).
Proof.
  induction path_assets as [|a [|b rest] IH]; try apply emits_ret.
  change (TradeServices.hops_ok app_context depth_ok (a :: b :: rest))
    with (order_book <- call (EvQuery "order_book") (orderbook_call app_context a b) ;;
          if depth_ok order_book
          then TradeServices.hops_ok app_context depth_ok (b :: rest)
          else ret false).
  apply emits_bind; [apply emits_call, reads; reflexivity|].
  intros order_book. apply emits_if; [exact IH | apply emits_ret].
Qed.

Lemma emits_select_path (depth_ok : OrderBook -> bool) (first last : Asset)
    (paths : list PathRecord) :
  emits P (TradeServices.select_path
             (TradeServices.liquidity_ok app_context depth_ok first last) paths).
Proof.
  induction paths as [|p rest IH]; simpl; [apply emits_ret|].
  apply emits_bind.
  - unfold TradeServices.liquidity_ok. destruct (path p); [apply emits_ret|].
    apply emits_hops_ok.
  - intros ok. apply emits_if; [apply emits_ret | exact IH].
Qed.

Lemma emits_select_sell_path (asset : Asset) (send_amount : Q) (paths : list PathRecord) :
  emits P (TradeServices.select_sell_path app_context asset send_amount paths).
Proof.
  unfold TradeServices.select_sell_path. destruct paths as [|p rest]; [apply emits_raise|].
  apply emits_bind; [apply emits_select_path|].
  intros [selected|]; [apply emits_ret | apply emits_raise].
Qed.

End Sell.

Lemma positive_sale (amount held : Q) :
  Qle_bool (if Qltb 0 held then pymin amount held else 0%Q) 0 = false ->
  (0 < held)%Q /\ (0 < amount)%Q.
Proof.
  destruct (Qltb 0 held) eqn:Hheld; [|intros H; discriminate H].
  apply Qltb_lt in Hheld. intros H. split; [exact Hheld|].
  unfold pymin in H. destruct (Qle_bool amount held) eqn:Hle.
  - destruct (Qlt_le_dec 0 amount) as [Hpos|Hneg]; [exact Hpos|].
    apply Qle_bool_iff in Hneg. congruence.
  - destruct (Qlt_le_dec held amount) as [Hlt|Hge].
    + eapply Qlt_trans; eassumption.
    + apply Qle_bool_iff in Hge. congruence.
Qed.

(** X11. Whatever [perform_sell] sends for signature is the user's own
    request with memo "Sell <code>" of a strict-send path payment to the
    user's own account followed by the payment of the service fee, sent
    only when the amount asked and the balance held are positive; it sends
    the smaller of the two (rounded to 7 decimals), never more than is held,
    for at least one stroop of lumens. *)
Theorem sell_sends_no_more_than_the_balance_held
    {W : Type} (app_context : AppContext W) (telegram_id : user_id)
    (asset_code asset_issuer : string) (amount : Q) (s s' : State W)
    (r : result (Response * Q * Q)) :
  TradeServices.perform_sell app_context telegram_id asset_code asset_issuer amount s
  = (r, s') ->
  exists d,
    log s' = (log s ++ d)%list
    /\ forall t tx,
         In (EvSign t tx) d ->
         t = telegram_id
         /\ tx_memo tx = Some ("Sell " ++ asset_code)
         /\ exists public_key account w1 w2 dest_min route fee,
              load_public_key app_context telegram_id (world s) = (Ok public_key, w1)
              /\ accounts_call app_context public_key w1 = (Ok account, w2)
              /\ (0 < TradeServices.asset_balance account asset_code asset_issuer)%Q
              /\ (0 < amount)%Q
              /\ (stroop <= dest_min)%Q
              /\ tx_operations tx
                 = [ PathPaymentStrictSend public_key (Credit asset_code asset_issuer)
                       (round7 (pymin amount
                                  (TradeServices.asset_balance account asset_code
                                     asset_issuer)))
                       Native dest_min route;
                     Payment (fee_wallet app_context) Native fee ].
Proof.
  intros Hrun.
  set (R := fun (t : user_id) (tx : Transaction) =>
         t = telegram_id
         /\ tx_memo tx = Some ("Sell " ++ asset_code)
         /\ exists public_key account w1 w2 dest_min route fee,
              load_public_key app_context telegram_id (world s) = (Ok public_key, w1)
              /\ accounts_call app_context public_key w1 = (Ok account, w2)
              /\ (0 < TradeServices.asset_balance account asset_code asset_issuer)%Q
              /\ (0 < amount)%Q
              /\ (stroop <= dest_min)%Q
              /\ tx_operations tx
                 = [ PathPaymentStrictSend public_key (Credit asset_code asset_issuer)
                       (round7 (pymin amount
                                  (TradeServices.asset_balance account asset_code
                                     asset_issuer)))
                       Native dest_min route;
                     Payment (fee_wallet app_context) Native fee ]).
  assert (Hreads : forall ev, is_read ev = true -> requests_satisfy R ev)
    by not_a_request.
  assert (Hem : emits_at (requests_satisfy R)
                  (TradeServices.perform_sell app_context telegram_id asset_code
                     asset_issuer amount) s).
  { unfold TradeServices.perform_sell.
    apply emits_at_if; intros Hissuer; [apply emits_at_raise|]. cbv zeta.
    apply emits_at_after_loading; try (intros; exact I).
    intros pk account w1 w2 Hpk Hacc.
    apply emits_at_if; intros Hsend; [apply emits_at_raise|].
    destruct (positive_sale _ _ Hsend) as [Hheld Hamount].
    assert (Hq : Qltb 0 (TradeServices.asset_balance account asset_code asset_issuer) = true)
      by (apply Qltb_lt; exact Hheld).
    rewrite Hq.
    apply emits_bind.
    { apply emits_calculate_fee_and_check_balance; [exact Hreads | exact I]. }
    intros fee. apply emits_bind; [apply emits_call; exact I|].
    intros paths. apply emits_bind; [apply emits_select_sell_path; exact Hreads|].
    intros selected_path. unfold TradeServices.sell_selected. cbv zeta.
    apply emits_bind; [apply emits_get_recommended_fee; exact Hreads|].
    intros base_fee. apply emits_try; [|intros; apply emits_raise].
    unfold TradeServices.sell_strict_send.
    apply (emits_submit_and_confirm app_context (requests_satisfy R) telegram_id _ _ _
             (fun x => (fst x,
                        match effect_amount (fst x) with
                        | Some a => a
                        | None => destination_amount selected_path
                        end,
                        pymin amount
                          (TradeServices.asset_balance account asset_code asset_issuer))));
      [apply requests_other|].
    intros tx (Hops & Hmemo & _). simpl. unfold R.
    split; [reflexivity|]. split; [exact Hmemo|].
    exists pk, account, w1, w2,
      (TradeServices.sell_dest_min (TradeServices.context_slippage app_context)
         selected_path),
      (path selected_path), fee.
    split; [exact Hpk|]. split; [exact Hacc|]. split; [exact Hheld|].
    split; [exact Hamount|]. split; [apply pymax_lower | exact Hops]. }
  destruct (Hem r s' Hrun) as (d & Hl & Hd).
  exists d. split; [exact Hl|]. intros t tx Hin.
  exact (requests_satisfy_In R d Hd t tx Hin).
Qed.

Lemma sell_sends_no_more_than_the_balance_held_witness :
  let ctx := Scripted.context "GFEE" None in
  let run :=
    TradeServices.perform_sell ctx (Some 7) "USDC" some_issuer 50
      (Scripted.start (usdc_world 20)) in
  exists d,
    log (snd run) = d
    /\ forall t tx,
         In (EvSign t tx) d ->
         t = Some 7
         /\ tx_memo tx = Some "Sell USDC"
         /\ exists public_key account w1 w2 dest_min route fee,
              load_public_key ctx (Some 7) (usdc_world 20) = (Ok public_key, w1)
              /\ accounts_call ctx public_key w1 = (Ok account, w2)
              /\ (0 < TradeServices.asset_balance account "USDC" some_issuer)%Q
              /\ (0 < 50)%Q
              /\ (stroop <= dest_min)%Q
              /\ tx_operations tx
                 = [ PathPaymentStrictSend public_key (Credit "USDC" some_issuer)
                       (round7 (pymin 50
                                  (TradeServices.asset_balance account "USDC" some_issuer)))
                       Native dest_min route;
                     Payment "GFEE" Native fee ].
Proof.
  intros ctx run.
  apply (sell_sends_no_more_than_the_balance_held ctx (Some 7) "USDC" some_issuer 50
           (Scripted.start (usdc_world 20)) (snd run) (fst run)).
  vm_compute. reflexivity.
Defined.

(** ** Replication: what is copied *)

Section Uncopied.
Context {W : Type} (app_context : AppContext W).
Variables (wallet : string) (tx : ObservedTx) (chat_id : Z) (telegram_id : user_id).

Lemma emits_uncopied_operation (op : OpRecord) :
  operation_source tx op <> wallet \/ copied_kind op = false ->
  emits silent (CopyTrading.process_operation app_context wallet tx chat_id telegram_id op).
Proof.
  intros Hop. unfold CopyTrading.process_operation. cbv zeta.
  fold (operation_source tx op).
  destruct (String.eqb (operation_source tx op) wallet) eqn:Hsrc; [|apply emits_ret].
  cbn [negb].
  destruct Hop as [Hforeign|Hkind].
  { apply String.eqb_eq in Hsrc. contradiction. }
  unfold copied_kind in Hkind. apply orb_false_iff in Hkind. destruct Hkind as [Hk1 Hk2].
  apply emits_bind; [apply emits_call; exact I|]. intros public_key.
  apply emits_bind; [apply emits_call; exact I|]. intros account_dict.
  apply emits_bind; [apply emits_call; exact I|]. intros [cfg|]; [|apply emits_ret].
  rewrite Hk1, Hk2. apply emits_ret.
Qed.

Lemma emits_uncopied_operations (operations : list OpRecord) :
  Forall (fun op => operation_source tx op <> wallet \/ copied_kind op = false) operations ->
  emits silent
    (CopyTrading.process_operations app_context wallet tx chat_id telegram_id operations).
Proof.
  induction 1 as [|op rest Hop Hrest IH]; simpl; [apply emits_ret|].
  apply emits_bind; [apply emits_uncopied_operation; exact Hop|].
  intros [|]; [exact IH | apply emits_ret].
Qed.

End Uncopied.

(** X12. When no operation of the observed transaction is a path payment of
    the followed wallet (each has another source account, or another type),
    [process_trade_signal] signs nothing, submits nothing and sends no
    message. *)
Theorem replication_copies_only_path_payments_of_the_followed_wallet
    {W : Type} (app_context : AppContext W) (wallet : string) (tx : ObservedTx)
    (chat_id : Z) (telegram_id : user_id) (s s' : State W) (r : result unit) :
  (forall operations w,
      operations_for_transaction app_context (otx_hash tx) (world s) = (Ok operations, w) ->
      Forall (fun op => operation_source tx op <> wallet \/ copied_kind op = false)
        operations) ->
  CopyTrading.process_trade_signal app_context wallet tx chat_id telegram_id s = (r, s') ->
  exists d, log s' = (log s ++ d)%list /\ Forall silent d.
Proof.
  intros Hops Hrun.
  assert (Hem : emits_at silent
                  (CopyTrading.process_trade_signal app_context wallet tx chat_id
                     telegram_id) s).
  { unfold CopyTrading.process_trade_signal.
    destruct (otx_successful tx) as [[|]|]; try apply emits_at_ret.
    apply emits_at_bind; [apply emits_at_call; exact I|].
    intros operations s1 Hcall. apply call_ok in Hcall. destruct Hcall as [Hcall _].
    apply emits_uncopied_operations. exact (Hops operations (world s1) Hcall). }
  exact (Hem r s' Hrun).
Qed.

Lemma replication_copies_only_path_payments_of_the_followed_wallet_witness :
  let run :=
    CopyTrading.process_trade_signal (Scripted.context "GFEE" None) "GCOUNTERPART"
      observed_tx 1 (Some 7) (Scripted.start uncopied_world) in
  exists d, log (snd run) = d /\ Forall silent d.
Proof.
  intros run.
  apply (replication_copies_only_path_payments_of_the_followed_wallet
           (Scripted.context "GFEE" None) "GCOUNTERPART" observed_tx 1 (Some 7)
           (Scripted.start uncopied_world) (snd run) (fst run)).
  - intros operations w H. inversion H; subst. unfold uncopied_operations.
    apply Forall_cons; [left; intros E; vm_compute in E; discriminate E|].
    apply Forall_cons; [right; reflexivity | apply Forall_nil].
  - vm_compute. reflexivity.
Defined.

(** ** Replication: the balance of the asset to spend *)

Lemma spend_balance_of_other_types (account_dict : Account) (code issuer : string) :
  Forall (fun b => asset_type b = "credit_alphanum4" ->
                   exists c i, asset_code b = Some c /\ asset_issuer b = Some i
                               /\ (c <> code \/ i <> issuer)) (balances account_dict) ->
  CopyTrading.spend_balance account_dict (Credit code issuer) = 0%Q.
Proof.
  intros Hall. unfold CopyTrading.spend_balance.
  destruct (find _ (balances account_dict)) as [b|] eqn:Hfind; [|reflexivity].
  exfalso. apply find_some in Hfind. destruct Hfind as [Hin Hb].
  rewrite Forall_forall in Hall. specialize (Hall b Hin).
  apply andb_true_iff in Hb. destruct Hb as [Htype Hmatch].
  apply String.eqb_eq in Htype.
  destruct (Hall Htype) as (c & i & Hc & Hi & Hother).
  rewrite Hc, Hi in Hmatch.
  apply andb_true_iff in Hmatch. destruct Hmatch as [Hc' Hi'].
  apply String.eqb_eq in Hc', Hi'. destruct Hother; contradiction.
Qed.

(** X13. The replication reads the balance to spend from the entries of type
    credit_alphanum4 only: when every such entry of the follower names
    another asset (so a holding of the asset under a 12-character code is
    typed credit_alphanum12), the balance read is 0 and the copy of a
    strict-send payment of a positive amount ends with "No <code> available
    to trade", before any fee check or submission. *)
Theorem replication_sees_no_balance_of_assets_with_long_codes
    {W : Type} (app_context : AppContext W) (wallet : string) (chat_id : Z)
    (telegram_id : user_id) (cfg : CopyConfig) (op : OpRecord) (account_dict : Account)
    (code issuer : string) (s : State W) :
  op_source_asset op = Credit code issuer ->
  Forall (fun b => asset_type b = "credit_alphanum4" ->
                   exists c i, asset_code b = Some c /\ asset_issuer b = Some i
                               /\ (c <> code \/ i <> issuer)) (balances account_dict) ->
  (0 < wanted_send_amount cfg op)%Q ->
  CopyTrading.spend_balance account_dict (Credit code issuer) = 0%Q
  /\ CopyTrading.copy_strict_send app_context wallet chat_id telegram_id cfg op
       account_dict s
     = (Raise (mk_exn ValueError ("No " ++ code ++ " available to trade")), s).
Proof.
  intros Hasset Hall Hwanted.
  pose proof (spend_balance_of_other_types account_dict code issuer Hall) as Hzero.
  split; [exact Hzero|].
  unfold CopyTrading.copy_strict_send. cbv zeta. rewrite Hasset, Hzero.
  unfold CopyTrading.strict_send_amounts. cbv zeta.
  fold (wanted_send_amount cfg op).
  assert (Hlt : Qltb 0 (wanted_send_amount cfg op) = true) by (apply Qltb_lt; exact Hwanted).
  rewrite Hlt.
  assert (Hle : Qle_bool (round7 0) 0 = true) by reflexivity.
  rewrite Hle, Hasset. reflexivity.
Qed.

Lemma replication_sees_no_balance_of_assets_with_long_codes_witness :
  CopyTrading.spend_balance long_code_holder (Credit "yUSDC" some_issuer) = 0%Q
  /\ CopyTrading.copy_strict_send (Scripted.context "GFEE" None) "GCOUNTERPART" 1 (Some 7)
       scenario_cfg long_code_op long_code_holder (Scripted.start Scripted.world0)
     = (Raise (mk_exn ValueError "No yUSDC available to trade"),
        Scripted.start Scripted.world0).
Proof.
  apply (replication_sees_no_balance_of_assets_with_long_codes
           (Scripted.context "GFEE" None) "GCOUNTERPART" 1 (Some 7) scenario_cfg
           long_code_op long_code_holder "yUSDC" some_issuer
           (Scripted.start Scripted.world0)).
  - reflexivity.
  - repeat constructor; intros E; discriminate E.
  - vm_compute. reflexivity.
Defined.

(** ** Replication: the floor of the bound *)

(** X14. The minimum to receive of a copied strict-send payment is never
    below three quarters of the rescaled target (rounded to 7 decimals),
    and for a non-negative target and a slippage of a quarter or more it is
    exactly that: the slippage setting has no effect beyond 25%. *)
Theorem replicated_bound_floored_at_three_quarters
    (scaled_dest_min send_amount_final original_send_amount slippage : Q) :
  ~ (original_send_amount == 0)%Q ->
  (0 <= scaled_dest_min * (send_amount_final / original_send_amount))%Q ->
  exists dest_min_final,
    CopyTrading.strict_send_dest_min scaled_dest_min send_amount_final original_send_amount
      slippage = Ok dest_min_final
    /\ (round7 (scaled_dest_min * (send_amount_final / original_send_amount) * (75 # 100))
        <= dest_min_final)%Q
    /\ ((1 # 4 <= slippage)%Q ->
        (dest_min_final
         == round7 (scaled_dest_min * (send_amount_final / original_send_amount)
                    * (75 # 100)))%Q).
Proof.
  intros Hnz Hpos. unfold CopyTrading.strict_send_dest_min.
  rewrite (truediv_nonzero _ _ Hnz).
  set (x := (scaled_dest_min * (send_amount_final / original_send_amount))%Q) in *.
  eexists. split; [reflexivity|]. split; [apply pymax_lower|].
  intros Hslip. rewrite pymax_spec. apply Q.max_r.
  apply round7_mono.
  assert (H : (x * (1 - slippage) <= x * (75 # 100))%Q).
  { setoid_replace (x * (75 # 100))%Q with (x * (1 - (1 # 4)))%Q by ring.
    assert (H1 : (1 - slippage <= 1 - (1 # 4))%Q) by lra.
    rewrite (Qmult_comm x (1 - slippage)), (Qmult_comm x (1 - (1 # 4))).
    apply Qmult_le_compat_r; assumption. }
  exact H.
Qed.

Lemma replicated_bound_floored_at_three_quarters_witness :
  exists dest_min_final,
    CopyTrading.strict_send_dest_min 50 40 100 (1 # 2) = Ok dest_min_final
    /\ (round7 (50 * (40 / 100) * (75 # 100)) <= dest_min_final)%Q
    /\ ((1 # 4 <= 1 # 2)%Q ->
        (dest_min_final == round7 (50 * (40 / 100) * (75 # 100)))%Q).
Proof.
  apply (replicated_bound_floored_at_three_quarters 50 40 100 (1 # 2)).
  - vm_compute. discriminate.
  - vm_compute. discriminate.
Defined.

(** ** The recommended fee *)





Lemma not_a_post_filter (d : list Event) : Forall not_a_post d -> filter is_post d = [].
Proof.
  induction 1 as [|ev d Hev Hd IH]; [reflexivity|].
  destruct ev; simpl in *; try contradiction; exact IH.
Qed.

Section Accepted.
Context {W : Type} (app_context : AppContext W).

(** A submission whose key, account, signature and post all succeed: the
    outcome depends on [tx_status] alone. *)
Lemma build_and_submit_answered (telegram_id : user_id) (operations : list Operation)
    (memo : option string) (s : State W) (public_key : string) (account : Account)
    (w1 w2 : W) (recommended_fee : Z) (s3 : State W) (signed : string) (w4 : W)
    (response : Response) (w5 : W) (status : string) :
  load_public_key app_context telegram_id (world s) = (Ok public_key, w1) ->
  accounts_call app_context public_key w1 = (Ok account, w2) ->
  Stellar.get_recommended_fee app_context (loaded s telegram_id public_key w2)
  = (Ok recommended_fee, s3) ->
  sign_transaction app_context telegram_id
    (envelope public_key account
       (Z.max recommended_fee (200 * Z.of_nat (List.length operations)))
       (time_time app_context (world s3)) operations memo) (world s3)
  = (Ok signed, w4) ->
  post app_context signed w4 = (Ok response, w5) ->
  tx_status response = Some status ->
  String.eqb status "ERROR" = false ->
  exists s5,
    Stellar.build_and_submit_transaction app_context telegram_id operations memo None s
    = (Ok (response, signed), s5)
    /\ filter is_post (log s5) = (filter is_post (log s) ++ [EvPost signed])%list.
Proof.
  intros Hpk Hacc Hfee Hsign Hpost Hstatus Hne.
  eexists. split.
  - unfold Stellar.build_and_submit_transaction, Stellar.load_account_async.
    rewrite bind_call, Hpk, bind_call. cbn [world log]. rewrite Hacc.
    fold (loaded s telegram_id public_key w2).
    unfold bind at 1. unfold bind at 1. rewrite Hfee. unfold ret at 1.
    unfold bind at 1. cbv zeta.
    fold (envelope public_key account
            (Z.max recommended_fee (200 * Z.of_nat (List.length operations)))
            (time_time app_context (world s3)) operations memo).
    rewrite bind_call, Hsign, bind_call. cbn [world log]. rewrite Hpost, Hstatus, Hne.
    reflexivity.
  - cbn [log]. rewrite !filter_app. simpl.
    destruct (emits_get_recommended_fee app_context not_a_post
                ltac:(intros [] H; try discriminate H; exact I) _ _ _ Hfee)
      as (d & Hl & Hd).
    rewrite Hl, filter_app, (not_a_post_filter d Hd). unfold loaded. cbn [log].
    rewrite !filter_app. simpl. rewrite !app_nil_r. reflexivity.
Qed.

Lemma after_acceptance_no_post (confirm_mode : bool) (tx_hash : option string)
    (submit_sleep_seconds : Q) {A : Type} (a : A) (s : State W) :
  exists s',
    (Payouts.confirm_check app_context confirm_mode tx_hash ;;;
     Stellar.asyncio_sleep app_context submit_sleep_seconds ;;;
     ret a) s = (Ok a, s')
    /\ filter is_post (log s') = filter is_post (log s).
Proof.
  destruct (confirm_check_never_raises app_context confirm_mode tx_hash s)
    as ([] & s1 & Hcheck).
  eexists. split.
  - rewrite (bind_run _ _ _ _ _ Hcheck). reflexivity.
  - cbn [log]. rewrite filter_app. simpl. rewrite app_nil_r.
    destruct (emits_confirm_check app_context confirm_mode not_a_post
                ltac:(intros; exact I) ltac:(intros; exact I) tx_hash _ _ _ Hcheck)
      as (d & Hl & Hd).
    rewrite Hl, filter_app, (not_a_post_filter d Hd). apply app_nil_r.
Qed.

End Accepted.

(** X5. A chunk whose submission is answered with any [tx_status] other than
    ERROR (TRY_AGAIN_LATER for one) counts as submitted: it is posted once
    and not retried, however many retries are left, and every item of the
    chunk is recorded with that answer. *)
Theorem payout_answer_other_than_error_is_not_retried
    {W : Type} (app_context : AppContext W) (chunk : list Payouts.PayoutItem)
    (ops : list Operation) (memo_text : option string) (confirm_mode : bool)
    (submit_sleep_seconds retry_backoff_seconds : Q) (retries_left : nat) (attempt : Z)
    (s : State W) (public_key : string) (account : Account) (w1 w2 : W)
    (recommended_fee : Z) (s3 : State W) (signed : string) (w4 : W)
    (response : Response) (w5 : W) (status : string) :
  load_public_key app_context (Some 0) (world s) = (Ok public_key, w1) ->
  accounts_call app_context public_key w1 = (Ok account, w2) ->
  Stellar.get_recommended_fee app_context (loaded s (Some 0) public_key w2)
  = (Ok recommended_fee, s3) ->
  sign_transaction app_context (Some 0)
    (envelope public_key account
       (Z.max recommended_fee (200 * Z.of_nat (List.length ops)))
       (time_time app_context (world s3)) ops (Some (Payouts.memo_or_default memo_text)))
    (world s3)
  = (Ok signed, w4) ->
  post app_context signed w4 = (Ok response, w5) ->
  tx_status response = Some status ->
  status <> "ERROR" ->
  exists s',
    Payouts.submit_chunk app_context retries_left attempt chunk ops memo_text confirm_mode
      submit_sleep_seconds retry_backoff_seconds s
    = (Ok (map (fun b => (b, Payouts.Submitted response)) chunk), s')
    /\ filter is_post (log s') = (filter is_post (log s) ++ [EvPost signed])%list.
Proof.
  intros Hpk Hacc Hfee Hsign Hpost Hstatus Hne.
  apply String.eqb_neq in Hne.
  destruct (build_and_submit_answered app_context (Some 0) ops
              (Some (Payouts.memo_or_default memo_text)) s public_key account w1 w2
              recommended_fee s3 signed w4 response w5 status
              Hpk Hacc Hfee Hsign Hpost Hstatus Hne) as (s5 & Hbuild & Hposts).
  destruct (after_acceptance_no_post app_context confirm_mode (hash response)
              submit_sleep_seconds
              (map (fun b => (b, Payouts.Submitted response)) chunk) s5)
    as (s' & Hafter & Hquiet).
  exists s'. split; [|rewrite Hquiet; exact Hposts].
  assert (Honce : Payouts.submit_once app_context chunk ops memo_text confirm_mode
                    submit_sleep_seconds s
                  = (Ok (map (fun b => (b, Payouts.Submitted response)) chunk), s')).
  { unfold Payouts.submit_once. rewrite (bind_run _ _ _ _ _ Hbuild). exact Hafter. }
  destruct retries_left; simpl; rewrite (try_run _ _ _ _ _ Honce); reflexivity.
Qed.

Lemma payout_answer_other_than_error_is_not_retried_witness :
  let run :=
    Payouts.submit_chunk (Scripted.context "GFEE" None) 5 0 [lp_item]
      (Payouts.build_lmnr_payments [lp_item] "LMNR" "GISSUER") None false 2 2
      (Scripted.start busy_world) in
  exists s',
    run = (Ok [(lp_item, Payouts.Submitted try_again_later)], s')
    /\ filter is_post (log s') = [EvPost "signed"].
Proof.
  intros run.
  apply (payout_answer_other_than_error_is_not_retried (Scripted.context "GFEE" None)
           [lp_item] (Payouts.build_lmnr_payments [lp_item] "LMNR" "GISSUER") None false
           2 2 5%nat 0 (Scripted.start busy_world) "GPAYER" (Scripted.xlm_account 100 3)
           busy_world busy_world 10000
           (mk_state busy_world
              [EvLoadPublicKey (Some 0); EvLoadAccount "GPAYER"; EvQuery "ledgers";
               EvQuery "transactions"])
           "signed" busy_world try_again_later (snd (Scripted.next_post busy_world))
           "TRY_AGAIN_LATER").
  - reflexivity.
  - reflexivity.
  - reflexivity.
  - reflexivity.
  - reflexivity.
  - reflexivity.
  - discriminate.
Defined.

(** ** The reward calculator *)

Lemma quantize_down7_bounds (x : Q) :
  (0 <= x)%Q ->
  (0 <= Calculator.quantize_down7 x)%Q
  /\ (Calculator.quantize_down7 x <= x)%Q
  /\ (x < Calculator.quantize_down7 x + stroop)%Q.
Proof.
  intros Hx. unfold Calculator.quantize_down7, Calculator.truncate.
  set (y := (x * inject_Z 10000000)%Q).
  assert (Hy : (0 <= y)%Q).
  { unfold y. apply Qmult_le_0_compat; [exact Hx | vm_compute; discriminate]. }
  assert (Hb : Qle_bool 0 y = true) by (apply Qle_bool_iff; exact Hy).
  rewrite Hb.
  pose proof (Qfloor_le y) as Hlow. pose proof (Qlt_floor y) as Hup.
  assert (Hnn : (0 <= Qfloor y)%Z).
  { change 0%Z with (Qfloor 0). apply Qfloor_resp_le. exact Hy. }
  assert (Hx' : (x == y / inject_Z 10000000)%Q).
  { unfold y. field. }
  split; [|split].
  - unfold Qdiv. apply Qmult_le_0_compat; [|vm_compute; discriminate].
    change 0%Q with (inject_Z 0). rewrite <- Zle_Qle. exact Hnn.
  - apply Qle_trans with (y / inject_Z 10000000)%Q.
    + unfold Qdiv. apply Qmult_le_compat_r; [exact Hlow | vm_compute; discriminate].
    + rewrite <- Hx'. apply Qle_refl.
  - apply Qle_lt_trans with (y / inject_Z 10000000)%Q.
    + rewrite <- Hx'. apply Qle_refl.
    + setoid_replace (inject_Z (Qfloor y) / inject_Z 10000000 + stroop)%Q
        with (inject_Z (Qfloor y + 1) / inject_Z 10000000)%Q
        by (rewrite inject_Z_plus; unfold stroop; field).
      unfold Qdiv. apply Qmult_lt_compat_r; [reflexivity | exact Hup].
Qed.


Lemma pro_rata_nonneg (total_shares balance : Q) :
  (0 < total_shares)%Q -> (0 <= balance)%Q -> (0 <= pro_rata total_shares balance)%Q.
Proof.
  intros Ht Hb. unfold pro_rata.
  apply Qmult_le_0_compat; [vm_compute; discriminate|].
  unfold Qdiv. apply Qmult_le_0_compat; [exact Hb|].
  apply Qlt_le_weak, Qinv_lt_0_compat. exact Ht.
Qed.



Lemma hourly_sum_bound (total_shares : Q) (records : list Calculator.Holder) :
  (0 < total_shares)%Q ->
  Forall (fun holder => (0 <= Calculator.holder_balance holder)%Q) records ->
  (Qsum (map Calculator.hourly_amount_lmnr
           (Calculator.compute_percentages_and_hourly
              {| Calculator.total_shares := total_shares; Calculator.records := records |}))
   <= Calculator.HOURLY_REWARD_PER_POOL / total_shares
      * Qsum (map Calculator.holder_balance records))%Q.
Proof.
  intros Hpos Hall. unfold Calculator.compute_percentages_and_hourly. cbn.
  assert (Hq : Qltb 0 total_shares = true) by (apply Qltb_lt; exact Hpos).
  rewrite Hq.
  induction Hall as [|holder rest Hbal Hrest IH]; simpl.
  - rewrite Qmult_0_r. apply Qle_refl.
  - destruct (quantize_down7_bounds
                (pro_rata total_shares (Calculator.holder_balance holder))
                (pro_rata_nonneg _ _ Hpos Hbal)) as (_ & Hle & _).
    unfold pro_rata in Hle.
    setoid_replace (Calculator.HOURLY_REWARD_PER_POOL / total_shares
                    * (Calculator.holder_balance holder
                       + Qsum (map Calculator.holder_balance rest)))%Q
      with (Calculator.HOURLY_REWARD_PER_POOL
              * (Calculator.holder_balance holder / total_shares)
            + Calculator.HOURLY_REWARD_PER_POOL / total_shares
              * Qsum (map Calculator.holder_balance rest))%Q.
    + apply Qplus_le_compat; [exact Hle | exact IH].
    + field. intros E. rewrite E in Hpos. discriminate Hpos.
Qed.

(** X17. When the balances are non-negative and add up to at most the total
    of shares, the hourly amounts of a pool add up to at most the hourly
    reward of the pool: rounding never pays out more than the reward. *)
Theorem hourly_amounts_never_exceed_the_pool_reward (snapshot : Calculator.Snapshot) :
  (0 < Calculator.total_shares snapshot)%Q ->
  Forall (fun holder => (0 <= Calculator.holder_balance holder)%Q)
    (Calculator.records snapshot) ->
  (Qsum (map Calculator.holder_balance (Calculator.records snapshot))
   <= Calculator.total_shares snapshot)%Q ->
  (Qsum (map Calculator.hourly_amount_lmnr
           (Calculator.compute_percentages_and_hourly snapshot))
   <= Calculator.HOURLY_REWARD_PER_POOL)%Q.
Proof.
  destruct snapshot as [total_shares records]. cbn [Calculator.total_shares Calculator.records].
  intros Hpos Hall Hsum.
  eapply Qle_trans; [apply hourly_sum_bound; assumption|].
  assert (Hc : (0 <= Calculator.HOURLY_REWARD_PER_POOL / total_shares)%Q).
  { unfold Qdiv. apply Qmult_le_0_compat; [vm_compute; discriminate|].
    apply Qlt_le_weak, Qinv_lt_0_compat. exact Hpos. }
  setoid_replace Calculator.HOURLY_REWARD_PER_POOL
    with (Calculator.HOURLY_REWARD_PER_POOL / total_shares * total_shares)%Q at 2.
  - rewrite !(Qmult_comm (Calculator.HOURLY_REWARD_PER_POOL / total_shares)).
    apply Qmult_le_compat_r; assumption.
  - field. intros E. rewrite E in Hpos. discriminate Hpos.
Qed.

Lemma hourly_amounts_never_exceed_the_pool_reward_witness :
  (Qsum (map Calculator.hourly_amount_lmnr
           (Calculator.compute_percentages_and_hourly three_holders))
   <= Calculator.HOURLY_REWARD_PER_POOL)%Q.
Proof.
  apply (hourly_amounts_never_exceed_the_pool_reward three_holders).
  - reflexivity.
  - repeat constructor; vm_compute; discriminate.
  - vm_compute. discriminate.
Defined.

(** ** Labels of pools and memos of payouts *)

Lemma not_mentions_cons (sep c : ascii) (s : string) :
  ~ mentions sep (String c s) -> Ascii.eqb c sep = false /\ ~ mentions sep s.
Proof.
  intros H. split.
  - apply Ascii.eqb_neq. intros ->. apply H. left. reflexivity.
  - intros Hs. apply H. right. exact Hs.
Qed.

Lemma split_cons_other (sep c : ascii) (s : string) :
  Ascii.eqb c sep = false ->
  Cli.split sep (String c s)
  = match Cli.split sep s with
    | piece :: pieces => String c piece :: pieces
    | [] => [String c EmptyString]
    end.
Proof. intros H. simpl. rewrite H. reflexivity. Qed.

Lemma split_whole (sep : ascii) (s : string) :
  ~ mentions sep s -> Cli.split sep s = [s].
Proof.
  induction s as [|c s IH]; intros H; [reflexivity|].
  destruct (not_mentions_cons sep c s H) as [Hc Hs].
  rewrite (split_cons_other sep c s Hc), (IH Hs). reflexivity.
Qed.

Lemma split_at (sep : ascii) (a b : string) :
  ~ mentions sep a -> Cli.split sep (a ++ String sep b) = a :: Cli.split sep b.
Proof.
  induction a as [|c a IH]; intros H.
  - simpl. rewrite Ascii.eqb_refl. reflexivity.
  - destruct (not_mentions_cons sep c a H) as [Hc Ha].
    change (String c a ++ String sep b) with (String c (a ++ String sep b)).
    rewrite (split_cons_other sep c _ Hc), (IH Ha). reflexivity.
Qed.

Lemma before_whole (sep : ascii) (s : string) :
  ~ mentions sep s -> Cli.before sep s = s.
Proof.
  induction s as [|c s IH]; intros H; [reflexivity|].
  destruct (not_mentions_cons sep c s H) as [Hc Hs].
  simpl. rewrite Hc, (IH Hs). reflexivity.
Qed.

Lemma before_at (sep : ascii) (a b : string) :
  ~ mentions sep a -> Cli.before sep (a ++ String sep b) = a.
Proof.
  induction a as [|c a IH]; intros H.
  - simpl. rewrite Ascii.eqb_refl. reflexivity.
  - destruct (not_mentions_cons sep c a H) as [Hc Ha].
    change (String c a ++ String sep b) with (String c (a ++ String sep b)).
    simpl. rewrite Hc, (IH Ha). reflexivity.
Qed.

Lemma not_mentions_append (c : ascii) (s1 s2 : string) :
  ~ mentions c s1 -> ~ mentions c s2 -> ~ mentions c (s1 ++ s2).
Proof.
  intros H1 H2 H. apply mentions_append in H. tauto.
Qed.

Lemma append_assoc (a b c : string) : (a ++ b) ++ c = a ++ b ++ c.
Proof.
  induction a as [|x a IH]; [reflexivity|]. simpl. rewrite IH. reflexivity.
Qed.

Lemma length_append (a b : string) :
  String.length (a ++ b) = (String.length a + String.length b)%nat.
Proof.
  induction a as [|x a IH]; [reflexivity|]. simpl. rewrite IH. reflexivity.
Qed.

Lemma substring_whole (s : string) (n : nat) :
  (String.length s <= n)%nat -> String.substring 0 n s = s.
Proof.
  revert n. induction s as [|c s IH]; intros n H.
  - destruct n; reflexivity.
  - destruct n as [|n]; [simpl in H; lia|].
    simpl. rewrite IH by (simpl in H; lia). reflexivity.
Qed.

Lemma substring_length_le (s : string) (n : nat) :
  (String.length (String.substring 0 n s) <= n)%nat.
Proof.
  revert n. induction s as [|c s IH]; intros n.
  - destruct n; simpl; lia.
  - destruct n as [|n]; simpl; [lia|]. specialize (IH n). lia.
Qed.

Lemma mentions_colon_middle (code issuer : string) :
  mentions ":" (code ++ ":" ++ issuer).
Proof.
  induction code as [|c code IH]; [left; reflexivity | right; exact IH].
Qed.

Lemma credit_is_not_native (code issuer : string) :
  String.eqb (code ++ ":" ++ issuer) "native" = false.
Proof.
  apply String.eqb_neq. intros E.
  pose proof (mentions_colon_middle code issuer) as H. rewrite E in H.
  vm_compute in H. repeat (destruct H as [H|H]; [discriminate H|]). exact H.
Qed.

(** X18. The memo of a payout, computed from a label of the discovery: for a
    pool of an asset CODE:ISSUER with the reward asset it is "CODE <reward
    code> LP" (or the two codes the other way round for the reverse label),
    without the issuer; for a pool with lumens it is "XLM <reward code> LP";
    codes of at most 12 characters are never cut, and no memo is longer than
    28 characters. *)
Theorem payout_memo_names_the_codes_of_the_pool (code issuer lmnr_code : string) :
  ~ mentions "-" code -> ~ mentions ":" code ->
  ~ mentions "-" issuer ->
  ~ mentions "-" lmnr_code -> ~ mentions ":" lmnr_code ->
  (String.length code <= 12)%nat -> (String.length lmnr_code <= 12)%nat ->
  Cli.human_readable_memo (Discovery.label lmnr_code (Some (code ++ ":" ++ issuer)))
  = code ++ " " ++ lmnr_code ++ " LP"
  /\ Cli.human_readable_memo (Discovery.rev lmnr_code (Some (code ++ ":" ++ issuer)))
     = lmnr_code ++ " " ++ code ++ " LP"
  /\ Cli.human_readable_memo (Discovery.label lmnr_code (Some "native"))
     = "XLM " ++ lmnr_code ++ " LP"
  /\ forall label, (String.length (Cli.human_readable_memo label) <= 28)%nat.
Proof.
  intros Hcode1 Hcode2 Hissuer Hlmnr1 Hlmnr2 Hlen1 Hlen2.
  assert (Hasset : ~ mentions "-" (code ++ ":" ++ issuer)).
  { apply not_mentions_append; [exact Hcode1|].
    apply not_mentions_append; [|exact Hissuer].
    vm_compute. intros [H|H]; [discriminate H | exact H]. }
  assert (Hxlm : ~ mentions "-" "XLM").
  { vm_compute. intros H. repeat (destruct H as [H|H]; [discriminate H|]). exact H. }
  split; [|split; [|split]].
  - unfold Cli.human_readable_memo, Discovery.label, Discovery.other_label.
    rewrite credit_is_not_native. cbv zeta.
    change ("-" ++ lmnr_code) with (String "-" lmnr_code).
    rewrite (split_at "-" _ lmnr_code Hasset), (split_whole "-" lmnr_code Hlmnr1).
    cbn [map].
    change (":" ++ issuer) with (String ":" issuer).
    rewrite (before_at ":" code issuer Hcode2), (before_whole ":" lmnr_code Hlmnr2).
    cbn [Cli.join]. rewrite !append_assoc.
    apply substring_whole. rewrite !length_append. simpl. lia.
  - unfold Cli.human_readable_memo, Discovery.rev, Discovery.other_label.
    rewrite credit_is_not_native. cbv zeta.
    change ("-" ++ code ++ ":" ++ issuer) with (String "-" (code ++ ":" ++ issuer)).
    rewrite (split_at "-" lmnr_code _ Hlmnr1), (split_whole "-" _ Hasset).
    cbn [map].
    change (":" ++ issuer) with (String ":" issuer).
    rewrite (before_at ":" code issuer Hcode2), (before_whole ":" lmnr_code Hlmnr2).
    cbn [Cli.join]. rewrite !append_assoc.
    apply substring_whole. rewrite !length_append. simpl. lia.
  - unfold Cli.human_readable_memo, Discovery.label, Discovery.other_label.
    change (String.eqb "native" "native") with true. cbv iota zeta.
    change ("XLM" ++ "-" ++ lmnr_code) with ("XLM" ++ String "-" lmnr_code).
    rewrite (split_at "-" "XLM" lmnr_code Hxlm), (split_whole "-" lmnr_code Hlmnr1).
    cbn [map].
    rewrite (before_whole ":" lmnr_code Hlmnr2).
    change (Cli.before ":" "XLM") with "XLM".
    cbn [Cli.join]. rewrite !append_assoc.
    apply substring_whole. rewrite !length_append. simpl. lia.
  - intros label. apply substring_length_le.
Qed.

Lemma payout_memo_names_the_codes_of_the_pool_witness :
  Cli.human_readable_memo (Discovery.label "LMNR" (Some ("USDC" ++ ":" ++ some_issuer)))
  = "USDC" ++ " " ++ "LMNR" ++ " LP"
  /\ Cli.human_readable_memo (Discovery.rev "LMNR" (Some ("USDC" ++ ":" ++ some_issuer)))
     = "LMNR" ++ " " ++ "USDC" ++ " LP"
  /\ Cli.human_readable_memo (Discovery.label "LMNR" (Some "native"))
     = "XLM " ++ "LMNR" ++ " LP"
  /\ forall label, (String.length (Cli.human_readable_memo label) <= 28)%nat.
Proof.
  apply (payout_memo_names_the_codes_of_the_pool "USDC" some_issuer "LMNR");
    try (vm_compute; lia);
    vm_compute; intros H; repeat (destruct H as [H|H]; [discriminate H|]); exact H.
Defined.
